(** * Adaptive-threshold ransomware monitor ([main.py]): a shallow embedding

    The development follows [main.py] section by section: the robust
    sampler, the watchdog handler, the baseline update, the two detector
    call sites, the alert dispatcher and the poll iteration.

    Numbers.  Python [int]s and [float]s are embedded as exact rationals
    ([Q]); numeric results are therefore stated up to [Qeq] ([==]).
    Dictionaries keyed by strings are [gmap string _], sets of paths are
    [gset string].  Module-level globals are the fields of [world];
    functions that read or write them run in the monad [M], which threads
    the world and keeps it when an exception is raised, as Python does.

    Time.  [time.sleep] only delays the caller and is left out; the clock
    of the event loop advances through [advance], which also runs the
    [reset_response_flag] coroutines that are due.  Calls are sequential:
    each function runs to its end before the next signal is handled. *)

From Stdlib Require Import QArith Qabs Lqa.
From stdpp Require Import gmap strings list fin_maps sorting.

Local Open Scope Q_scope.
Local Set Warnings "-clear-no-such-hyp".

(** ** Python values stored in the [data] dictionary *)

#[warnings="-register-all"] Inductive value : Type :=
| VNone
| VNum (q : Q)
| VBool (b : bool)
| VStr (s : string)
| VDict (d : gmap string value).

Abbreviation dict := (gmap string value).

Definition VInt (n : nat) : value := VNum (inject_Z (Z.of_nat n)).

(** Exceptions that the modelled code can raise. *)
Inductive exn : Type :=
| TypeError
| KeyError (key : string)
| IOError.

Inductive outcome (A : Type) : Type :=
| Ok (a : A)
| Raise (e : exn).
Arguments Ok {A} a.
Arguments Raise {A} e.

Global Instance outcome_ret : MRet outcome := fun A a => Ok a.
Global Instance outcome_bind : MBind outcome := fun A B f m =>
  match m with
  | Ok a => f a
  | Raise e => Raise e
  end.

(** [data[key]]: a missing key raises [KeyError]. *)
Definition getitem (data : dict) (key : string) : outcome value :=
  match data !! key with
  | Some v => Ok v
  | None => Raise (KeyError key)
  end.

(** Arithmetic on a Python value: numbers and booleans are numeric,
    everything else raises [TypeError].  Numbers are exact rationals: an
    [int] beyond the binary64 range, which Python refuses to convert to
    [float] with [OverflowError], has no outcome of its own here. *)
Definition as_number (v : value) : outcome Q :=
  match v with
  | VNum q => Ok q
  | VBool b => Ok (if b then 1 else 0)
  | _ => Raise TypeError
  end.

(** ** Helper function: robust averaging *)

Module Sampler.

Fixpoint insert_sorted (x : Q) (l : list Q) : list Q :=
  match l with
  | [] => [x]
  | y :: l' => if Qle_bool x y then x :: l else y :: insert_sorted x l'
  end.

Definition sort (l : list Q) : list Q := foldr insert_sorted [] l.

(** [np.median]: the middle element of the sorted samples, or the mean
    of the two middle elements when their number is even. *)
Definition median (vals : list Q) : Q :=
  let s := sort vals in
  let n := length s in
  if Nat.even n
  then (nth (n / 2 - 1) s 0 + nth (n / 2) s 0) / 2
  else nth (n / 2) s 0.

Definition sum (l : list Q) : Q := foldr Qplus 0 l.

(** A signal source is represented by the outcome of each of its
    invocations in one batch: [func i] is what the [i]-th call returns,
    [None] when it raises.  [collect] is the sampling loop: an
    invocation that raises is logged and skipped. *)
Definition collect (func : nat -> option Q) (samples : nat) : list Q :=
  omap func (seq 0 samples).

Definition within (median_val outlier_threshold v : Q) : bool :=
  Qle_bool (Qabs (v - median_val) / Qabs median_val) outlier_threshold.

(** [robust_average func samples delay outlier_threshold]; the pause
    between samples has no effect on the result and is left out.  The
    result is [None] exactly where Python returns [None]. *)
Definition robust_average (func : nat -> option Q) (samples : nat)
    (outlier_threshold : Q) : option Q :=
  let vals := collect func samples in
  match vals with
  | [] => None
  | _ =>
      let median_val := median vals in
      if Qeq_bool median_val 0 then Some 0
      else
        let filtered :=
          filter (fun v => within median_val outlier_threshold v = true)
            vals in
        match filtered with
        | [] => Some median_val
        | _ => Some (sum filtered / inject_Z (Z.of_nat (length filtered)))
        end
  end.

Definition default_outlier_threshold : Q := 2 # 10.

(** Four readings of 10 and one spike of 1000. *)
Definition spike : nat -> option Q :=
  fun i => nth i [Some 10; Some 10; Some 10; Some 10; Some 1000] None.

(** The source answers at least one of its [samples] invocations. *)
Definition responds (func : nat -> option Q) (samples : nat) : Prop :=
  exists i, (i < samples)%nat /\ is_Some (func i).

End Sampler.

Global Instance Qle_decision (x y : Q) : Decision (x <= y).
Proof. destruct (Qlt_le_dec y x) as [H|H]; [right; lra | left; exact H]. Defined.

(** ** File monitoring using watchdog *)

Module Watchdog.

Record fs_event : Type := FsEvent {
  is_directory : bool;
  src_path : string;
  dest_path : string
}.

Record FileMonitorHandler : Type := Handler {
  modified_files : gset string;
  renamed_files : gset string;
  deleted_files : gset string
}.

(** [__init__] *)
Definition init : FileMonitorHandler := Handler ∅ ∅ ∅.

Definition on_modified (self : FileMonitorHandler) (event : fs_event)
    : FileMonitorHandler :=
  if is_directory event then self
  else Handler ({[src_path event]} ∪ modified_files self)
               (renamed_files self) (deleted_files self).

Definition on_created (self : FileMonitorHandler) (event : fs_event)
    : FileMonitorHandler :=
  if is_directory event then self
  else Handler ({[src_path event]} ∪ modified_files self)
               (renamed_files self) (deleted_files self).

Definition on_deleted (self : FileMonitorHandler) (event : fs_event)
    : FileMonitorHandler :=
  if is_directory event then self
  else Handler (modified_files self) (renamed_files self)
               ({[src_path event]} ∪ deleted_files self).

Definition on_moved (self : FileMonitorHandler) (event : fs_event)
    : FileMonitorHandler :=
  if is_directory event then self
  else Handler (modified_files self)
               ({[dest_path event]} ∪ renamed_files self)
               (deleted_files self).

(** [get_file_event_counts]: the counts dictionary and the handler
    after the three [clear()] calls. *)
Definition get_file_event_counts (self : FileMonitorHandler)
    : gmap string nat * FileMonitorHandler :=
  let counts : gmap string nat :=
    <["modified" := size (modified_files self)]>
    (<["renamed" := size (renamed_files self)]>
    (<["deleted" := size (deleted_files self)]> ∅)) in
  (counts, Handler ∅ ∅ ∅).

(** The callbacks the observer delivers, in delivery order. *)
Inductive callback : Type :=
| Modified (event : fs_event)
| Created (event : fs_event)
| Deleted (event : fs_event)
| Moved (event : fs_event).

Definition dispatch (self : FileMonitorHandler) (c : callback)
    : FileMonitorHandler :=
  match c with
  | Modified e => on_modified self e
  | Created e => on_created self e
  | Deleted e => on_deleted self e
  | Moved e => on_moved self e
  end.

Definition deliver (self : FileMonitorHandler) (cs : list callback)
    : FileMonitorHandler :=
  foldl dispatch self cs.

(** The path that a callback records in each of the three sets, if any. *)
Definition modified_path (c : callback) : option string :=
  match c with
  | Modified e | Created e =>
      if is_directory e then None else Some (src_path e)
  | _ => None
  end.

Definition renamed_path (c : callback) : option string :=
  match c with
  | Moved e => if is_directory e then None else Some (dest_path e)
  | _ => None
  end.

Definition deleted_path (c : callback) : option string :=
  match c with
  | Deleted e => if is_directory e then None else Some (src_path e)
  | _ => None
  end.

(** Number of distinct paths that [cs] records through [sel]. *)
Definition distinct (sel : callback -> option string) (cs : list callback)
    : nat :=
  size (list_to_set (omap sel cs) : gset string).

(** A modification event for the file at [path]. *)
Definition modify_file (path : string) : callback :=
  Modified (FsEvent false path "").

End Watchdog.

(** ** Baseline updating *)

Module Baseline.

Record stats : Type := Stats { mean : Q; std : Q }.

(** The module-level [baseline_stats] literal. *)
Definition initial_baseline_stats : gmap string stats :=
  list_to_map [
    ("cpu_usage", Stats 20 5);
    ("memory_usage", Stats 30 10);
    ("disk_usage", Stats 40 10);
    ("modified", Stats 2 1);
    ("renamed", Stats 1 (1 # 2));
    ("deleted", Stats 1 (1 # 2));
    ("entropy_alerts", Stats 3 1);
    ("unauth_proc_count", Stats 0 0);
    ("shadow_copy_flag", Stats 0 0);
    ("registry_alerts_count", Stats 0 0);
    ("susp_net_count", Stats 0 0);
    ("susp_ext_count", Stats 0 0);
    ("proc_injection", Stats 0 0);
    ("sys_call_anomaly", Stats 0 0);
    ("total_net_connections", Stats 50 20)
  ].

(** [new_data.get(key, stats['mean'])], then used in arithmetic. *)
Definition new_value_of (new_data : dict) (key : string) (st : stats)
    : outcome Q :=
  match new_data !! key with
  | Some v => as_number v
  | None => Ok (mean st)
  end.

Definition update_stats (alpha : Q) (st : stats) (new_value : Q) : stats :=
  let updated_mean := (1 - alpha) * mean st + alpha * new_value in
  let updated_std :=
    (1 - alpha) * std st + alpha * Qabs (new_value - updated_mean) in
  Stats updated_mean updated_std.

(** The body of the [for key, stats in baseline.items()] loop, with
    [updated] as accumulator. *)
Fixpoint update_items (items : list (string * stats)) (new_data : dict)
    (alpha : Q) (updated : gmap string stats)
    : outcome (gmap string stats) :=
  match items with
  | [] => Ok updated
  | (key, st) :: rest =>
      new_value ← new_value_of new_data key st;
      update_items rest new_data alpha
        (<[key := update_stats alpha st new_value]> updated)
  end.

Definition update_baseline (baseline : gmap string stats) (new_data : dict)
    (alpha : Q) : outcome (gmap string stats) :=
  update_items (map_to_list baseline) new_data alpha ∅.

Definition default_alpha : Q := 1 # 10.

(** [observe n]: [n] successive update steps with the same observation. *)
Fixpoint observe (n : nat) (baseline : gmap string stats) (new_data : dict)
    (alpha : Q) : outcome (gmap string stats) :=
  match n with
  | O => Ok baseline
  | S n' =>
      updated ← update_baseline baseline new_data alpha;
      observe n' updated new_data alpha
  end.

(** Every value that the update reads from [new_data] is a number. *)
Definition numeric_on (baseline : gmap string stats) (new_data : dict)
    : Prop :=
  forall key st v, baseline !! key = Some st -> new_data !! key = Some v ->
    exists x, v = VNum x.

(** The fifteen features that [baseline_stats] tracks. *)
Definition baseline_keys : list string :=
  ["cpu_usage"; "memory_usage"; "disk_usage"; "modified"; "renamed";
   "deleted"; "entropy_alerts"; "unauth_proc_count"; "shadow_copy_flag";
   "registry_alerts_count"; "susp_net_count"; "susp_ext_count";
   "proc_injection"; "sys_call_anomaly"; "total_net_connections"].

Definition tracks_features (baseline : gmap string stats) : Prop :=
  forall key, is_Some (baseline !! key) -> key ∈ baseline_keys.

End Baseline.

(** ** Global state, effects and the monad of the monitoring code *)

Module Monitor.
Import Sampler Watchdog Baseline.

(** A connected WebSocket client.  [send_raises] tells whether handing
    [client.send_json(message)] to the event loop raises for it. *)
Record client : Type := Client { client_id : nat; send_raises : bool }.

Record message : Type := Message {
  msg_type : string;
  msg_alert : option string;
  msg_data : value
}.

(** What the code does to its collaborators, in program order.  A
    [logging] call is kept as a [Logged] entry; the handler that forwards
    log records to the clients (messages of type "live_tracking_log") is
    left out.  The payload of a message is the dictionary as it is when
    the message is built. *)
Inductive effect : Type :=
| Blocked (directory : string)
| Sent (to : nat) (m : message)
| Logged (record : string) (args : list value)
| Audited (row : list value).

(** The module-level globals, the event loop's clock and pending
    [reset_response_flag] coroutines (by due time), and the effects
    performed so far, newest first, each stamped with the clock. *)
Record world : Type := World {
  file_monitor_handler_global : option FileMonitorHandler;
  baseline_stats : gmap string stats;
  response_triggered_flag : bool;
  action_blocked : bool;
  connected_clients : list client;
  clock : N;
  pending_resets : list N;
  trace : list (N * effect)
}.

Definition M (A : Type) : Type := world -> outcome A * world.

Global Instance M_ret : MRet M := fun A a w => (Ok a, w).
Global Instance M_bind : MBind M := fun A B f m w =>
  match m w with
  | (Ok a, w') => f a w'
  | (Raise e, w') => (Raise e, w')
  end.

Definition lift {A} (o : outcome A) : M A := fun w => (o, w).
Definition gets {A} (f : world -> A) : M A := fun w => (Ok (f w), w).
Definition modify (f : world -> world) : M unit := fun w => (Ok tt, f w).

Definition set_handler (h : option FileMonitorHandler) (w : world) : world :=
  World h (baseline_stats w) (response_triggered_flag w) (action_blocked w)
    (connected_clients w) (clock w) (pending_resets w) (trace w).
Definition set_baseline_stats (b : gmap string stats) (w : world) : world :=
  World (file_monitor_handler_global w) b (response_triggered_flag w)
    (action_blocked w) (connected_clients w) (clock w) (pending_resets w)
    (trace w).
Definition set_flag (b : bool) (w : world) : world :=
  World (file_monitor_handler_global w) (baseline_stats w) b
    (action_blocked w) (connected_clients w) (clock w) (pending_resets w)
    (trace w).
Definition set_action_blocked (b : bool) (w : world) : world :=
  World (file_monitor_handler_global w) (baseline_stats w)
    (response_triggered_flag w) b (connected_clients w) (clock w)
    (pending_resets w) (trace w).
Definition set_timers (clk : N) (timers : list N) (w : world) : world :=
  World (file_monitor_handler_global w) (baseline_stats w)
    (response_triggered_flag w) (action_blocked w) (connected_clients w)
    clk timers (trace w).
Definition record_effect (e : effect) (w : world) : world :=
  World (file_monitor_handler_global w) (baseline_stats w)
    (response_triggered_flag w) (action_blocked w) (connected_clients w)
    (clock w) (pending_resets w) ((clock w, e) :: trace w).

Definition emit (e : effect) : M unit := modify (record_effect e).

(** [logging.info(f"...")]: the values interpolated in the f-string are
    looked up in [data] first, so a missing key raises [KeyError]. *)
Fixpoint lookup_all (data : dict) (keys : list string) : outcome (list value) :=
  match keys with
  | [] => Ok []
  | key :: rest =>
      v ← getitem data key;
      vs ← lookup_all data rest;
      mret (v :: vs)
  end.

Definition log_info (record : string) (data : dict) (keys : list string)
    : M unit :=
  args ← lift (lookup_all data keys);
  emit (Logged record args).

(** *** Blocking functionality and notifications *)

Definition MONITOR_PATH : string := "C:\Users\Home\Documents".

(** [block_directory] catches its own errors: it always returns. *)
Definition block_directory (directory : string) : M unit :=
  emit (Blocked directory).

(** The [for client in connected_clients] loop with its per-client
    [try]/[except]. *)
Fixpoint send_each (clients : list client) (m : message)
    (on_error : string) : M unit :=
  match clients with
  | [] => mret tt
  | c :: rest =>
      (if send_raises c then emit (Logged on_error [])
       else emit (Sent (client_id c) m));;
      send_each rest m on_error
  end.

Definition notify_clients (alert_message : message) : M unit :=
  clients ← gets connected_clients;
  send_each clients alert_message "Error sending alert to client.".

Definition alert_text : string :=
  "Potential ransomware activity detected! Immediate action is recommended to be safe. All further actions are blocked.".

(** [asyncio.run_coroutine_threadsafe(reset_response_flag(delay), main_loop)] *)
Definition schedule_reset (delay : N) : M unit :=
  modify (fun w => set_timers (clock w) (pending_resets w ++ [(clock w + delay)%N]) w).

Definition alert_message (data : dict) : message :=
  Message "alert" (Some alert_text) (VDict data).

Definition trigger_response (data : dict) : M unit :=
  flag ← gets response_triggered_flag;
  if flag : bool then (mret tt : M unit)
  else
    modify (set_flag true);;
    modify (set_action_blocked true);;
    block_directory MONITOR_PATH;;
    notify_clients (alert_message data);;
    schedule_reset 60.

(** The event loop runs for [d] time units: every pending
    [reset_response_flag] whose sleep is over clears the flag. *)
Definition advance (d : N) (w : world) : world :=
  let t := (clock w + d)%N in
  let due := filter (fun r => (r ≤ t)%N) (pending_resets w) in
  let waiting := filter (fun r => ¬ (r ≤ t)%N) (pending_resets w) in
  let w' := set_timers t waiting w in
  match due with
  | [] => w'
  | _ => set_flag false w'
  end.

Definition notify_live_tracking (data : dict) : M unit :=
  features ← lift (getitem data "features");
  clients ← gets connected_clients;
  send_each clients (Message "live_tracking" None features)
    "Error sending live tracking data to client.".

(** *** Early alert check *)

Definition watch_list : list string :=
  ["memory_usage"; "disk_usage"; "modified"; "entropy_alerts"].

Definition file_event_keys : list string := ["modified"; "renamed"; "deleted"].

(** [baseline_stats.get(key, {}).get("mean", 1)] *)
Definition base_mean_of (baseline : gmap string stats) (key : string) : Q :=
  match baseline !! key with
  | Some st => mean st
  | None => 1
  end.

Definition Qgtb (x y : Q) : bool := negb (Qle_bool x y).

(** [data[key]] used as a number. *)
Definition number_at (data : dict) (key : string) : outcome Q :=
  v ← getitem data key;
  as_number v.

(** The [for key in [...]] loop of [check_and_trigger_early_alert]; the
    result tells whether the loop left the function through [return].
    [data[key]] is only evaluated when [base_mean > 0]. *)
Fixpoint early_alert_loop (data : dict) (keys : list string) : M bool :=
  match keys with
  | [] => mret false
  | key :: rest =>
      base_mean ← gets (fun w => base_mean_of (baseline_stats w) key);
      fire ← lift (if Qgtb base_mean 0
                   then x ← number_at data key;
                        mret (Qgtb (Qabs (x - base_mean) / base_mean) (85 # 100))
                   else mret false);
      if fire : bool then
        log_info "Early alert: deviated significantly" data [key];;
        trigger_response data;;
        mret true
      else early_alert_loop data rest
  end.

Definition check_and_trigger_early_alert (data : dict) : M unit :=
  returned ← early_alert_loop data watch_list;
  if returned : bool then mret tt
  else
    over ← lift (m ← number_at data "modified";
                 if Qle_bool 30 m then mret true
                 else r ← number_at data "renamed";
                      if Qle_bool 30 r then mret true
                      else d ← number_at data "deleted";
                           mret (Qle_bool 30 d));
    if over : bool then
      log_info "Early alert: File event threshold exceeded" data
        file_event_keys;;
      trigger_response data
    else mret tt.

(** *** The detector of [collect_and_predict] *)

(** [base_mean > 0 and abs(data[key] - base_mean) / base_mean > 0.85] *)
Definition deviates (base_mean : Q) (data : dict) (key : string)
    : outcome bool :=
  if Qgtb base_mean 0 then
    x ← number_at data key;
    mret (Qgtb (Qabs (x - base_mean) / base_mean) (85 # 100))
  else mret false.

(** The loop that sets [sudden_anomaly] and [break]s; the result is the
    value of [sudden_anomaly] after the loop. *)
Fixpoint sudden_anomaly_loop (data : dict) (keys : list string) : M bool :=
  match keys with
  | [] => mret false
  | key :: rest =>
      baseline ← gets baseline_stats;
      hit ← lift (deviates (base_mean_of baseline key) data key);
      if hit : bool then
        log_info "Sudden anomaly detected" data [key];;
        mret true
      else sudden_anomaly_loop data rest
  end.

Definition at_least_30 (data : dict) (key : string) : outcome bool :=
  x ← number_at data key;
  mret (Qle_bool 30 x).

(** [data["modified"] >= 30 or data["renamed"] >= 30 or data["deleted"] >= 30] *)
Definition file_event_rule (data : dict) : outcome bool :=
  m ← at_least_30 data "modified";
  if m : bool then Ok true
  else
    r ← at_least_30 data "renamed";
    if r : bool then Ok true
    else at_least_30 data "deleted".

(** Lines 367-376: the value of [sudden_anomaly] before [detection] is
    assigned. *)
Definition sudden_anomaly_check (data : dict) : M bool :=
  sudden_anomaly ← sudden_anomaly_loop data watch_list;
  over ← lift (file_event_rule data);
  if over : bool then
    log_info "Sudden file event threshold exceeded" data file_event_keys;;
    mret true
  else mret sudden_anomaly.

Definition state_of (detection : nat) : string :=
  if Nat.eqb detection 1 then "ransomware detected" else "normal".

(** Lines 378-381: [detection] and the three entries derived from it. *)
Definition detection_of (sudden_anomaly : bool) : nat :=
  if sudden_anomaly then 1%nat else 0%nat.

Definition classify (detection : nat) (data : dict) : dict :=
  <["ml_model_dedicated" := VBool (Nat.eqb detection 1)]>
  (<["state" := VStr (state_of detection)]>
  (<["ml_detection" := VInt detection]> data)).

(** *** Data collection *)

(** The readings of one gathering pass.  Sampled sources give the
    outcome of each invocation; the probes that catch their own errors
    give the count they return. *)
Record sources : Type := Sources {
  timestamp : string;
  cpu_percent : nat -> option Q;
  virtual_memory_percent : nat -> option Q;
  disk_usage_percent : nat -> option Q;
  directory_entropy : nat;
  unauthorized_process_count_helper : nat -> option Q;
  vssadmin : option bool;
  registry_alerts : nat;
  suspicious_network_count_helper : nat -> option Q;
  suspicious_file_extension_count_helper : nat -> option Q;
  net_connections : nat -> option Q;
  csv_writable : bool
}.

Definition of_sample (r : option Q) : value :=
  match r with
  | Some q => VNum q
  | None => VNone
  end.

Definition get_cpu_usage (src : sources) : value :=
  of_sample (robust_average (cpu_percent src) 5 default_outlier_threshold).
Definition get_memory_usage (src : sources) : value :=
  of_sample (robust_average (virtual_memory_percent src) 5 default_outlier_threshold).
Definition get_disk_usage (src : sources) : value :=
  of_sample (robust_average (disk_usage_percent src) 5 default_outlier_threshold).
Definition get_unauthorized_process_count (src : sources) : value :=
  of_sample (robust_average (unauthorized_process_count_helper src) 5
               default_outlier_threshold).
Definition get_suspicious_network_count (src : sources) : value :=
  of_sample (robust_average (suspicious_network_count_helper src) 5
               default_outlier_threshold).
Definition get_suspicious_file_extension_count (src : sources) : value :=
  of_sample (robust_average (suspicious_file_extension_count_helper src) 3
               default_outlier_threshold).

(** The helper returns 0 when [psutil.net_connections] raises. *)
Definition get_total_network_connections_helper (src : sources) (i : nat)
    : option Q :=
  Some (default 0 (net_connections src i)).
Definition get_total_network_connections (src : sources) : value :=
  of_sample (robust_average (get_total_network_connections_helper src) 5
               default_outlier_threshold).

(** [None]: [vssadmin] exits with an error; [Some b]: its output
    contains [b"Error"] or not. *)
Definition get_shadow_copy_flag (src : sources) : value :=
  match vssadmin src with
  | Some false => VInt 0
  | _ => VInt 1
  end.

Definition no_file_events : gmap string nat :=
  <["modified" := 0%nat]> (<["renamed" := 0%nat]> (<["deleted" := 0%nat]> ∅)).

(** The [data = {...}] literal of [collect_system_data]. *)
Definition snapshot (src : sources) (file_events : gmap string nat) : dict :=
  <["timestamp" := VStr (timestamp src)]>
  (<["cpu_usage" := get_cpu_usage src]>
  (<["memory_usage" := get_memory_usage src]>
  (<["disk_usage" := get_disk_usage src]>
  (<["modified" := VInt (default 0%nat (file_events !! "modified"))]>
  (<["renamed" := VInt (default 0%nat (file_events !! "renamed"))]>
  (<["deleted" := VInt (default 0%nat (file_events !! "deleted"))]>
  (<["entropy_alerts" := VInt (directory_entropy src)]>
  (<["unauth_proc_count" := get_unauthorized_process_count src]>
  (<["shadow_copy_flag" := get_shadow_copy_flag src]>
  (<["registry_alerts_count" := VInt (registry_alerts src)]>
  (<["susp_net_count" := get_suspicious_network_count src]>
  (<["susp_ext_count" := get_suspicious_file_extension_count src]>
  (<["proc_injection" := VInt 0]>
  (<["sys_call_anomaly" := VInt 0]>
  (<["total_net_connections" := get_total_network_connections src]>
  (<["crypto_api_calls" := VInt 0]> ∅)))))))))))))))).

(** [file_monitor_handler_global.get_file_event_counts() if
    file_monitor_handler_global else {...}], with the handler as the
    call leaves it. *)
Definition drain_file_events (handler : option FileMonitorHandler)
    : gmap string nat * option FileMonitorHandler :=
  match handler with
  | Some h =>
      let '(counts, h') := get_file_event_counts h in (counts, Some h')
  | None => (no_file_events, None)
  end.

Definition collect_system_data (src : sources) : M dict := fun w =>
  let '(file_events, handler) :=
    drain_file_events (file_monitor_handler_global w) in
  (Ok (snapshot src file_events), set_handler handler w).

(** *** Detection cycle *)

(** The fourteen keys of the [features] list and of [data["features"]]. *)
Definition feature_keys : list string :=
  ["memory_usage"; "disk_usage"; "modified"; "renamed"; "deleted";
   "entropy_alerts"; "unauth_proc_count"; "shadow_copy_flag";
   "registry_alerts_count"; "susp_net_count"; "susp_ext_count";
   "proc_injection"; "sys_call_anomaly"; "total_net_connections"].

(** The dictionary display [{k: data[k], ...}]. *)
Fixpoint select (data : dict) (keys : list string) : outcome dict :=
  match keys with
  | [] => Ok ∅
  | key :: rest =>
      v ← getitem data key;
      d ← select data rest;
      mret (<[key := v]> d)
  end.

Definition collect_and_predict (src : sources) : M dict :=
  data ← collect_system_data src;
  check_and_trigger_early_alert data;;
  _ ← lift (lookup_all data feature_keys);
  sudden_anomaly ← sudden_anomaly_check data;
  let detection := detection_of sudden_anomaly in
  let data := classify detection data in
  data ← (if Nat.eqb detection 1
          then trigger_response data;;
               mret (<["response_triggered" := VBool true]> data)
          else mret (<["response_triggered" := VBool false]> data));
  baseline ← gets baseline_stats;
  updated ← lift (update_baseline baseline data default_alpha);
  modify (set_baseline_stats updated);;
  features ← lift (select data feature_keys);
  mret (<["features" := VDict features]> data).

(** *** Audit log, poll iteration and the status endpoint *)

Definition csv_columns : list string :=
  ["timestamp"; "cpu_usage"; "memory_usage"; "disk_usage"; "modified";
   "renamed"; "deleted"; "entropy_alerts"; "unauth_proc_count";
   "shadow_copy_flag"; "registry_alerts_count"; "susp_net_count";
   "susp_ext_count"; "proc_injection"; "sys_call_anomaly";
   "total_net_connections"; "ml_detection"; "state"; "response_triggered"].

(** [correlation_engine]: appending to the CSV file raises when the
    file cannot be opened. *)
Definition correlation_engine (src : sources) (data : dict) : M unit :=
  if csv_writable src
  then emit (Audited (map (fun k => default VNone (data !! k)) csv_columns))
  else lift (Raise IOError).

(** One iteration of the [while True] loop of
    [periodic_display_with_baseline], up to its [await asyncio.sleep(2)]. *)
Definition periodic_display_iteration (src : sources) : M unit :=
  data ← collect_and_predict src;
  correlation_engine src data;;
  notify_live_tracking data.

(** [GET /system_data] *)
Definition get_system_data (src : sources) : M dict :=
  data ← collect_and_predict src;
  mret (<["status" := default VNone (data !! "state")]>
        (<["ml_model_dedicated" := default VNone (data !! "ml_model_dedicated")]>
        (<["data" := VDict data]> ∅))).

(** *** Runs of the system *)

(** What can happen to the world: an anomaly reaches the dispatcher, the
    event loop idles for [d] time units, the poll loop runs one
    iteration, a client requests [/system_data], the observer delivers a
    callback. *)
Inductive signal : Type :=
| Anomaly (data : dict)
| Elapse (d : N)
| PollIteration (src : sources)
| StatusRequest (src : sources)
| FileEvent (c : callback).

Definition deliver_callback (c : callback) (w : world) : world :=
  set_handler (option_map (fun h => dispatch h c)
                 (file_monitor_handler_global w)) w.

Definition handle (w : world) (s : signal) : world :=
  match s with
  | Anomaly data => snd (trigger_response data w)
  | Elapse d => advance d w
  | PollIteration src => snd (periodic_display_iteration src w)
  | StatusRequest src => snd (get_system_data src w)
  | FileEvent c => deliver_callback c w
  end.

Definition run (w : world) (signals : list signal) : world :=
  foldl handle w signals.

Definition is_block (e : effect) : bool :=
  match e with
  | Blocked _ => true
  | _ => false
  end.

Definition is_alert_to (c : nat) (e : effect) : bool :=
  match e with
  | Sent to m => Nat.eqb to c && String.eqb (msg_type m) "alert"
  | _ => false
  end.

(** Number of effects satisfying [P] stamped in the window
    [[t0, t0 + 60)]. *)
Definition count_in_window (P : effect -> bool) (t0 : N)
    (tr : list (N * effect)) : nat :=
  length (filter (fun te => P (snd te) = true ∧ (t0 ≤ fst te < t0 + 60)%N) tr).

(** *** Vocabulary of the statements below *)

(** The trace entries of one fan-out over [clients] at time [t], newest
    first: one send per client, or one log record where the send
    raises. *)
Definition deliveries (t : N) (clients : list client) (m : message)
    (on_error : string) : list (N * effect) :=
  reverse (map (fun c => (t, if send_raises c then Logged on_error []
                             else Sent (client_id c) m)) clients).

Definition add_trace (entries : list (N * effect)) (w : world) : world :=
  World (file_monitor_handler_global w) (baseline_stats w)
    (response_triggered_flag w) (action_blocked w) (connected_clients w)
    (clock w) (pending_resets w) (entries ++ trace w).

(** What one dispatch adds to the trace. *)
Definition dispatched (data : dict) (w : world) : list (N * effect) :=
  deliveries (clock w) (connected_clients w) (alert_message data)
    "Error sending alert to client." ++ [(clock w, Blocked MONITOR_PATH)].

(** The world after a dispatch that was not suppressed. *)
Definition fired (data : dict) (w : world) : world :=
  World (file_monitor_handler_global w) (baseline_stats w) true true
    (connected_clients w) (clock w)
    (pending_resets w ++ [(clock w + 60)%N])
    (dispatched data w ++ trace w).

(** Time stamps of the effects of kind [P], newest first. *)
Definition stamps (P : effect -> bool) (tr : list (N * effect)) : list N :=
  (filter (fun te => P (snd te) = true) tr).*1.

(** Every stamp is at least 60 units after all older ones. *)
Fixpoint spaced (ts : list N) : Prop :=
  match ts with
  | [] => True
  | t :: rest => (forall s, s ∈ rest -> (s + 60 <= t)%N) /\ spaced rest
  end.

(** The debounce invariant for the effects of kind [P]. *)
Definition debounced (P : effect -> bool) (w : world) : Prop :=
  spaced (stamps P (trace w)) /\
  if response_triggered_flag w
  then exists r, pending_resets w = [r] /\ (clock w < r)%N /\
                 forall s, s ∈ stamps P (trace w) -> (s + 60 <= r)%N
  else pending_resets w = [] /\
       forall s, s ∈ stamps P (trace w) -> (s + 60 <= clock w)%N.

(** A dispatch adds at most one effect of the kind [P], stamped with
    the current time. *)
Definition once_per_dispatch (P : effect -> bool) (w : world) : Prop :=
  forall data, stamps P (dispatched data w) = [] \/
               stamps P (dispatched data w) = [clock w].

(** Effects of kind [P] are not log records, audit rows or live-feed
    messages. *)
Definition dispatch_only (P : effect -> bool) : Prop :=
  (forall record args, P (Logged record args) = false) /\
  (forall row, P (Audited row) = false) /\
  (forall c m, msg_type m = "live_tracking" -> P (Sent c m) = false).

(** [m] keeps the debounce invariant for [P] and the client list. *)
Definition keeps (P : effect -> bool) {A} (m : M A) : Prop :=
  forall w,
    (forall w', connected_clients w' = connected_clients w ->
       once_per_dispatch P w') ->
    debounced P w ->
    debounced P (snd (m w)) /\
    connected_clients (snd (m w)) = connected_clients w.

(** Flag clear, no reset pending, nothing done yet. *)
Definition armed (w : world) : Prop :=
  response_triggered_flag w = false /\ pending_resets w = [] /\
  trace w = [].

Definition is_log (e : effect) : bool :=
  match e with
  | Logged _ _ => true
  | _ => false
  end.

(** The relative-deviation rule over the keys [keys]: some feature whose
    baseline mean is above 0 deviates from it by more than 0.85 of it. *)
Definition deviation_among (baseline : gmap string stats) (data : dict)
    (keys : list string) : Prop :=
  exists key x, key ∈ keys /\ data !! key = Some (VNum x) /\
    0 < base_mean_of baseline key /\
    85 # 100 < Qabs (x - base_mean_of baseline key) / base_mean_of baseline key.

(** The relative-deviation rule and the absolute file-event rule, as
    the specification words them. *)
Definition relative_rule (baseline : gmap string stats) (data : dict)
    : Prop :=
  deviation_among baseline data watch_list.

Definition absolute_rule (data : dict) : Prop :=
  exists key x, key ∈ file_event_keys /\ data !! key = Some (VNum x) /\
    30 <= x.

(** Every sampled source of the gathering pass answers at least once. *)
Definition healthy (src : sources) : Prop :=
  responds (cpu_percent src) 5 /\
  responds (virtual_memory_percent src) 5 /\
  responds (disk_usage_percent src) 5 /\
  responds (unauthorized_process_count_helper src) 5 /\
  responds (suspicious_network_count_helper src) 5 /\
  responds (suspicious_file_extension_count_helper src) 3.

(** [data] holds a number at each of [keys]. *)
Definition numbers_at (data : dict) (keys : list string) : Prop :=
  forall key, key ∈ keys -> exists x, data !! key = Some (VNum x).

(** The entries that [collect_and_predict] adds to [data] before the
    baseline update. *)
Definition derived_keys : list string :=
  ["ml_detection"; "state"; "ml_model_dedicated"; "response_triggered"].

(** *** Concrete runs *)

Definition steady (q : Q) : nat -> option Q := fun _ => Some q.
Definition silent : nat -> option Q := fun _ => None.

(** A world right after start-up, with two files modified since the
    last drain and one subscriber. *)
Definition startup_world : world :=
  World (Some (Handler {["a.txt"; "b.txt"]} ∅ ∅)) initial_baseline_stats
    false false [Client 1 false] 0 [] [].

(** Readings close to the seed baseline. *)
Definition calm_sources : sources :=
  Sources "t0" (steady 20) (steady 30) (steady 40) 3 (steady 0) (Some false)
    0 (steady 0) (steady 0) (steady 50) true.

(** The same readings, except that every [psutil.virtual_memory()] call
    of the batch raises. *)
Definition memory_probe_down : sources :=
  Sources "t0" (steady 20) silent (steady 40) 3 (steady 0) (Some false)
    0 (steady 0) (steady 0) (steady 50) true.

(** A snapshot whose consulted features sit at the seed baseline, except
    for the memory reading and the number of modified files. *)
Definition reading (memory modified : Q) : dict :=
  <["memory_usage" := VNum memory]>
  (<["disk_usage" := VNum 40]>
  (<["modified" := VNum modified]>
  (<["entropy_alerts" := VNum 3]>
  (<["renamed" := VNum 1]>
  (<["deleted" := VNum 1]> ∅))))).

End Monitor.

(** ** Invariants, repeated cycles and failing probes *)

Module Invariants.
Import Sampler Watchdog Baseline Monitor.

(** [power q n] is [q] multiplied [n] times. *)
Fixpoint power (q : Q) (n : nat) : Q :=
  match n with
  | O => 1
  | S n' => q * power q n'
  end.

(** A value that Python arithmetic rejects. *)
Definition not_a_number (v : value) : Prop := as_number v = Raise TypeError.

(** [m] maintains the invariant [I] of the world, whether it returns or
    raises. *)
Definition preserves (I : world -> Prop) {A} (m : M A) : Prop :=
  forall w, I w -> I (snd (m w)).

(** The flag is set exactly while one reset is pending, and that reset
    is due within 60 time units. *)
Definition rearming (w : world) : Prop :=
  if response_triggered_flag w
  then exists r, pending_resets w = [r] /\ (r <= clock w + 60)%N
  else pending_resets w = [].

(** The part of the world that only the end of a completed cycle
    changes. *)
Definition frozen (b : gmap string stats) (h : option FileMonitorHandler)
    (w : world) : Prop :=
  baseline_stats w = b /\ file_monitor_handler_global w = h.

(** The same readings as [calm_sources], except that every
    [psutil.cpu_percent] call of the batch raises. *)
Definition cpu_probe_down : sources :=
  Sources "t0" silent (steady 30) (steady 40) 3 (steady 0) (Some false)
    0 (steady 0) (steady 0) (steady 50) true.

(** The same readings as [calm_sources], with an audit file that cannot
    be opened. *)
Definition audit_file_locked : sources :=
  Sources "t0" (steady 20) (steady 30) (steady 40) 3 (steady 0) (Some false)
    0 (steady 0) (steady 0) (steady 50) false.

(** [n] successive detection cycles over the same readings, with no
    file event in between; the results are listed oldest first. *)
Fixpoint cycles (n : nat) (src : sources) : M (list dict) :=
  match n with
  | O => mret []
  | S n' =>
      out ← collect_and_predict src;
      outs ← cycles n' src;
      mret (out :: outs)
  end.

(** No file was modified or created since the last drain. *)
Definition idle (w : world) : Prop :=
  forall h, file_monitor_handler_global w = Some h -> modified_files h = ∅.

(** A world in the middle of a debounce window, with no file event
    recorded since the last drain. *)
Definition alerted_world : world :=
  World (Some (Handler ∅ ∅ ∅)) initial_baseline_stats true true
    [Client 1 false] 10 [60%N] [(0%N, Blocked MONITOR_PATH)].

End Invariants.

(** ** The rules, the median and the baseline step as the specification
    words them *)

Module Wording.
Import Sampler Watchdog Baseline Monitor.


(** The baseline stores statistics for each of the four watched
    features. *)
Definition watched_stored (baseline : gmap string stats) : Prop :=
  forall key,
    key ∈ ["memory_usage"; "disk_usage"; "modified"; "entropy_alerts"] ->
    is_Some (baseline !! key).

(** Relative-deviation rule: for some watched feature whose stored
    baseline mean is above 0, |value - mean| / mean exceeds 0.85. *)
Definition stored_deviation (baseline : gmap string stats) (data : dict)
    : Prop :=
  exists key st x,
    key ∈ ["memory_usage"; "disk_usage"; "modified"; "entropy_alerts"] /\
    baseline !! key = Some st /\ data !! key = Some (VNum x) /\
    0 < mean st /\ 85 # 100 < Qabs (x - mean st) / mean st.

(** Absolute file-event rule: modified >= 30 or renamed >= 30 or
    deleted >= 30. *)
Definition file_event_threshold (data : dict) : Prop :=
  exists x,
    (data !! "modified" = Some (VNum x) \/ data !! "renamed" = Some (VNum x) \/
     data !! "deleted" = Some (VNum x)) /\ 30 <= x.

(** One update step of the statistics [st] with the reading [x], for
    the smoothing factor 0.1. *)
Definition stepped (st st' : stats) (x : Q) : Prop :=
  mean st' = (1 - (1 # 10)) * mean st + (1 # 10) * x /\
  std st' = (1 - (1 # 10)) * std st + (1 # 10) * Qabs (x - mean st').

(** A message of the live feed. *)
Definition is_live_feed (e : effect) : bool :=
  match e with
  | Sent _ m => String.eqb (msg_type m) "live_tracking"
  | _ => false
  end.


(** The start-up world with one file modified since the last drain. *)
Definition one_change_world : world :=
  World (Some (Handler {["a.txt"]} ∅ ∅)) initial_baseline_stats false false
    [Client 1 false] 0 [] [].

(** The largest finite binary64 number. *)
Definition max_float : Q := inject_Z ((2 ^ 53 - 1) * 2 ^ 971).

(** A value that is not a number beyond the binary64 range: Python
    converts an [int] reading to [float] when it multiplies it by 0.1,
    which raises [OverflowError] beyond that range. *)
Definition representable (v : value) : Prop :=
  match v with
  | VNum q => Qabs q <= max_float
  | _ => True
  end.

End Wording.

(** * Verification *)

Import Sampler Watchdog Baseline Monitor Invariants Wording.

(** Case analysis on the membership of a key in a list literal; [tac]
    closes the goal for each key. *)
Ltac each_key H tac :=
  repeat (apply elem_of_cons in H as [->|H]; [tac|]);
  by apply elem_of_nil in H.

(** ** Robust sampler *)








Lemma sort_perm (l : list Q) : Permutation (sort l) l.
Proof.
  assert (Hins : forall x l', Permutation (insert_sorted x l') (x :: l')).
  { intros x l'. induction l' as [|y l' IH]; simpl; [done|].
    destruct (Qle_bool x y); [done|]. rewrite IH. apply perm_swap. }
  induction l as [|x l IH]; [done|].
  change (sort (x :: l)) with (insert_sorted x (sort l)).
  rewrite Hins. by constructor.
Qed.

Lemma sort_sorted (l : list Q) : Sorted Qle (sort l).
Proof.
  assert (Hins : forall x l', Sorted Qle l' -> Sorted Qle (insert_sorted x l')).
  { intros x l'. induction l' as [|y l' IH]; simpl; intros Hs.
    - repeat constructor.
    - destruct (Qle_bool x y) eqn:E.
      + constructor; [done|]. constructor. by apply Qle_bool_iff.
      + assert (y <= x).
        { destruct (Qlt_le_dec x y) as [Hlt|Hle]; [|done].
          apply Qlt_le_weak, Qle_bool_iff in Hlt. congruence. }
        inversion Hs as [|? ? Hs' Hhd]; subst.
        constructor; [by apply IH|].
        destruct l' as [|z l']; simpl.
        * by constructor.
        * destruct (Qle_bool x z); constructor; [done|].
          by inversion Hhd. }
  induction l as [|x l IH]; [constructor|].
  change (sort (x :: l)) with (insert_sorted x (sort l)).
  by apply Hins.
Qed.

Lemma within_spec (median_val outlier_threshold v : Q) :
  within median_val outlier_threshold v = true <->
  Qabs (v - median_val) / Qabs median_val <= outlier_threshold.
Proof. unfold within. apply Qle_bool_iff. Qed.

Lemma collect_nil (func : nat -> option Q) (samples : nat) :
  collect func samples = [] <->
  forall i, (i < samples)%nat -> func i = None.
Proof.
  unfold collect. split.
  - intros H i Hi.
    destruct (func i) as [q|] eqn:E; [|done].
    assert (q ∈ omap func (seq 0 samples)) as Hin.
    { apply list_elem_of_omap. exists i. split; [|done].
      apply elem_of_seq. lia. }
    rewrite H in Hin. by apply not_elem_of_nil in Hin.
  - intros H. destruct (omap func (seq 0 samples)) as [|q l] eqn:E; [done|].
    assert (q ∈ omap func (seq 0 samples)) as Hin by (rewrite E; left).
    apply list_elem_of_omap in Hin as (i & Hi & Hq).
    apply elem_of_seq in Hi. rewrite H in Hq by lia. done.
Qed.

(** *** The median is the middle of the samples in ascending order *)











(** ** Change accumulator *)

Lemma deliver_sets (cs : list callback) (self : FileMonitorHandler) :
  modified_files (deliver self cs)
    = list_to_set (omap modified_path cs) ∪ modified_files self /\
  renamed_files (deliver self cs)
    = list_to_set (omap renamed_path cs) ∪ renamed_files self /\
  deleted_files (deliver self cs)
    = list_to_set (omap deleted_path cs) ∪ deleted_files self.
Proof.
  revert self. induction cs as [|c cs IH]; intros self.
  - simpl. repeat split; set_solver.
  - change (deliver self (c :: cs)) with (deliver (dispatch self c) cs).
    destruct (IH (dispatch self c)) as (Hm & Hr & Hd).
    rewrite Hm, Hr, Hd. clear IH Hm Hr Hd.
    destruct c as [e|e|e|e]; simpl;
      unfold on_modified, on_created, on_deleted, on_moved;
      destruct (is_directory e); simpl; repeat split; set_solver.
Qed.

(** C6.  After any delivery of callbacks to a fresh handler, the drain
    reports for each counter the number of distinct paths recorded, leaves
    the three sets empty, and a second drain right after it reports zeros;
    modify(A), modify(A), modify(B) with A and B distinct drains to
    modified = 2. *)
Theorem change_accumulator_coalesces (cs : list callback) :
  let drained := get_file_event_counts (deliver init cs) in
  fst drained !! "modified" = Some (distinct modified_path cs) /\
  fst drained !! "renamed" = Some (distinct renamed_path cs) /\
  fst drained !! "deleted" = Some (distinct deleted_path cs) /\
  snd drained = Handler ∅ ∅ ∅ /\
  (forall k, k ∈ ["modified"; "renamed"; "deleted"] ->
     fst (get_file_event_counts (snd drained)) !! k = Some 0%nat) /\
  (forall A B : string, A <> B ->
     fst (get_file_event_counts
            (deliver init [modify_file A; modify_file A; modify_file B]))
       !! "modified" = Some 2%nat).
Proof.
  intros drained.
  destruct (deliver_sets cs init) as (Hm & Hr & Hd).
  assert (Hunit : forall X : gset string, X ∪ ∅ = X) by set_solver.
  repeat split.
  - unfold drained, distinct; simpl. rewrite Hm. simpl. by rewrite Hunit.
  - unfold drained, distinct; simpl. rewrite Hr. simpl. by rewrite Hunit.
  - unfold drained, distinct; simpl. rewrite Hd. simpl. by rewrite Hunit.
  - intros k Hk. simpl.
    each_key Hk ltac:(reflexivity).
  - intros A B HAB.
    destruct (deliver_sets [modify_file A; modify_file A; modify_file B] init)
      as (Hm' & _).
    unfold get_file_event_counts. cbn [fst]. rewrite lookup_insert_eq.
    f_equal. rewrite Hm'. cbn [omap list_omap modified_path modify_file
      is_directory src_path list_to_set foldr modified_files init].
    assert (forall X : gset string, X = {[A]} ∪ {[B]} -> size X = 2%nat) as Hsize.
    { intros X ->. rewrite size_union by set_solver.
      by rewrite !size_singleton. }
    apply Hsize. set_solver.
Qed.

Lemma change_accumulator_coalesces_witness :
  fst (get_file_event_counts
         (deliver init [modify_file "A"; modify_file "A"; modify_file "B"]))
    !! "modified" = Some 2%nat.
Proof.
  apply (proj2 (proj2 (proj2 (proj2 (proj2
           (change_accumulator_coalesces [])))))).
  discriminate.
Defined.

(** ** Baseline update *)

Lemma update_items_ok (items : list (string * stats)) (new_data : dict)
    (alpha : Q) (updated : gmap string stats) :
  NoDup items.*1 ->
  (forall key st, (key, st) ∈ items ->
     exists x, new_value_of new_data key st = Ok x) ->
  exists result,
    update_items items new_data alpha updated = Ok result /\
    (forall key st x, (key, st) ∈ items ->
       new_value_of new_data key st = Ok x ->
       result !! key = Some (update_stats alpha st x)) /\
    (forall key, key ∉ items.*1 -> result !! key = updated !! key).
Proof.
  revert updated. induction items as [|[k st] items IH]; intros updated Hnd Hnum.
  - exists updated. split; [done|]. split; [|done].
    intros key st x Hin. by apply elem_of_nil in Hin.
  - apply NoDup_cons in Hnd as [Hk Hnd].
    destruct (Hnum k st) as [x Hx]; [left|].
    destruct (IH (<[k := update_stats alpha st x]> updated) Hnd)
      as (result & Hres & Hin & Hout).
    { intros key st' Hel. apply Hnum. by right. }
    exists result. split; [|split].
    + simpl. rewrite Hx. simpl. exact Hres.
    + intros key st' x' Hel Hx'.
      apply elem_of_cons in Hel as [Heq|Hel].
      * injection Heq as -> ->. rewrite Hout by done.
        rewrite lookup_insert_eq. congruence.
      * by apply Hin.
    + intros key Hkey. simpl in Hkey.
      apply not_elem_of_cons in Hkey as [Hne Hkey].
      rewrite Hout by done. by rewrite lookup_insert_ne.
Qed.

Lemma update_items_ext (items : list (string * stats)) (d1 d2 : dict)
    (alpha : Q) (updated : gmap string stats) :
  (forall key st, (key, st) ∈ items -> d1 !! key = d2 !! key) ->
  update_items items d1 alpha updated = update_items items d2 alpha updated.
Proof.
  revert updated. induction items as [|[k st] items IH]; intros updated H; [done|].
  simpl. unfold new_value_of. rewrite (H k st) by left.
  destruct (d2 !! k) as [v|]; simpl.
  - destruct (as_number v); simpl; [|done].
    apply IH. intros key' st' Hel. apply (H key' st'). by right.
  - apply IH. intros key' st' Hel. apply (H key' st'). by right.
Qed.

Lemma update_baseline_ext (baseline : gmap string stats) (d1 d2 : dict) (alpha : Q) :
  (forall key, is_Some (baseline !! key) -> d1 !! key = d2 !! key) ->
  update_baseline baseline d1 alpha = update_baseline baseline d2 alpha.
Proof.
  intros H. apply update_items_ext. intros key st Hin.
  apply H. exists st. by apply elem_of_map_to_list.
Qed.

Lemma numeric_new_value (baseline : gmap string stats) (new_data : dict) key st :
  numeric_on baseline new_data -> baseline !! key = Some st ->
  exists x, new_value_of new_data key st = Ok x.
Proof.
  intros Hnum Hk. unfold new_value_of.
  destruct (new_data !! key) as [v|] eqn:E; [|by eexists].
  destruct (Hnum key st v Hk E) as [x ->]. by exists x.
Qed.

Lemma update_baseline_ok (baseline : gmap string stats) (new_data : dict) (alpha : Q) :
  numeric_on baseline new_data ->
  exists updated,
    update_baseline baseline new_data alpha = Ok updated /\
    (forall key st x, baseline !! key = Some st ->
       new_value_of new_data key st = Ok x ->
       updated !! key = Some (update_stats alpha st x)) /\
    (forall key, baseline !! key = None -> updated !! key = None).
Proof.
  intros Hnum.
  destruct (update_items_ok (map_to_list baseline) new_data alpha ∅)
    as (updated & Hres & Hin & Hout).
  { apply NoDup_fst_map_to_list. }
  { intros key st Hel. apply elem_of_map_to_list in Hel.
    by eapply numeric_new_value. }
  exists updated. split; [done|]. split.
  - intros key st x Hk Hx. apply Hin; [|done]. by apply elem_of_map_to_list.
  - intros key Hk. rewrite Hout; [done|].
    intros Hel. apply list_elem_of_fmap in Hel as ([k' st] & -> & Hel).
    apply elem_of_map_to_list in Hel. simpl in Hk. congruence.
Qed.

Lemma numeric_on_updated (baseline updated : gmap string stats) (new_data : dict) :
  (forall key, baseline !! key = None -> updated !! key = None) ->
  numeric_on baseline new_data -> numeric_on updated new_data.
Proof.
  intros Hdom Hnum key st v Hk Hv.
  destruct (baseline !! key) as [st0|] eqn:E.
  - by eapply Hnum.
  - rewrite (Hdom key E) in Hk. done.
Qed.

(** C3.  For a feature [k] of the baseline with statistics [st] and
    observed value [v], one update step stores
    mean' = (1 - alpha) * mean + alpha * v and
    std' = (1 - alpha) * std + alpha * |v - mean'|; the default alpha is
    0.1; from mean 20, observing 100 gives mean 28; observing 20 any
    number of times leaves the mean at 20. *)
Theorem update_baseline_formula (baseline : gmap string stats) (new_data : dict)
    (alpha : Q) (k : string) (st : stats) (v : Q) :
  numeric_on baseline new_data ->
  baseline !! k = Some st ->
  new_data !! k = Some (VNum v) ->
  (exists updated st',
     update_baseline baseline new_data alpha = Ok updated /\
     updated !! k = Some st' /\
     mean st' = (1 - alpha) * mean st + alpha * v /\
     std st' = (1 - alpha) * std st + alpha * Qabs (v - mean st') /\
     (alpha == 1 # 10 -> mean st == 20 -> v == 100 -> mean st' == 28)) /\
  default_alpha == 1 # 10 /\
  (mean st == 20 -> v == 20 -> forall n,
     exists observed st',
       observe n baseline new_data default_alpha = Ok observed /\
       observed !! k = Some st' /\ mean st' == 20).
Proof.
  intros Hnum Hk Hv. split; [|split].
  - destruct (update_baseline_ok baseline new_data alpha Hnum)
      as (updated & Hres & Hin & _).
    exists updated, (update_stats alpha st v).
    split; [done|]. split.
    { apply Hin; [done|]. unfold new_value_of. by rewrite Hv. }
    split; [done|]. split; [done|].
    intros Ha Hm Hx. simpl. rewrite Ha, Hm, Hx. reflexivity.
  - reflexivity.
  - intros Hm Hx n. revert baseline st Hnum Hk Hm.
    induction n as [|n IH]; intros baseline st Hnum Hk Hm.
    + exists baseline, st. done.
    + destruct (update_baseline_ok baseline new_data default_alpha Hnum)
        as (updated & Hres & Hin & Hout).
      destruct (IH updated (update_stats default_alpha st v))
        as (observed & st' & Hobs & Hl & Hmean).
      * by eapply numeric_on_updated.
      * apply Hin; [done|]. unfold new_value_of. by rewrite Hv.
      * simpl. rewrite Hm, Hx. reflexivity.
      * exists observed, st'. split; [|done].
        simpl. rewrite Hres. simpl. exact Hobs.
Qed.

Lemma update_baseline_formula_witness :
  exists updated st',
    update_baseline initial_baseline_stats {["cpu_usage" := VNum 100]}
      default_alpha = Ok updated /\
    updated !! "cpu_usage" = Some st' /\ mean st' == 28.
Proof.
  destruct (update_baseline_formula initial_baseline_stats
              {["cpu_usage" := VNum 100]} default_alpha "cpu_usage"
              (Stats 20 5) 100)
    as ((updated & st' & Hupd & Hl & _ & _ & H28) & _).
  - intros key st v _ Hv. apply lookup_singleton_Some in Hv as [_ <-].
    by eexists.
  - reflexivity.
  - reflexivity.
  - exists updated, st'. split; [exact Hupd|]. split; [exact Hl|].
    apply H28; reflexivity.
Defined.

(** ** Alert dispatcher *)

Lemma send_each_spec (clients : list client) (m : message) (on_error : string)
    (w : world) :
  send_each clients m on_error w =
  (Ok tt, add_trace (deliveries (clock w) clients m on_error) w).
Proof.
  revert w. induction clients as [|c clients IH]; intros w.
  - destruct w; reflexivity.
  - simpl. unfold mbind, M_bind at 1.
    destruct (send_raises c) eqn:E.
    + unfold emit, modify. rewrite IH. f_equal.
      unfold add_trace, deliveries, record_effect; simpl.
      rewrite reverse_cons, E. by rewrite <- app_assoc.
    + unfold emit, modify. rewrite IH. f_equal.
      unfold add_trace, deliveries, record_effect; simpl.
      rewrite reverse_cons, E. by rewrite <- app_assoc.
Qed.

Lemma trigger_response_spec (data : dict) (w : world) :
  trigger_response data w =
  (Ok tt, if response_triggered_flag w then w else fired data w).
Proof.
  unfold trigger_response, mbind, M_bind, gets.
  destruct (response_triggered_flag w) eqn:E; [done|].
  unfold modify, block_directory, emit, notify_clients, mbind, M_bind, gets,
    schedule_reset, modify.
  simpl. rewrite send_each_spec. simpl. f_equal.
  unfold fired, dispatched, alert_message. simpl. by rewrite <- app_assoc.
Qed.

Lemma filter_none {A} (P : A -> Prop) `{!forall x, Decision (P x)} (l : list A) :
  (forall x, x ∈ l -> ~ P x) -> filter P l = [].
Proof.
  induction l as [|x l IH]; intros Hl; [done|].
  rewrite filter_cons, decide_False by (apply Hl; left).
  apply IH. intros y Hy. apply Hl. by right.
Qed.

Lemma stamps_app (P : effect -> bool) (l1 l2 : list (N * effect)) :
  stamps P (l1 ++ l2) = stamps P l1 ++ stamps P l2.
Proof. unfold stamps. by rewrite filter_app, fmap_app. Qed.

Lemma count_in_window_stamps (P : effect -> bool) (t0 : N) (tr : list (N * effect)) :
  count_in_window P t0 tr =
  length (filter (fun t => (t0 <= t < t0 + 60)%N) (stamps P tr)).
Proof.
  unfold count_in_window, stamps.
  induction tr as [|[t e] tr IH]; [done|].
  rewrite !filter_cons. simpl.
  repeat case_decide; simpl; rewrite ?filter_cons; simpl;
    repeat case_decide; simpl; try (exfalso; tauto); try lia; by rewrite ?IH.
Qed.

Lemma spaced_window (ts : list N) (t0 : N) :
  spaced ts -> (length (filter (fun t => (t0 <= t < t0 + 60)%N) ts) <= 1)%nat.
Proof.
  induction ts as [|t ts IH]; simpl; [lia|].
  intros [Hgap Hsp]. rewrite filter_cons.
  destruct (decide (t0 ≤ t < t0 + 60)%N) as [Hin|Hout]; [|by apply IH].
  assert (filter (fun t => (t0 <= t < t0 + 60)%N) ts = []) as ->.
  { apply filter_none. intros s Hs Hw. specialize (Hgap s Hs). lia. }
  simpl. lia.
Qed.

Lemma debounced_trigger (P : effect -> bool) (data : dict) (w : world) :
  once_per_dispatch P w -> debounced P w ->
  debounced P (snd (trigger_response data w)).
Proof.
  intros Honce [Hsp Hfl]. rewrite trigger_response_spec. simpl.
  destruct (response_triggered_flag w) eqn:E.
  { split; [done|]. by rewrite E. }
  destruct Hfl as [Hpend Hold].
  unfold debounced, fired; simpl. rewrite stamps_app, Hpend. simpl.
  destruct (Honce data) as [-> | ->]; simpl.
  - split; [done|]. exists (clock w + 60)%N. split; [done|]. split; [lia|].
    intros s Hs. specialize (Hold s Hs). lia.
  - split; [split; [exact Hold | exact Hsp]|].
    exists (clock w + 60)%N. split; [done|]. split; [lia|].
    intros s Hs. apply elem_of_cons in Hs as [->|Hs]; [lia|].
    specialize (Hold s Hs). lia.
Qed.

Lemma debounced_advance (P : effect -> bool) (d : N) (w : world) :
  debounced P w -> debounced P (advance d w).
Proof.
  intros [Hsp Hfl]. unfold advance.
  destruct (response_triggered_flag w) eqn:E.
  - destruct Hfl as (r & Hpend & Hclk & Hold). rewrite Hpend.
    rewrite !filter_cons, !filter_nil.
    destruct (decide (r ≤ clock w + d)%N) as [Hdue|Hwait].
    + rewrite decide_False by tauto.
      unfold debounced; simpl. split; [done|]. split; [done|].
      intros s Hs. specialize (Hold s Hs). lia.
    + rewrite decide_True by done.
      unfold debounced; simpl. rewrite E. split; [done|].
      exists r. split; [done|]. split; [lia|]. exact Hold.
  - destruct Hfl as [Hpend Hold]. rewrite Hpend. rewrite !filter_nil.
    unfold debounced; simpl. rewrite E. split; [done|]. split; [done|].
    intros s Hs. specialize (Hold s Hs). lia.
Qed.

Section Keeps.
Variable P : effect -> bool.
Hypothesis dispatcher_effects : dispatch_only P.

Lemma debounced_quiet (w w' : world) :
  response_triggered_flag w' = response_triggered_flag w ->
  pending_resets w' = pending_resets w ->
  clock w' = clock w ->
  stamps P (trace w') = stamps P (trace w) ->
  debounced P w -> debounced P w'.
Proof.
  intros Hf Hp Hc Ht. unfold debounced. by rewrite Hf, Hp, Hc, Ht.
Qed.

Lemma keeps_bind {A B} (m : M A) (f : A -> M B) :
  keeps P m -> (forall a, keeps P (f a)) -> keeps P (m ≫= f).
Proof.
  intros Hm Hf w Honce Hw. unfold mbind, M_bind.
  destruct (Hm w Honce Hw) as [Hw1 Hc1].
  destruct (m w) as [[a|e] w1]; simpl in *; [|done].
  destruct (Hf a w1) as [Hw2 Hc2]; [|done|].
  - intros w' Hw'. apply Honce. congruence.
  - split; [done|]. congruence.
Qed.

Lemma keeps_ret {A} (a : A) : keeps P (mret a).
Proof. by intros w _ Hw. Qed.

Lemma keeps_lift {A} (o : outcome A) : keeps P (lift o).
Proof. by intros w _ Hw. Qed.

Lemma keeps_gets {A} (f : world -> A) : keeps P (gets f).
Proof. by intros w _ Hw. Qed.

Lemma keeps_emit (e : effect) : P e = false -> keeps P (emit e).
Proof.
  intros He w _ Hw. split; [|done].
  apply (debounced_quiet w); try done.
  unfold stamps. simpl. rewrite filter_cons. simpl. by rewrite He.
Qed.

Lemma keeps_log_info (record : string) (data : dict) (keys : list string) :
  keeps P (log_info record data keys).
Proof.
  apply keeps_bind; [apply keeps_lift|]. intros args.
  apply keeps_emit, dispatcher_effects.
Qed.

Lemma keeps_set_baseline_stats (b : gmap string stats) :
  keeps P (modify (set_baseline_stats b)).
Proof. intros w _ Hw. split; [|done]. by apply (debounced_quiet w). Qed.

Lemma keeps_trigger_response (data : dict) : keeps P (trigger_response data).
Proof.
  intros w Honce Hw. split.
  - apply debounced_trigger; [by apply Honce | done].
  - rewrite trigger_response_spec. simpl.
    by destruct (response_triggered_flag w).
Qed.

Lemma keeps_send_each (clients : list client) (m : message)
    (on_error : string) :
  msg_type m = "live_tracking" -> keeps P (send_each clients m on_error).
Proof.
  intros Hm. induction clients as [|c clients IH]; [apply keeps_ret|].
  cbn [send_each]. apply keeps_bind; [|intros _; exact IH].
  destruct (send_raises c); apply keeps_emit; by apply dispatcher_effects.
Qed.

Ltac keeps_step :=
  first
    [ apply keeps_ret | apply keeps_lift | apply keeps_gets
    | apply keeps_log_info | apply keeps_trigger_response
    | apply keeps_set_baseline_stats
    | apply keeps_bind; [|intros ?]
    | match goal with
      | |- keeps _ (if ?b then _ else _) => destruct b
      | |- keeps _ (match ?o with _ => _ end) => destruct o
      end ].

Lemma keeps_early_alert_loop (data : dict) (keys : list string) :
  keeps P (early_alert_loop data keys).
Proof.
  induction keys as [|key rest IH]; [apply keeps_ret|].
  cbn [early_alert_loop].
  apply keeps_bind; [apply keeps_gets|]. intros base_mean.
  apply keeps_bind; [apply keeps_lift|]. intros fire.
  destruct fire; [|exact IH]. repeat keeps_step.
Qed.

Lemma keeps_check_and_trigger_early_alert (data : dict) :
  keeps P (check_and_trigger_early_alert data).
Proof.
  unfold check_and_trigger_early_alert.
  keeps_step; [apply keeps_early_alert_loop|]. repeat keeps_step.
Qed.

Lemma keeps_sudden_anomaly_loop (data : dict) (keys : list string) :
  keeps P (sudden_anomaly_loop data keys).
Proof.
  induction keys as [|key rest IH]; [apply keeps_ret|].
  cbn [sudden_anomaly_loop].
  apply keeps_bind; [apply keeps_gets|]. intros baseline.
  apply keeps_bind; [apply keeps_lift|]. intros hit.
  destruct hit; [|exact IH]. repeat keeps_step.
Qed.

Lemma keeps_sudden_anomaly_check (data : dict) :
  keeps P (sudden_anomaly_check data).
Proof.
  unfold sudden_anomaly_check.
  keeps_step; [apply keeps_sudden_anomaly_loop|]. repeat keeps_step.
Qed.

Lemma keeps_collect_system_data (src : sources) :
  keeps P (collect_system_data src).
Proof.
  intros w _ Hw. unfold collect_system_data.
  destruct (drain_file_events _) as [file_events handler]. simpl.
  split; [|done]. by apply (debounced_quiet w).
Qed.

Lemma keeps_collect_and_predict (src : sources) :
  keeps P (collect_and_predict src).
Proof.
  unfold collect_and_predict.
  keeps_step; [apply keeps_collect_system_data|].
  keeps_step; [apply keeps_check_and_trigger_early_alert|].
  keeps_step; [apply keeps_lift|].
  keeps_step; [apply keeps_sudden_anomaly_check|].
  cbv zeta. repeat keeps_step.
Qed.

Lemma keeps_periodic_display_iteration (src : sources) :
  keeps P (periodic_display_iteration src).
Proof.
  unfold periodic_display_iteration.
  keeps_step; [apply keeps_collect_and_predict|].
  keeps_step.
  { unfold correlation_engine. destruct (csv_writable src);
      [apply keeps_emit, dispatcher_effects | apply keeps_lift]. }
  unfold notify_live_tracking.
  apply keeps_bind; [apply keeps_lift|]. intros features.
  apply keeps_bind; [apply keeps_gets|]. intros clients.
  by apply keeps_send_each.
Qed.

Lemma keeps_get_system_data (src : sources) :
  keeps P (get_system_data src).
Proof.
  unfold get_system_data.
  keeps_step; [apply keeps_collect_and_predict | apply keeps_ret].
Qed.

Lemma debounced_handle (s : signal) (w : world) :
  (forall w', connected_clients w' = connected_clients w ->
     once_per_dispatch P w') ->
  debounced P w ->
  debounced P (handle w s) /\
  connected_clients (handle w s) = connected_clients w.
Proof.
  intros Honce Hw. destruct s as [data|d|src|src|c]; cbn [handle].
  - by apply keeps_trigger_response.
  - split; [by apply debounced_advance|].
    unfold advance. by destruct (filter _ _).
  - by apply keeps_periodic_display_iteration.
  - by apply keeps_get_system_data.
  - split; [|done]. by apply (debounced_quiet w).
Qed.

Lemma debounced_run (signals : list signal) (w : world) :
  (forall w', connected_clients w' = connected_clients w ->
     once_per_dispatch P w') ->
  debounced P w -> debounced P (run w signals).
Proof.
  revert w. induction signals as [|s signals IH]; intros w Honce Hw; [done|].
  change (run w (s :: signals)) with (run (handle w s) signals).
  destruct (debounced_handle s w Honce Hw) as [Hw' Hc].
  apply IH; [|done]. intros w' Hw''. apply Honce. congruence.
Qed.

End Keeps.

Lemma stamps_deliveries_other (P : effect -> bool) (t : N) (clients : list client)
    (m : message) (on_error : string) :
  (forall c, P (Sent c m) = false) -> P (Logged on_error []) = false ->
  stamps P (deliveries t clients m on_error) = [].
Proof.
  intros Hs Hl. unfold stamps, deliveries.
  rewrite filter_none; [done|].
  intros [t' e] Hin. simpl.
  apply elem_of_reverse, list_elem_of_fmap in Hin as (c & Heq & _).
  injection Heq as -> ->. destruct (send_raises c); rewrite ?Hs, ?Hl; done.
Qed.

Lemma once_per_dispatch_block (w : world) : once_per_dispatch is_block w.
Proof.
  intros data. right. unfold dispatched. rewrite stamps_app.
  rewrite stamps_deliveries_other by done. reflexivity.
Qed.

Lemma stamps_deliveries_alert (c : nat) (t : N) (clients : list client)
    (m : message) (on_error : string) :
  NoDup (client_id <$> clients) ->
  stamps (is_alert_to c) (deliveries t clients m on_error) = [] \/
  stamps (is_alert_to c) (deliveries t clients m on_error) = [t].
Proof.
  unfold deliveries. induction clients as [|c0 clients IH]; intros Hnd.
  - by left.
  - simpl in Hnd. apply NoDup_cons in Hnd as [Hc0 Hnd].
    simpl. rewrite reverse_cons, stamps_app.
    destruct (is_alert_to c (if send_raises c0 then Logged on_error []
                             else Sent (client_id c0) m)) eqn:E.
    + right.
      assert (stamps (is_alert_to c)
                (reverse (map (fun c1 => (t, if send_raises c1 then Logged on_error []
                                         else Sent (client_id c1) m)) clients)) = []) as ->.
      { unfold stamps. rewrite filter_none; [done|].
        intros [t' e] Hin. simpl.
        apply elem_of_reverse, list_elem_of_fmap in Hin as (c1 & Heq & Hc1).
        injection Heq as -> ->.
        destruct (send_raises c0); [done|]. simpl in E.
        apply andb_true_iff in E as [E _]. apply Nat.eqb_eq in E. subst c.
        destruct (send_raises c1); [done|]. simpl.
        intros H. apply andb_true_iff in H as [H _]. apply Nat.eqb_eq in H.
        apply Hc0. rewrite <- H. apply list_elem_of_fmap. by exists c1. }
      unfold stamps. simpl. rewrite filter_cons. simpl. by rewrite E.
    + assert (stamps (is_alert_to c)
                [(t, if send_raises c0 then Logged on_error []
                     else Sent (client_id c0) m)] = []) as ->.
      { unfold stamps. rewrite filter_cons. simpl. by rewrite E. }
      rewrite app_nil_r. by apply IH.
Qed.

Lemma once_per_dispatch_alert (c : nat) (w : world) :
  NoDup (client_id <$> connected_clients w) ->
  once_per_dispatch (is_alert_to c) w.
Proof.
  intros Hnd data. unfold dispatched. rewrite stamps_app.
  assert (stamps (is_alert_to c) [(clock w, Blocked MONITOR_PATH)] = []) as ->
    by done.
  rewrite app_nil_r. by apply stamps_deliveries_alert.
Qed.

Lemma advance_fired (data : dict) (w : world) (d : N) :
  pending_resets w = [] ->
  advance d (fired data w) =
  if decide (60 <= d)%N
  then World (file_monitor_handler_global w) (baseline_stats w) false true
         (connected_clients w) (clock w + d)%N [] (dispatched data w ++ trace w)
  else World (file_monitor_handler_global w) (baseline_stats w) true true
         (connected_clients w) (clock w + d)%N [(clock w + 60)%N]
         (dispatched data w ++ trace w).
Proof.
  intros Hp. unfold advance, fired. simpl. rewrite Hp. simpl.
  rewrite !filter_cons, !filter_nil.
  destruct (decide (60 <= d)%N) as [Hd|Hd].
  - rewrite decide_True by lia. rewrite decide_False by lia. reflexivity.
  - rewrite decide_False by lia. rewrite decide_True by lia. reflexivity.
Qed.

(** C2.  With the flag set, [trigger_response] changes nothing.  With the
    flag clear it sets the flag, blocks the directory once, sends one
    message of type "alert" to every client, and schedules the reset 60
    time units later (the flag is set before that and clear from then
    on).  In every run of the system from an armed world (anomaly
    signals, pauses, poll iterations, status requests and file callbacks
    in any order), every window of 60 time units holds at most one
    blocking action and, for each client, at most one alert. *)
Theorem alert_debounce :
  (forall data w, response_triggered_flag w = true ->
     trigger_response data w = (Ok tt, w)) /\
  (forall data w, response_triggered_flag w = false ->
     exists w', trigger_response data w = (Ok tt, w') /\
       response_triggered_flag w' = true /\
       trace w' =
         deliveries (clock w) (connected_clients w)
           (alert_message data)
           "Error sending alert to client."
         ++ (clock w, Blocked MONITOR_PATH) :: trace w /\
       msg_type (alert_message data) = "alert" /\
       stamps is_block (dispatched data w) = [clock w] /\
       pending_resets w' = pending_resets w ++ [(clock w + 60)%N] /\
       (forall d, (60 <= d)%N ->
          response_triggered_flag (advance d w') = false) /\
       (pending_resets w = [] -> forall d, (d < 60)%N ->
          response_triggered_flag (advance d w') = true)) /\
  (forall w0 signals t0, armed w0 ->
     (count_in_window is_block t0 (trace (run w0 signals)) <= 1)%nat /\
     (NoDup (client_id <$> connected_clients w0) -> forall c,
        (count_in_window (is_alert_to c) t0 (trace (run w0 signals))
         <= 1)%nat)) /\
  (forall w0 d1 d2 d3, armed w0 ->
     stamps is_block (trace (run w0 [Anomaly d1; Elapse 1; Anomaly d2]))
       = [clock w0] /\
     stamps is_block
       (trace (run w0 [Anomaly d1; Elapse 1; Anomaly d2; Elapse 59; Anomaly d3]))
       = [(clock w0 + 60)%N; clock w0]).
Proof.
  split; [|split; [|split]].
  - intros data w Hf. rewrite trigger_response_spec. by rewrite Hf.
  - intros data w Hf. exists (fired data w).
    split; [rewrite trigger_response_spec; by rewrite Hf|].
    split; [done|].
    split.
    { unfold fired, dispatched, alert_message; simpl.
      by rewrite <- app_assoc. }
    split; [reflexivity|]. split.
    { destruct (once_per_dispatch_block w data) as [H|H]; [|done].
      unfold dispatched in H. rewrite stamps_app in H.
      by apply app_eq_nil in H as [_ H]. }
    split; [done|]. split.
    + intros d Hd. unfold advance, fired. simpl.
      rewrite filter_app, filter_cons, filter_nil.
      rewrite decide_True by lia.
      by destruct (filter _ (pending_resets w)).
    + intros Hp d Hd. rewrite advance_fired by done.
      destruct (decide (60 <= d)%N); [lia | done].
  - intros w0 signals t0 (Hf & Hp & Ht).
    assert (Hinit : forall P, debounced P w0).
    { intros P. unfold debounced. rewrite Hf, Hp, Ht. simpl.
      split; [done|]. split; [done|]. intros s Hs. by apply elem_of_nil in Hs. }
    split.
    + rewrite count_in_window_stamps. apply spaced_window.
      apply (debounced_run is_block); [done| |done].
      intros w' _. apply once_per_dispatch_block.
    + intros Hnd c. rewrite count_in_window_stamps. apply spaced_window.
      apply (debounced_run (is_alert_to c)).
      * repeat split; try done. intros c' m Hm. simpl. rewrite Hm.
        apply andb_false_r.
      * intros w' Hw'. apply once_per_dispatch_alert. by rewrite Hw'.
      * done.
  - intros w0 d1 d2 d3 (Hf & Hp & Ht).
    assert (Hblock : forall data w, stamps is_block (dispatched data w) = [clock w]).
    { intros data w.
      destruct (once_per_dispatch_block w data) as [H|H]; [|done].
      unfold dispatched in H. rewrite stamps_app in H.
      by apply app_eq_nil in H as [_ H]. }
    unfold run. simpl. rewrite !trigger_response_spec. simpl. rewrite Hf.
    rewrite advance_fired by done.
    destruct (decide (60 <= 1)%N) as [Hlt|_]; [lia|]. simpl.
    rewrite Ht, app_nil_r. split; [apply Hblock|].
    unfold advance. simpl. rewrite !filter_cons, !filter_nil.
    rewrite decide_True by lia. rewrite decide_False by lia. simpl.
    unfold fired. simpl. rewrite stamps_app.
    rewrite (Hblock d1 w0).
    pose proof (Hblock d3) as H3. unfold dispatched in *. simpl in *.
    specialize (H3 (World (file_monitor_handler_global w0) (baseline_stats w0)
      false true (connected_clients w0) (clock w0 + 1 + 59)%N [] [])).
    simpl in H3. rewrite H3. simpl. f_equal. lia.
Qed.

Lemma alert_debounce_witness :
  (count_in_window is_block 0
     (trace (run startup_world
               [PollIteration calm_sources; Anomaly (reading 60 2); Elapse 1;
                StatusRequest calm_sources; Anomaly (reading 60 2)]))
   <= 1)%nat.
Proof.
  destruct alert_debounce as (_ & _ & Hwindow & _).
  destruct (Hwindow startup_world
              [PollIteration calm_sources; Anomaly (reading 60 2); Elapse 1;
               StatusRequest calm_sources; Anomaly (reading 60 2)] 0%N)
    as [Hblocks _]; [repeat split | exact Hblocks].
Defined.

(** ** Detector and early alert check *)

(** *** Steps of the monad *)

Lemma bind_ok {A B} (m : M A) (f : A -> M B) (w w1 : world) (a : A) :
  m w = (Ok a, w1) -> (m ≫= f) w = f a w1.
Proof. intros H. unfold mbind, M_bind. by rewrite H. Qed.

Lemma bind_raise {A B} (m : M A) (f : A -> M B) (w w1 : world) (e : exn) :
  m w = (Raise e, w1) -> (m ≫= f) w = (Raise e, w1).
Proof. intros H. unfold mbind, M_bind. by rewrite H. Qed.

Lemma add_trace_nil (w : world) : add_trace [] w = w.
Proof. by destruct w. Qed.

Lemma add_trace_app (e1 e2 : list (N * effect)) (w : world) :
  add_trace e1 (add_trace e2 w) = add_trace (e1 ++ e2) w.
Proof. unfold add_trace; simpl. by rewrite app_assoc. Qed.

Lemma Qgtb_true (x y : Q) : Qgtb x y = true <-> y < x.
Proof.
  unfold Qgtb. rewrite negb_true_iff. split.
  - intros H. destruct (Qlt_le_dec y x) as [Hlt|Hle]; [done|].
    apply Qle_bool_iff in Hle. congruence.
  - intros H. destruct (Qle_bool x y) eqn:E; [|done].
    apply Qle_bool_iff in E. lra.
Qed.

Lemma number_at_num (data : dict) (key : string) (x : Q) :
  data !! key = Some (VNum x) -> number_at data key = Ok x.
Proof. intros H. unfold number_at, getitem. by rewrite H. Qed.

Lemma log_info_one (record : string) (data : dict) (key : string) (v : value)
    (w : world) :
  data !! key = Some v ->
  log_info record data [key] w =
  (Ok tt, add_trace [(clock w, Logged record [v])] w).
Proof.
  intros H. unfold log_info. erewrite bind_ok; [reflexivity|].
  unfold lift. simpl. unfold getitem. by rewrite H.
Qed.

Lemma log_info_three (record : string) (data : dict) (k1 k2 k3 : string)
    (v1 v2 v3 : value) (w : world) :
  data !! k1 = Some v1 -> data !! k2 = Some v2 -> data !! k3 = Some v3 ->
  log_info record data [k1; k2; k3] w =
  (Ok tt, add_trace [(clock w, Logged record [v1; v2; v3])] w).
Proof.
  intros H1 H2 H3. unfold log_info. erewrite bind_ok; [reflexivity|].
  unfold lift. simpl. unfold getitem. by rewrite H1, H2, H3.
Qed.

Lemma deviates_numeric (base_mean : Q) (data : dict) (key : string) (x : Q) :
  data !! key = Some (VNum x) ->
  exists hit, deviates base_mean data key = Ok hit /\
    (hit = true <-> 0 < base_mean /\ 85 # 100 < Qabs (x - base_mean) / base_mean).
Proof.
  intros H. unfold deviates. destruct (Qgtb base_mean 0) eqn:E.
  - rewrite (number_at_num _ _ _ H). simpl. eexists. split; [reflexivity|].
    apply Qgtb_true in E. rewrite Qgtb_true. tauto.
  - exists false. split; [done|]. split; [done|].
    intros [H0 _]. apply Qgtb_true in H0. congruence.
Qed.

Lemma deviation_among_cons (baseline : gmap string stats) (data : dict)
    (key : string) (rest : list string) (x : Q) :
  data !! key = Some (VNum x) ->
  deviation_among baseline data (key :: rest) <->
  (0 < base_mean_of baseline key /\
   85 # 100 < Qabs (x - base_mean_of baseline key) / base_mean_of baseline key) \/
  deviation_among baseline data rest.
Proof.
  intros H. split.
  - intros (k & y & Hin & Hk & Hdev). apply elem_of_cons in Hin as [->|Hin].
    + left. rewrite H in Hk. injection Hk as ->. exact Hdev.
    + right. by exists k, y.
  - intros [Hdev | (k & y & Hin & Hk & Hdev)].
    + exists key, x. split; [left|]. done.
    + exists k, y. split; [by right|]. done.
Qed.

(** The main loop only logs, and decides the relative rule. *)
Lemma sudden_anomaly_loop_numeric (data : dict) (keys : list string) (w : world) :
  numbers_at data keys ->
  exists hit logs,
    sudden_anomaly_loop data keys w = (Ok hit, add_trace logs w) /\
    Forall (fun te => is_log (snd te) = true) logs /\
    (hit = false -> logs = []) /\
    (hit = true <-> deviation_among (baseline_stats w) data keys).
Proof.
  induction keys as [|key rest IH]; intros Hnum.
  - exists false, []. rewrite add_trace_nil. split; [done|]. split; [done|].
    split; [done|]. split; [done|]. intros (k & x & Hin & _). by apply elem_of_nil in Hin.
  - destruct (Hnum key) as [x Hx]; [left|].
    destruct (deviates_numeric (base_mean_of (baseline_stats w) key) data key x Hx)
      as (hit & Hdev & Hhit).
    cbn [sudden_anomaly_loop].
    erewrite bind_ok by reflexivity.
    erewrite bind_ok by (unfold lift; rewrite Hdev; reflexivity).
    destruct hit.
    + erewrite bind_ok by (by apply log_info_one).
      eexists true, _. split; [reflexivity|]. split.
      { by repeat constructor. }
      split; [done|]. split; [|done]. intros _. apply (deviation_among_cons _ _ _ _ _ Hx).
      left. by apply Hhit.
    + destruct IH as (hit & logs & Hloop & Hlogs & Hnil & Hiff).
      { intros k Hk. apply Hnum. by right. }
      exists hit, logs. split; [done|]. split; [done|]. split; [done|].
      rewrite Hiff, (deviation_among_cons _ _ _ _ _ Hx).
      split; [tauto|]. intros [Hd|Hd]; [|done].
      apply Hhit in Hd. done.
Qed.

Lemma absolute_rule_iff (data : dict) (m r d : Q) :
  data !! "modified" = Some (VNum m) ->
  data !! "renamed" = Some (VNum r) ->
  data !! "deleted" = Some (VNum d) ->
  absolute_rule data <-> 30 <= m \/ 30 <= r \/ 30 <= d.
Proof.
  intros Hm Hr Hd. split.
  - intros (key & x & Hin & Hk & Hx). unfold file_event_keys in Hin.
    apply elem_of_cons in Hin as [->|Hin]; [left; congruence|].
    apply elem_of_cons in Hin as [->|Hin]; [right; left; congruence|].
    apply elem_of_cons in Hin as [->|Hin]; [right; right; congruence|].
    by apply elem_of_nil in Hin.
  - unfold absolute_rule, file_event_keys.
    intros [H|[H|H]]; [exists "modified", m | exists "renamed", r | exists "deleted", d];
      (split; [set_solver | done]).
Qed.

Lemma file_event_rule_numeric (data : dict) :
  numbers_at data file_event_keys ->
  exists over, file_event_rule data = Ok over /\
    (over = true <-> absolute_rule data).
Proof.
  intros Hnum.
  destruct (Hnum "modified") as [m Hm]; [set_solver|].
  destruct (Hnum "renamed") as [r Hr]; [set_solver|].
  destruct (Hnum "deleted") as [d Hd]; [set_solver|].
  pose proof (absolute_rule_iff data m r d Hm Hr Hd) as Habs.
  unfold file_event_rule, at_least_30.
  rewrite (number_at_num _ _ _ Hm), (number_at_num _ _ _ Hr),
    (number_at_num _ _ _ Hd). simpl.
  destruct (Qle_bool 30 m) eqn:Em.
  { exists true. split; [done|]. apply Qle_bool_iff in Em. tauto. }
  destruct (Qle_bool 30 r) eqn:Er.
  { exists true. split; [done|]. apply Qle_bool_iff in Er. tauto. }
  exists (Qle_bool 30 d). split; [done|]. rewrite Habs, Qle_bool_iff.
  split; [tauto|]. intros [H|[H|H]]; [| |done].
  - apply Qle_bool_iff in H. congruence.
  - apply Qle_bool_iff in H. congruence.
Qed.

Lemma numbers_at_app (data : dict) (k1 k2 : list string) :
  numbers_at data (k1 ++ k2) -> numbers_at data k1 /\ numbers_at data k2.
Proof. intros H. split; intros k Hk; apply H; set_solver. Qed.

(** Lines 367-376 under numeric readings: only log records are added
    and the result decides the two rules. *)
Lemma sudden_anomaly_check_numeric (data : dict) (w : world) :
  numbers_at data (watch_list ++ file_event_keys) ->
  exists sudden logs,
    sudden_anomaly_check data w = (Ok sudden, add_trace logs w) /\
    Forall (fun te => is_log (snd te) = true) logs /\
    (sudden = false -> logs = []) /\
    (sudden = true <->
       relative_rule (baseline_stats w) data \/ absolute_rule data).
Proof.
  intros Hnum. apply numbers_at_app in Hnum as [Hw Hf].
  destruct (sudden_anomaly_loop_numeric data watch_list w Hw)
    as (hit & logs & Hloop & Hlogs & Hnil & Hhit).
  destruct (file_event_rule_numeric data Hf) as (over & Hover & Hiff).
  destruct (Hf "modified") as [m Hm]; [set_solver|].
  destruct (Hf "renamed") as [r Hr]; [set_solver|].
  destruct (Hf "deleted") as [d Hd]; [set_solver|].
  unfold sudden_anomaly_check.
  erewrite bind_ok by exact Hloop.
  erewrite bind_ok by (unfold lift; rewrite Hover; reflexivity).
  change (relative_rule (baseline_stats w) data)
    with (deviation_among (baseline_stats w) data watch_list).
  destruct over.
  - erewrite bind_ok by (by apply log_info_three).
    rewrite add_trace_app. eexists true, _. split; [reflexivity|].
    split; [by constructor|]. split; [done|].
    split; [|done]. intros _. right. by apply Hiff.
  - exists hit, logs. split; [done|]. split; [done|]. split; [done|].
    rewrite Hhit. split; [tauto|]. intros [H|H]; [done|].
    apply Hiff in H. done.
Qed.

Lemma classify_lookup (detection : nat) (data : dict) :
  classify detection data !! "ml_detection" = Some (VInt detection) /\
  classify detection data !! "state" = Some (VStr (state_of detection)) /\
  classify detection data !! "ml_model_dedicated" =
    Some (VBool (Nat.eqb detection 1)).
Proof. unfold classify. by simplify_map_eq. Qed.

Lemma stored_rule_iff (baseline : gmap string stats) (data : dict) :
  watched_stored baseline ->
  relative_rule baseline data <-> stored_deviation baseline data.
Proof.
  intros Hstored. unfold relative_rule, deviation_among, stored_deviation.
  split.
  - intros (key & x & Hkey & Hx & Hpos & Hdev).
    destruct (Hstored key Hkey) as [st Hst].
    unfold base_mean_of in Hpos, Hdev. rewrite Hst in Hpos, Hdev.
    by exists key, st, x.
  - intros (key & st & x & Hkey & Hst & Hx & Hpos & Hdev).
    exists key, x. unfold base_mean_of. rewrite Hst. done.
Qed.

Lemma file_event_threshold_iff (data : dict) :
  absolute_rule data <-> file_event_threshold data.
Proof.
  unfold absolute_rule, file_event_threshold, file_event_keys. split.
  - intros (key & x & Hkey & Hx & Hle). exists x. split; [|done].
    apply elem_of_cons in Hkey as [->|Hkey]; [by left|].
    apply elem_of_cons in Hkey as [->|Hkey]; [by right; left|].
    apply elem_of_cons in Hkey as [->|Hkey]; [by right; right|].
    by apply elem_of_nil in Hkey.
  - intros (x & [Hx|[Hx|Hx]] & Hle);
      [exists "modified", x | exists "renamed", x | exists "deleted", x];
      (split; [set_solver | done]).
Qed.

(** C1.  On a snapshot whose six consulted features are numbers, the
    detector returns and reports an anomaly exactly when the relative rule
    (some watched feature with baseline mean above 0 deviating by more
    than 0.85 of that mean) or the absolute rule (modified, renamed or
    deleted at least 30) holds; the mean is the one that [baseline_stats]
    stores for the feature; the labels are then 1 and
    "ransomware detected", otherwise 0 and "normal". *)
Theorem detector_rule (data : dict) (w : world) :
  numbers_at data (watch_list ++ file_event_keys) ->
  exists sudden w',
    sudden_anomaly_check data w = (Ok sudden, w') /\
    (sudden = true <->
       relative_rule (baseline_stats w) data \/ absolute_rule data) /\
    (watched_stored (baseline_stats w) ->
     (sudden = true <->
        stored_deviation (baseline_stats w) data \/
        file_event_threshold data)) /\
    classify (detection_of sudden) data !! "ml_detection"
      = Some (VInt (if sudden then 1 else 0)) /\
    classify (detection_of sudden) data !! "state"
      = Some (VStr (if sudden then "ransomware detected" else "normal")).
Proof.
  intros Hnum.
  destruct (sudden_anomaly_check_numeric data w Hnum)
    as (sudden & logs & Hcheck & _ & _ & Hiff).
  exists sudden, (add_trace logs w). split; [done|]. split; [done|].
  split.
  { intros Hstored.
    by rewrite Hiff, (stored_rule_iff _ _ Hstored), file_event_threshold_iff. }
  destruct (classify_lookup (detection_of sudden) data) as (Hd & Hs & _).
  rewrite Hd, Hs. by destruct sudden.
Qed.

Lemma startup_world_watched : watched_stored (baseline_stats startup_world).
Proof.
  intros key Hkey. each_key Hkey ltac:(by eexists).
Qed.

Lemma detector_rule_witness :
  exists w', sudden_anomaly_check (reading 60 2) startup_world = (Ok true, w').
Proof.
  assert (Hnum : numbers_at (reading 60 2) (watch_list ++ file_event_keys)).
  { intros key Hkey. unfold watch_list, file_event_keys in Hkey.
    simpl in Hkey.
    each_key Hkey ltac:(by eexists). }
  destruct (detector_rule (reading 60 2) startup_world Hnum)
    as (sudden & w' & Hcheck & _ & Hstored & _).
  assert (sudden = true) as ->.
  { apply (Hstored startup_world_watched). left.
    exists "memory_usage", (Stats 30 10), 60.
    split; [left|]. split; [reflexivity|]. split; [reflexivity|].
    split; reflexivity. }
  exists w'. exact Hcheck.
Defined.

(** The readings named in the specification: memory 60 against a mean of
    30 fires, memory 50 does not, and 30 modified files fire whatever the
    baseline. *)
Example detector_examples :
  fst (sudden_anomaly_check (reading 60 2) startup_world) = Ok true /\
  fst (sudden_anomaly_check (reading 50 2) startup_world) = Ok false /\
  fst (sudden_anomaly_check (reading 30 30) startup_world) = Ok true.
Proof. repeat split; vm_compute; reflexivity. Qed.

(** *** Early alert check *)

Lemma early_alert_loop_numeric (data : dict) (keys : list string) (w : world) :
  numbers_at data keys ->
  exists (hit : bool) (logs : list (N * effect)),
    early_alert_loop data keys w =
      (Ok hit, if hit then snd (trigger_response data (add_trace logs w)) else w) /\
    Forall (fun te => is_log (snd te) = true) logs /\
    (hit = false -> logs = []) /\
    (hit = true <-> deviation_among (baseline_stats w) data keys).
Proof.
  induction keys as [|key rest IH]; intros Hnum.
  - exists false, []. split; [done|]. split; [done|]. split; [done|].
    split; [done|]. intros (k & x & Hin & _). by apply elem_of_nil in Hin.
  - destruct (Hnum key) as [x Hx]; [left|].
    destruct (deviates_numeric (base_mean_of (baseline_stats w) key) data key x Hx)
      as (hit & Hdev & Hhit).
    cbn [early_alert_loop].
    erewrite bind_ok by reflexivity.
    erewrite bind_ok by (unfold lift; cbv beta; unfold deviates in Hdev;
                         rewrite Hdev; reflexivity).
    destruct hit.
    + erewrite bind_ok by (by apply log_info_one).
      erewrite bind_ok by (rewrite trigger_response_spec; reflexivity).
      exists true, [(clock w, Logged "Early alert: deviated significantly" [VNum x])].
      split; [by rewrite trigger_response_spec|]. split.
      { by repeat constructor. }
      split; [done|]. split; [|done]. intros _. apply (deviation_among_cons _ _ _ _ _ Hx).
      left. by apply Hhit.
    + destruct IH as (hit & logs & Hloop & Hlogs & Hnil & Hiff).
      { intros k Hk. apply Hnum. by right. }
      exists hit, logs. split; [done|]. split; [done|]. split; [done|].
      rewrite Hiff, (deviation_among_cons _ _ _ _ _ Hx).
      split; [tauto|]. intros [Hd|Hd]; [|done].
      apply Hhit in Hd. done.
Qed.

Lemma check_and_trigger_early_alert_numeric (data : dict) (w : world) :
  numbers_at data (watch_list ++ file_event_keys) ->
  exists (fires : bool) (logs : list (N * effect)),
    check_and_trigger_early_alert data w =
      (Ok tt, if fires then snd (trigger_response data (add_trace logs w)) else w) /\
    Forall (fun te => is_log (snd te) = true) logs /\
    (fires = false -> logs = []) /\
    (fires = true <->
       relative_rule (baseline_stats w) data \/ absolute_rule data).
Proof.
  intros Hnum. apply numbers_at_app in Hnum as [Hw Hf].
  destruct (early_alert_loop_numeric data watch_list w Hw)
    as (hit & logs & Hloop & Hlogs & _ & Hhit).
  destruct (Hf "modified") as [m Hm]; [set_solver|].
  destruct (Hf "renamed") as [r Hr]; [set_solver|].
  destruct (Hf "deleted") as [d Hd]; [set_solver|].
  pose proof (absolute_rule_iff data m r d Hm Hr Hd) as Habs.
  change (relative_rule (baseline_stats w) data)
    with (deviation_among (baseline_stats w) data watch_list).
  unfold check_and_trigger_early_alert.
  erewrite bind_ok by exact Hloop.
  destruct hit.
  { exists true, logs. split; [done|]. split; [done|]. split; [done|]. tauto. }
  assert (exists over,
    (m0 ← number_at data "modified";
     if Qle_bool 30 m0 then mret true
     else r0 ← number_at data "renamed";
          if Qle_bool 30 r0 then mret true
          else d0 ← number_at data "deleted"; mret (Qle_bool 30 d0)) = Ok over /\
    (over = true <-> absolute_rule data)) as (over & Hover & Hiff).
  { rewrite (number_at_num _ _ _ Hm), (number_at_num _ _ _ Hr),
      (number_at_num _ _ _ Hd). simpl.
    destruct (Qle_bool 30 m) eqn:Em.
    { exists true. split; [done|]. apply Qle_bool_iff in Em. tauto. }
    destruct (Qle_bool 30 r) eqn:Er.
    { exists true. split; [done|]. apply Qle_bool_iff in Er. tauto. }
    exists (Qle_bool 30 d). split; [done|]. rewrite Habs, Qle_bool_iff.
    split; [tauto|]. intros [H|[H|H]]; [| |done].
    - apply Qle_bool_iff in H. congruence.
    - apply Qle_bool_iff in H. congruence. }
  erewrite bind_ok by (unfold lift; rewrite Hover; reflexivity).
  destruct over.
  - erewrite bind_ok by (by apply log_info_three).
    exists true, [(clock w, Logged "Early alert: File event threshold exceeded"
                              [VNum m; VNum r; VNum d])].
    split; [by rewrite !trigger_response_spec|].
    split; [by repeat constructor|]. split; [done|].
    split; [|done]. intros _. right. by apply Hiff.
  - exists false, []. split; [done|]. split; [done|]. split; [done|].
    split; [done|].
    intros [H|H]; [by apply Hhit in H | by apply Hiff in H].
Qed.

Lemma trigger_response_frame (data : dict) (w : world) :
  let w' := snd (trigger_response data w) in
  file_monitor_handler_global w' = file_monitor_handler_global w /\
  baseline_stats w' = baseline_stats w /\
  connected_clients w' = connected_clients w /\
  clock w' = clock w /\
  response_triggered_flag w' = true.
Proof.
  rewrite trigger_response_spec. simpl.
  by destruct (response_triggered_flag w) eqn:E.
Qed.

(** The two loops take the same path through the watch list, whatever
    the readings are: they stop at the same key, or raise the same
    exception, or both run to the end. *)
Lemma deviates_hit (base_mean : Q) (data : dict) (key : string) :
  deviates base_mean data key = Ok true -> exists v, data !! key = Some v.
Proof.
  unfold deviates, number_at, getitem. destruct (Qgtb base_mean 0); [|done].
  destruct (data !! key) as [v|]; [by exists v | done].
Qed.

Lemma sudden_anomaly_loop_cons (data : dict) (key : string)
    (rest : list string) (w : world) :
  sudden_anomaly_loop data (key :: rest) w =
  match deviates (base_mean_of (baseline_stats w) key) data key with
  | Raise e => (Raise e, w)
  | Ok true => (log_info "Sudden anomaly detected" data [key];; mret true) w
  | Ok false => sudden_anomaly_loop data rest w
  end.
Proof.
  cbn [sudden_anomaly_loop]. unfold mbind at 1 2, M_bind at 1 2, gets, lift.
  by destruct (deviates _ data key) as [[|]|e].
Qed.

Lemma early_alert_loop_cons (data : dict) (key : string)
    (rest : list string) (w : world) :
  early_alert_loop data (key :: rest) w =
  match deviates (base_mean_of (baseline_stats w) key) data key with
  | Raise e => (Raise e, w)
  | Ok true =>
      (log_info "Early alert: deviated significantly" data [key];;
       trigger_response data;; mret true) w
  | Ok false => early_alert_loop data rest w
  end.
Proof.
  cbn [early_alert_loop]. unfold mbind at 1 2, M_bind at 1 2, gets, lift.
  unfold deviates.
  by destruct (if Qgtb _ 0 then _ else _) as [[|]|e].
Qed.

Lemma loops_agree (data : dict) (keys : list string) (w : world) :
  match sudden_anomaly_loop data keys w with
  | (Raise e, w') => w' = w /\ early_alert_loop data keys w = (Raise e, w)
  | (Ok false, w') => w' = w /\ early_alert_loop data keys w = (Ok false, w)
  | (Ok true, w') =>
      exists logs logs',
        Forall (fun te => is_log (snd te) = true) logs /\
        Forall (fun te => is_log (snd te) = true) logs' /\
        w' = add_trace logs w /\
        early_alert_loop data keys w =
          (Ok true, snd (trigger_response data (add_trace logs' w)))
  end.
Proof.
  induction keys as [|key rest IH]; [done|].
  rewrite sudden_anomaly_loop_cons, early_alert_loop_cons.
  destruct (deviates (base_mean_of (baseline_stats w) key) data key)
    as [[|]|e] eqn:Hdev; [|exact IH|done].
  destruct (deviates_hit _ _ _ Hdev) as [v Hv].
  erewrite !bind_ok by (by apply log_info_one).
  erewrite bind_ok by (rewrite trigger_response_spec; reflexivity).
  exists [(clock w, Logged "Sudden anomaly detected" [v])],
         [(clock w, Logged "Early alert: deviated significantly" [v])].
  split; [by repeat constructor|]. split; [by repeat constructor|].
  split; [done|]. by rewrite !trigger_response_spec.
Qed.

Lemma early_file_event_rule (data : dict) :
  (m ← number_at data "modified";
   if Qle_bool 30 m then mret true
   else r ← number_at data "renamed";
        if Qle_bool 30 r then mret true
        else d ← number_at data "deleted"; mret (Qle_bool 30 d))
  = file_event_rule data.
Proof.
  unfold file_event_rule, at_least_30.
  destruct (number_at data "modified") as [m|e]; simpl; [|done].
  destruct (Qle_bool 30 m); [done|].
  destruct (number_at data "renamed") as [r|e]; simpl; [|done].
  destruct (Qle_bool 30 r); [done|].
  by destruct (number_at data "deleted") as [d|e].
Qed.

Lemma check_and_trigger_early_alert_unfold (data : dict) (w : world) :
  check_and_trigger_early_alert data w =
  match early_alert_loop data watch_list w with
  | (Raise e, w') => (Raise e, w')
  | (Ok true, w') => (Ok tt, w')
  | (Ok false, w') =>
      match file_event_rule data with
      | Raise e => (Raise e, w')
      | Ok true =>
          (log_info "Early alert: File event threshold exceeded" data
             file_event_keys;; trigger_response data) w'
      | Ok false => (Ok tt, w')
      end
  end.
Proof.
  unfold check_and_trigger_early_alert. rewrite early_file_event_rule.
  unfold mbind at 1 2, M_bind at 1 2, lift.
  destruct (early_alert_loop data watch_list w) as [[[|]|e] w']; [done| |done].
  by destruct (file_event_rule data) as [[|]|e].
Qed.

Lemma sudden_anomaly_check_unfold (data : dict) (w : world) :
  sudden_anomaly_check data w =
  match sudden_anomaly_loop data watch_list w with
  | (Raise e, w') => (Raise e, w')
  | (Ok hit, w') =>
      match file_event_rule data with
      | Raise e => (Raise e, w')
      | Ok true =>
          (log_info "Sudden file event threshold exceeded" data
             file_event_keys;; mret true) w'
      | Ok false => (Ok hit, w')
      end
  end.
Proof.
  unfold sudden_anomaly_check. unfold mbind at 1 2, M_bind at 1 2, lift.
  destruct (sudden_anomaly_loop data watch_list w) as [[hit|e] w']; [|done].
  by destruct (file_event_rule data) as [[|]|e].
Qed.

Lemma log_info_fst (record : string) (data : dict) (keys : list string)
    (w w' : world) :
  fst (log_info record data keys w) = fst (log_info record data keys w').
Proof.
  unfold log_info, mbind, M_bind, lift, emit, modify.
  by destruct (lookup_all data keys).
Qed.

Lemma sudden_anomaly_loop_fst (data : dict) (keys : list string) (w w' : world) :
  baseline_stats w = baseline_stats w' ->
  fst (sudden_anomaly_loop data keys w) = fst (sudden_anomaly_loop data keys w').
Proof.
  intros Hb. induction keys as [|key rest IH]; [done|].
  rewrite !sudden_anomaly_loop_cons, Hb.
  destruct (deviates _ data key) as [[|]|e]; [|exact IH|done].
  unfold mbind, M_bind.
  pose proof (log_info_fst "Sudden anomaly detected" data [key] w w') as Hl.
  destruct (log_info _ data [key] w) as [[[]|e] w1],
           (log_info _ data [key] w') as [[[]|e'] w1']; simpl in *; congruence.
Qed.

Lemma sudden_anomaly_check_fst (data : dict) (w w' : world) :
  baseline_stats w = baseline_stats w' ->
  fst (sudden_anomaly_check data w) = fst (sudden_anomaly_check data w').
Proof.
  intros Hb. rewrite !sudden_anomaly_check_unfold.
  pose proof (sudden_anomaly_loop_fst data watch_list w w' Hb) as Hl.
  destruct (sudden_anomaly_loop data watch_list w) as [[hit|e] w1],
           (sudden_anomaly_loop data watch_list w') as [[hit'|e'] w1'];
    simpl in Hl; try congruence; [|simpl; congruence].
  injection Hl as ->.
  destruct (file_event_rule data) as [[|]|e]; [|done|done].
  unfold mbind, M_bind.
  pose proof (log_info_fst "Sudden file event threshold exceeded" data
                file_event_keys w1 w1') as Hlog.
  destruct (log_info _ data file_event_keys w1) as [[[]|e] w2],
           (log_info _ data file_event_keys w1') as [[[]|e'] w2'];
    simpl in *; congruence.
Qed.

(** C8.  On a snapshot whose three file-event counters are numbers and
    for every baseline: when the main detector returns [sudden], the early
    check returns and has called [trigger_response] exactly when [sudden]
    is true; when the main detector raises, the early check raises the
    same exception; the early check leaves the baseline untouched and the
    main detector gives the same result after it. *)
Theorem early_check_agrees (data : dict) (w : world) :
  numbers_at data file_event_keys ->
  exists (logs : list (N * effect)) (w2 : world),
    Forall (fun te => is_log (snd te) = true) logs /\
    match fst (sudden_anomaly_check data w) with
    | Ok sudden =>
        check_and_trigger_early_alert data w = (Ok tt, w2) /\
        w2 = (if sudden then snd (trigger_response data (add_trace logs w))
              else w) /\
        (response_triggered_flag w = false ->
           (response_triggered_flag w2 = true <-> sudden = true))
    | Raise e => check_and_trigger_early_alert data w = (Raise e, w2) /\ w2 = w
    end /\
    baseline_stats w2 = baseline_stats w /\
    fst (sudden_anomaly_check data w2) = fst (sudden_anomaly_check data w) /\
    (numbers_at data watch_list ->
       exists sudden, fst (sudden_anomaly_check data w) = Ok sudden /\
         (sudden = true <->
            relative_rule (baseline_stats w) data \/ absolute_rule data)).
Proof.
  intros Hf.
  destruct (file_event_rule_numeric data Hf) as (over & Hover & _).
  destruct (Hf "modified") as [m Hm]; [set_solver|].
  destruct (Hf "renamed") as [r Hr]; [set_solver|].
  destruct (Hf "deleted") as [d Hd]; [set_solver|].
  assert (Hcore : exists (logs : list (N * effect)) (w2 : world),
    Forall (fun te => is_log (snd te) = true) logs /\
    match fst (sudden_anomaly_check data w) with
    | Ok sudden =>
        check_and_trigger_early_alert data w = (Ok tt, w2) /\
        w2 = (if sudden then snd (trigger_response data (add_trace logs w))
              else w)
    | Raise e => check_and_trigger_early_alert data w = (Raise e, w2) /\ w2 = w
    end).
  { rewrite sudden_anomaly_check_unfold, check_and_trigger_early_alert_unfold.
    pose proof (loops_agree data watch_list w) as Hloops.
    destruct (sudden_anomaly_loop data watch_list w) as [[[|]|e] w1].
    - destruct Hloops as (logs & logs' & _ & Hlogs' & -> & ->).
      exists logs', (snd (trigger_response data (add_trace logs' w))).
      split; [done|]. rewrite Hover. destruct over; [|done].
      erewrite bind_ok by (by apply log_info_three). done.
    - destruct Hloops as [-> ->]. rewrite Hover. destruct over.
      + erewrite !bind_ok by (by apply log_info_three).
        set (logs := [(clock w, Logged "Early alert: File event threshold exceeded"
                                  [VNum m; VNum r; VNum d])]).
        exists logs, (snd (trigger_response data (add_trace logs w))).
        split; [by repeat constructor|].
        simpl. split; [|reflexivity]. by rewrite !trigger_response_spec.
      + exists [], w. done.
    - destruct Hloops as [-> ->]. exists [], w. done. }
  destruct Hcore as (logs & w2 & Hlogs & Hcore).
  assert (Hbase : baseline_stats w2 = baseline_stats w).
  { destruct (fst (sudden_anomaly_check data w)) as [[|]|e];
      destruct Hcore as [_ ->]; try done.
    by destruct (trigger_response_frame data (add_trace logs w)) as (_ & -> & _). }
  exists logs, w2. split; [done|]. split; [|split; [done|split]].
  - destruct (fst (sudden_anomaly_check data w)) as [sudden|e]; [|done].
    destruct Hcore as [Hearly ->]. split; [done|]. split; [done|].
    intros Hflag. destruct sudden.
    + by destruct (trigger_response_frame data (add_trace logs w))
        as (_ & _ & _ & _ & ->).
    + by rewrite Hflag.
  - by apply sudden_anomaly_check_fst.
  - intros Hw.
    destruct (sudden_anomaly_check_numeric data w)
      as (sudden & l & Hc & _ & _ & Hiff).
    { intros key Hkey. apply elem_of_app in Hkey as [Hkey|Hkey]; auto. }
    exists sudden. by rewrite Hc.
Qed.

Lemma early_check_agrees_witness :
  exists w2,
    check_and_trigger_early_alert (reading 60 2) startup_world = (Ok tt, w2) /\
    response_triggered_flag w2 = true.
Proof.
  destruct (early_check_agrees (reading 60 2) startup_world)
    as (logs & w2 & _ & Hmatch & _).
  { intros key Hkey. unfold file_event_keys in Hkey.
    each_key Hkey ltac:(by eexists). }
  assert (Hcheck : fst (sudden_anomaly_check (reading 60 2) startup_world)
                   = Ok true) by (vm_compute; reflexivity).
  rewrite Hcheck in Hmatch. destruct Hmatch as (Hearly & _ & Hflag).
  exists w2. split; [exact Hearly|]. apply Hflag; reflexivity.
Defined.

(** ** Data collection *)

Lemma responds_robust_average (func : nat -> option Q) (samples : nat)
    (outlier_threshold : Q) :
  responds func samples ->
  exists q, robust_average func samples outlier_threshold = Some q.
Proof.
  intros (i & Hi & Hsome). unfold robust_average.
  destruct (collect func samples) as [|v vs] eqn:E.
  { pose proof (proj1 (collect_nil _ _) E i Hi) as Hnone.
    rewrite Hnone in Hsome. by destruct Hsome. }
  destruct (Qeq_bool _ 0); [by eexists|].
  destruct (filter _ _); by eexists.
Qed.

Lemma snapshot_numeric (src : sources) (file_events : gmap string nat) :
  healthy src ->
  numbers_at (snapshot src file_events) baseline_keys.
Proof.
  intros (Hcpu & Hmem & Hdisk & Hproc & Hnet & Hext).
  destruct (responds_robust_average _ 5 default_outlier_threshold Hcpu) as [q1 H1].
  destruct (responds_robust_average _ 5 default_outlier_threshold Hmem) as [q2 H2].
  destruct (responds_robust_average _ 5 default_outlier_threshold Hdisk) as [q3 H3].
  destruct (responds_robust_average _ 5 default_outlier_threshold Hproc) as [q4 H4].
  destruct (responds_robust_average _ 5 default_outlier_threshold Hnet) as [q5 H5].
  destruct (responds_robust_average _ 3 default_outlier_threshold Hext) as [q6 H6].
  destruct (responds_robust_average (get_total_network_connections_helper src) 5
              default_outlier_threshold) as [q7 H7].
  { exists 0%nat. split; [lia|]. by eexists. }
  assert (exists f, get_shadow_copy_flag src = VNum f) as [q8 H8].
  { unfold get_shadow_copy_flag. destruct (vssadmin src) as [[|]|]; by eexists. }
  intros key Hkey. unfold snapshot, get_cpu_usage, get_memory_usage,
    get_disk_usage, get_unauthorized_process_count,
    get_suspicious_network_count, get_suspicious_file_extension_count,
    get_total_network_connections.
  rewrite H1, H2, H3, H4, H5, H6, H7, H8. unfold baseline_keys in Hkey.
  each_key Hkey ltac:(by eexists).
Qed.

Lemma collect_system_data_spec (src : sources) (w : world) :
  collect_system_data src w =
  (Ok (snapshot src (fst (drain_file_events (file_monitor_handler_global w)))),
   set_handler (snd (drain_file_events (file_monitor_handler_global w))) w).
Proof.
  unfold collect_system_data.
  by destruct (drain_file_events (file_monitor_handler_global w)).
Qed.

Lemma lookup_all_ok (data : dict) (keys : list string) :
  (forall key, key ∈ keys -> is_Some (data !! key)) ->
  exists vs, lookup_all data keys = Ok vs.
Proof.
  induction keys as [|key rest IH]; intros H; [by eexists|].
  destruct (H key) as [v Hv]; [left|].
  destruct IH as [vs Hvs]; [intros k Hk; apply H; by right|].
  exists (v :: vs). simpl. unfold getitem. rewrite Hv. simpl. by rewrite Hvs.
Qed.

Lemma select_ok (data : dict) (keys : list string) :
  (forall key, key ∈ keys -> is_Some (data !! key)) ->
  exists d, select data keys = Ok d /\
    forall key, d !! key = if decide (key ∈ keys) then data !! key else None.
Proof.
  induction keys as [|key rest IH]; intros H.
  - exists ∅. split; [done|]. intros key. rewrite lookup_empty.
    by rewrite decide_False by apply not_elem_of_nil.
  - destruct (H key) as [v Hv]; [left|].
    destruct IH as (d & Hd & Hl); [intros k Hk; apply H; by right|].
    exists (<[key := v]> d). split.
    { simpl. unfold getitem. rewrite Hv. simpl. by rewrite Hd. }
    intros k. destruct (decide (k = key)) as [->|Hne].
    + rewrite lookup_insert_eq. rewrite decide_True by left. done.
    + rewrite lookup_insert_ne by done. rewrite Hl.
      destruct (decide (k ∈ rest)) as [Hin|Hout].
      * by rewrite decide_True by (by right).
      * rewrite decide_False; [done|].
        intros Hk. apply elem_of_cons in Hk as [?|?]; done.
Qed.

Lemma select_ext (d1 d2 : dict) (keys : list string) :
  (forall key, key ∈ keys -> d1 !! key = d2 !! key) ->
  select d1 keys = select d2 keys.
Proof.
  induction keys as [|key rest IH]; intros H; [done|].
  simpl. unfold getitem. rewrite (H key) by left.
  rewrite IH; [done|]. intros k Hk. apply H. by right.
Qed.

Lemma labelled_lookup (detection : nat) (b : bool) (data : dict) (key : string) :
  key ∉ derived_keys ->
  (<["response_triggered" := VBool b]> (classify detection data)) !! key
  = data !! key.
Proof.
  intros H. unfold classify, derived_keys in *.
  rewrite !lookup_insert_ne; [done|..]; intros <-; apply H; set_solver.
Qed.

Lemma baseline_keys_not_derived (key : string) :
  key ∈ baseline_keys -> key ∉ derived_keys.
Proof.
  intros Hkey. unfold baseline_keys in Hkey.
  each_key Hkey ltac:(by apply (bool_decide_unpack _)).
Qed.

Lemma feature_keys_tracked (key : string) :
  key ∈ feature_keys -> key ∈ baseline_keys.
Proof.
  intros Hkey. unfold feature_keys in Hkey.
  each_key Hkey ltac:(by apply (bool_decide_unpack _)).
Qed.

Lemma numeric_on_snapshot (baseline : gmap string stats) (data : dict) :
  tracks_features baseline -> numbers_at data baseline_keys ->
  numeric_on baseline data.
Proof.
  intros Htr Hnum key st v Hk Hv.
  destruct (Hnum key) as [x Hx]; [apply Htr; by exists st|].
  exists x. congruence.
Qed.

(** ** The detection cycle, end to end *)

Lemma cycle_spec (src : sources) (w : world) :
  healthy src -> tracks_features (baseline_stats w) ->
  let drained := drain_file_events (file_monitor_handler_global w) in
  let data := snapshot src (fst drained) in
  exists (sudden : bool) (updated : gmap string stats) (features : dict)
         (logs1 logs2 : list (N * effect)),
    fst (sudden_anomaly_check data w) = Ok sudden /\
    (sudden = true <->
       relative_rule (baseline_stats w) data \/ absolute_rule data) /\
    update_baseline (baseline_stats w) data default_alpha = Ok updated /\
    select data feature_keys = Ok features /\
    Forall (fun te => is_log (snd te) = true) logs1 /\
    Forall (fun te => is_log (snd te) = true) logs2 /\
    (sudden = false -> logs1 = [] /\ logs2 = []) /\
    collect_and_predict src w =
      (Ok (<["features" := VDict features]>
           (<["response_triggered" := VBool sudden]>
            (classify (detection_of sudden) data))),
       World (snd drained) updated
         (response_triggered_flag w || sudden)
         (action_blocked w || (sudden && negb (response_triggered_flag w)))
         (connected_clients w) (clock w)
         (pending_resets w ++
            (if sudden && negb (response_triggered_flag w)
             then [(clock w + 60)%N] else []))
         (logs2 ++
            (if sudden && negb (response_triggered_flag w)
             then dispatched data w else []) ++ logs1 ++ trace w)).
Proof.
  intros Hhealthy Htracks drained data.
  set (w1 := set_handler (snd drained) w).
  assert (Hnum : numbers_at data baseline_keys) by by apply snapshot_numeric.
  assert (Hnum6 : numbers_at data (watch_list ++ file_event_keys)).
  { intros key Hkey. apply Hnum.
    unfold watch_list, file_event_keys in Hkey. simpl in Hkey.
    each_key Hkey ltac:(by apply (bool_decide_unpack _)). }
  destruct (check_and_trigger_early_alert_numeric data w1 Hnum6)
    as (fires & logs1 & Hearly & Hlogs1 & Hnil1 & Hfires).
  set (w2 := if fires then snd (trigger_response data (add_trace logs1 w1)) else w1)
    in Hearly.
  assert (Hbase2 : baseline_stats w2 = baseline_stats w).
  { unfold w2. destruct fires; [|done].
    by destruct (trigger_response_frame data (add_trace logs1 w1)) as (_ & -> & _). }
  destruct (sudden_anomaly_check_numeric data w2 Hnum6)
    as (sudden & logs2 & Hcheck & Hlogs2 & Hnil2 & Hsudden).
  rewrite Hbase2 in Hsudden. change (baseline_stats w1) with (baseline_stats w) in Hfires.
  assert (fires = sudden) as Heq.
  { destruct fires, sudden; try done.
    - assert (false = true) by (apply Hsudden, Hfires; done). done.
    - assert (false = true) by (apply Hfires, Hsudden; done). done. }
  destruct (update_baseline_ok (baseline_stats w) data default_alpha)
    as (updated & Hupd & _); [by apply numeric_on_snapshot|].
  destruct (select_ok data feature_keys) as (features & Hsel & _).
  { intros key Hkey. destruct (Hnum key) as [x ->]; [|done].
    by apply feature_keys_tracked. }
  destruct (lookup_all_ok data feature_keys) as (vs & Hall).
  { intros key Hkey. destruct (Hnum key) as [x ->]; [|done].
    by apply feature_keys_tracked. }
  exists sudden, updated, features, logs1, logs2.
  split.
  { rewrite (sudden_anomaly_check_fst data w w2) by done. by rewrite Hcheck. }
  split; [done|]. split; [done|]. split; [done|]. split; [done|].
  split; [done|]. split; [intros ->; split; auto|].
  unfold collect_and_predict.
  erewrite bind_ok by apply collect_system_data_spec.
  erewrite bind_ok by exact Hearly.
  erewrite bind_ok by (unfold lift; fold drained; fold data; rewrite Hall; reflexivity).
  erewrite bind_ok by exact Hcheck.
  cbv zeta.
  set (labelled := classify (detection_of sudden) data).
  assert (Hupd' : forall b, update_baseline (baseline_stats w)
            (<["response_triggered" := VBool b]> labelled) default_alpha = Ok updated).
  { intros b. rewrite <- Hupd. apply update_baseline_ext. intros key Hkey.
    apply labelled_lookup, baseline_keys_not_derived, Htracks, Hkey. }
  assert (Hsel' : forall b, select (<["response_triggered" := VBool b]> labelled)
            feature_keys = Ok features).
  { intros b. rewrite <- Hsel. apply select_ext. intros key Hkey.
    by apply labelled_lookup, baseline_keys_not_derived, feature_keys_tracked. }
  subst fires. destruct sudden.
  - simpl Nat.eqb. cbv iota.
    erewrite bind_ok; cycle 1.
    { erewrite bind_ok by (rewrite trigger_response_spec; reflexivity).
      reflexivity. }
    erewrite bind_ok by reflexivity.
    assert (Hflag3 : response_triggered_flag (add_trace logs2 w2) = true).
    { unfold w2. simpl.
      by destruct (trigger_response_frame data (add_trace logs1 w1))
        as (_ & _ & _ & _ & ->). }
    rewrite Hflag3. simpl baseline_stats. rewrite Hbase2.
    erewrite bind_ok by (unfold lift; rewrite Hupd'; reflexivity).
    erewrite bind_ok by reflexivity.
    erewrite bind_ok by (unfold lift; rewrite Hsel'; reflexivity).
    unfold mret, M_ret. f_equal.
    unfold w2. rewrite trigger_response_spec. simpl.
    destruct (response_triggered_flag w) eqn:Hflag; simpl.
    + unfold set_baseline_stats, add_trace; simpl.
      f_equal; rewrite ?orb_false_r, ?orb_true_r, ?app_nil_r, <- ?app_assoc;
        done.
    + unfold set_baseline_stats, add_trace, fired, dispatched; simpl.
      f_equal; rewrite ?orb_false_r, ?orb_true_r, ?app_nil_r, <- ?app_assoc;
        done.
  - simpl Nat.eqb. cbv iota.
    erewrite bind_ok by reflexivity.
    erewrite bind_ok by reflexivity.
    simpl baseline_stats. rewrite ?Hbase2.
    erewrite bind_ok by (unfold lift; rewrite Hupd'; reflexivity).
    erewrite bind_ok by reflexivity.
    erewrite bind_ok by (unfold lift; rewrite Hsel'; reflexivity).
    unfold mret, M_ret. f_equal.
    unfold w2, set_baseline_stats, add_trace; simpl.
    rewrite (Hnil1 eq_refl).
    f_equal; rewrite ?orb_false_r, ?orb_true_r, ?app_nil_r, <- ?app_assoc;
      done.
Qed.

(** ** Poll iteration and status endpoint *)

Lemma stamps_logs (P : effect -> bool) (logs : list (N * effect)) :
  (forall record args, P (Logged record args) = false) ->
  Forall (fun te => is_log (snd te) = true) logs ->
  stamps P logs = [].
Proof.
  intros HP Hlogs. unfold stamps. rewrite filter_none; [done|].
  intros [t e] Hin. rewrite Forall_forall in Hlogs.
  specialize (Hlogs _ Hin). simpl in *.
  destruct e; try done. by rewrite HP.
Qed.

Lemma tracks_features_updated (baseline updated : gmap string stats)
    (data : dict) (alpha : Q) :
  numeric_on baseline data ->
  update_baseline baseline data alpha = Ok updated ->
  tracks_features baseline -> tracks_features updated.
Proof.
  intros Hnum Hupd Htr key [st Hst].
  destruct (update_baseline_ok baseline data alpha Hnum) as (u & Hu & _ & Hout).
  assert (u = updated) as -> by congruence.
  apply Htr. destruct (baseline !! key) as [st0|] eqn:E; [by eexists|].
  rewrite (Hout key E) in Hst. done.
Qed.

Lemma calm_sources_healthy : healthy calm_sources.
Proof. repeat split; exists 0%nat; (split; [lia | by eexists]). Qed.

Lemma startup_world_tracks : tracks_features (baseline_stats startup_world).
Proof.
  intros key [st Hst]. apply elem_of_list_to_map_2 in Hst.
  apply (list_elem_of_fmap_2 fst) in Hst. exact Hst.
Qed.

(** Every tracked feature has a reading in the snapshot, and the update
    stores one step of its statistics with that reading. *)
Lemma snapshot_steps (baseline updated : gmap string stats) (data : dict) :
  numbers_at data baseline_keys -> tracks_features baseline ->
  update_baseline baseline data default_alpha = Ok updated ->
  forall key st, baseline !! key = Some st ->
    exists x st', data !! key = Some (VNum x) /\
                  updated !! key = Some st' /\ stepped st st' x.
Proof.
  intros Hnum Htracks Hupd key st Hst.
  destruct (Hnum key) as [x Hx]; [apply Htracks; by exists st|].
  destruct (update_baseline_ok baseline data default_alpha)
    as (u & Hu & Hin & _); [by apply numeric_on_snapshot|].
  assert (u = updated) as -> by congruence.
  exists x, (update_stats default_alpha st x). split; [done|]. split.
  - apply Hin; [done|]. unfold new_value_of. by rewrite Hx.
  - split; reflexivity.
Qed.

(** C7.  With healthy sources, a cycle completes whatever the detector
    decides, its decision is the one taken against the baseline the cycle
    started with, and the baseline it leaves is one update step of that
    baseline with the cycle's snapshot: every tracked feature gets
    mean' = 0.9 * mean + 0.1 * x and std' = 0.9 * std + 0.1 * |x - mean'|
    for its reading x. *)
Theorem baseline_updated_every_cycle (src : sources) (w : world) :
  healthy src -> tracks_features (baseline_stats w) ->
  exists (data : dict) (w1 : world) (sudden : bool) (out : dict) (w' : world),
    collect_system_data src w = (Ok data, w1) /\
    collect_and_predict src w = (Ok out, w') /\
    fst (sudden_anomaly_check data w) = Ok sudden /\
    (sudden = true <->
       relative_rule (baseline_stats w) data \/ absolute_rule data) /\
    out !! "ml_detection" = Some (VInt (if sudden then 1 else 0)) /\
    out !! "state"
      = Some (VStr (if sudden then "ransomware detected" else "normal")) /\
    update_baseline (baseline_stats w) data default_alpha
      = Ok (baseline_stats w') /\
    tracks_features (baseline_stats w') /\
    (forall key st, baseline_stats w !! key = Some st ->
       exists x st', data !! key = Some (VNum x) /\
                     baseline_stats w' !! key = Some st' /\
                     stepped st st' x) /\
    (watched_stored (baseline_stats w) ->
     (sudden = true <->
        stored_deviation (baseline_stats w) data \/
        file_event_threshold data)).
Proof.
  intros Hhealthy Htracks.
  destruct (cycle_spec src w Hhealthy Htracks)
    as (sudden & updated & features & logs1 & logs2 & Hcheck & Hiff & Hupd &
        _ & _ & _ & _ & Hcycle).
  pose proof (snapshot_numeric src
    (fst (drain_file_events (file_monitor_handler_global w))) Hhealthy)
    as Hnum.
  eexists _, _, sudden, _, _.
  split; [apply collect_system_data_spec|].
  split; [exact Hcycle|]. split; [exact Hcheck|]. split; [exact Hiff|].
  split; [by destruct sudden|]. split; [by destruct sudden|].
  split; [exact Hupd|]. cbn [baseline_stats]. split; [|split].
  - eapply tracks_features_updated; [|exact Hupd|exact Htracks].
    by apply numeric_on_snapshot.
  - exact (snapshot_steps _ _ _ Hnum Htracks Hupd).
  - intros Hstored.
    by rewrite Hiff, (stored_rule_iff _ _ Hstored), file_event_threshold_iff.
Qed.

Lemma baseline_updated_every_cycle_witness :
  exists out w' st',
    collect_and_predict calm_sources one_change_world = (Ok out, w') /\
    baseline_stats one_change_world !! "modified" = Some (Stats 2 1) /\
    baseline_stats w' !! "modified" = Some st' /\
    mean st' == 19 # 10 /\ std st' == 99 # 100.
Proof.
  destruct (baseline_updated_every_cycle calm_sources one_change_world
              calm_sources_healthy startup_world_tracks)
    as (data & w1 & sudden & out & w' & Hcollect & Hcycle & _ & _ & _ & _ &
        _ & _ & Hstep & _).
  destruct (Hstep "modified" (Stats 2 1) eq_refl)
    as (x & st' & Hx & Hst' & Hmean & Hstd).
  rewrite collect_system_data_spec in Hcollect.
  injection Hcollect as <- _.
  change (Some (VNum 1) = Some (VNum x)) in Hx. injection Hx as <-.
  exists out, w', st'. split; [exact Hcycle|]. split; [reflexivity|].
  split; [exact Hst'|].
  assert (Hm : mean st' == 19 # 10) by (rewrite Hmean; reflexivity).
  split; [exact Hm|]. rewrite Hstd, Hm. reflexivity.
Defined.

Lemma NoDup_feature_keys : NoDup feature_keys.
Proof. by apply (bool_decide_unpack _). Qed.

Lemma features_spec (data features : dict) :
  (forall key, key ∈ feature_keys -> is_Some (data !! key)) ->
  select data feature_keys = Ok features ->
  dom features = list_to_set feature_keys /\
  size features = 14%nat /\
  (forall key, key ∈ feature_keys -> features !! key = data !! key).
Proof.
  intros Hpresent Hsel.
  destruct (select_ok data feature_keys Hpresent) as (features' & Hsel' & Hfeat).
  assert (features' = features) as -> by congruence.
  assert (Hdom : dom features = list_to_set feature_keys).
  { apply set_eq. intros key. rewrite elem_of_dom, Hfeat, elem_of_list_to_set.
    destruct (decide (key ∈ feature_keys)) as [Hin|Hout].
    - split; [done|]. intros _. by apply Hpresent.
    - split; [intros [? ?]; done | done]. }
  split; [done|]. split.
  - rewrite <- size_dom, Hdom.
    rewrite size_list_to_set by apply NoDup_feature_keys. reflexivity.
  - intros key Hkey. rewrite Hfeat. by rewrite decide_True.
Qed.

Lemma deliveries_reach (c : client) (t : N) (clients : list client)
    (m : message) (on_error : string) :
  c ∈ clients -> send_raises c = false ->
  (t, Sent (client_id c) m) ∈ deliveries t clients m on_error.
Proof.
  intros Hc Hs. unfold deliveries.
  apply elem_of_reverse, list_elem_of_fmap. exists c. by rewrite Hs.
Qed.

(** The detection cycle itself sends no message of the live feed. *)
Lemma cycle_sends_no_feed (src : sources) (w : world) :
  healthy src -> tracks_features (baseline_stats w) ->
  exists (out : dict) (w1 : world),
    collect_and_predict src w = (Ok out, w1) /\
    stamps is_live_feed (trace w1) = stamps is_live_feed (trace w).
Proof.
  intros Hhealthy Htracks.
  destruct (cycle_spec src w Hhealthy Htracks)
    as (sudden & updated & features & logs1 & logs2 & _ & _ & _ & _ &
        Hlogs1 & Hlogs2 & _ & Hcycle).
  eexists _, _. split; [exact Hcycle|]. cbn [trace].
  rewrite !stamps_app.
  rewrite (stamps_logs is_live_feed logs1), (stamps_logs is_live_feed logs2)
    by done.
  cbn [app].
  destruct (sudden && negb (response_triggered_flag w)); [|done].
  unfold dispatched. rewrite stamps_app.
  by rewrite stamps_deliveries_other.
Qed.

(** C9.  With healthy sources and a writable audit file, an iteration of
    the poll loop ends by sending to every client one message of type
    "live_tracking" whose payload holds exactly the fourteen feature
    entries of the cycle's snapshot; a client whose send raises only adds
    a log record, and every other client is still served.  A cycle run
    by the status endpoint sends no such message. *)
Theorem live_feed_every_cycle (src : sources) (w : world) :
  healthy src -> tracks_features (baseline_stats w) ->
  csv_writable src = true ->
  exists (data : dict) (w1 : world) (features : dict)
         (older : list (N * effect)) (w' : world),
    collect_system_data src w = (Ok data, w1) /\
    periodic_display_iteration src w = (Ok tt, w') /\
    dom features = list_to_set feature_keys /\
    size features = 14%nat /\
    (forall key, key ∈ feature_keys -> features !! key = data !! key) /\
    trace w' =
      deliveries (clock w) (connected_clients w)
        (Message "live_tracking" None (VDict features))
        "Error sending live tracking data to client." ++ older /\
    (forall c, c ∈ connected_clients w -> send_raises c = false ->
       (clock w, Sent (client_id c)
                   (Message "live_tracking" None (VDict features))) ∈ trace w') /\
    (exists (response : dict) (w2 : world),
       get_system_data src w = (Ok response, w2) /\
       stamps is_live_feed (trace w2) = stamps is_live_feed (trace w)).
Proof.
  intros Hhealthy Htracks Hcsv.
  destruct (cycle_spec src w Hhealthy Htracks)
    as (sudden & updated & features & logs1 & logs2 & _ & _ & _ &
        Hsel & _ & _ & _ & Hcycle).
  assert (Hpresent : forall key, key ∈ feature_keys ->
    is_Some (snapshot src
      (fst (drain_file_events (file_monitor_handler_global w))) !! key)).
  { intros key Hkey.
    destruct (snapshot_numeric src
      (fst (drain_file_events (file_monitor_handler_global w))) Hhealthy key)
      as [x Hx]; [by apply feature_keys_tracked | by rewrite Hx]. }
  destruct (features_spec _ _ Hpresent Hsel) as (Hdom & Hsize & Hfeat).
  eexists _, _, features, _, _.
  split; [apply collect_system_data_spec|].
  split; [|split; [exact Hdom|split; [exact Hsize|split; [exact Hfeat|]]]].
  - unfold periodic_display_iteration.
    erewrite bind_ok by exact Hcycle.
    unfold correlation_engine. rewrite Hcsv.
    erewrite bind_ok by reflexivity.
    unfold notify_live_tracking.
    erewrite bind_ok by (unfold lift, getitem; rewrite lookup_insert_eq; reflexivity).
    erewrite bind_ok by reflexivity.
    rewrite send_each_spec. reflexivity.
  - unfold add_trace. cbn [trace clock connected_clients].
    split; [reflexivity|]. split.
    + intros c Hc Hs. apply elem_of_app. left. by apply deliveries_reach.
    + destruct (cycle_sends_no_feed src w Hhealthy Htracks)
        as (out & w2 & Hout & Hquiet).
      eexists _, w2. split; [|exact Hquiet].
      unfold get_system_data. erewrite bind_ok by exact Hout. reflexivity.
Qed.

Lemma live_feed_every_cycle_witness :
  exists features w',
    periodic_display_iteration calm_sources startup_world = (Ok tt, w') /\
    size features = 14%nat /\
    (0%N, Sent 1 (Message "live_tracking" None (VDict features))) ∈ trace w'.
Proof.
  destruct (live_feed_every_cycle calm_sources startup_world
              calm_sources_healthy startup_world_tracks eq_refl)
    as (data & w1 & features & older & w' & _ & Hiter & _ & Hsize & _ & _ &
        Hreach & _).
  exists features, w'. split; [exact Hiter|]. split; [exact Hsize|].
  apply (Hreach (Client 1 false)); [left | reflexivity].
Defined.

(** Two cycles with a subscriber connected and every source answering
    after which no message of the live feed has been sent: the cycle
    that the status endpoint runs, and a poll iteration whose audit file
    cannot be opened. *)
Lemma live_feed_not_every_cycle :
  connected_clients startup_world = [Client 1 false] /\
  healthy calm_sources /\
  (exists (response : dict) (w' : world),
     get_system_data calm_sources startup_world = (Ok response, w') /\
     stamps is_live_feed (trace w') = []) /\
  (exists w' : world,
     periodic_display_iteration audit_file_locked startup_world
     = (Raise IOError, w') /\
     stamps is_live_feed (trace w') = []).
Proof.
  split; [reflexivity|]. split; [exact calm_sources_healthy|]. split.
  - destruct (cycle_sends_no_feed calm_sources startup_world
                calm_sources_healthy startup_world_tracks)
      as (out & w1 & Hout & Hquiet).
    eexists _, w1. split; [|exact Hquiet].
    unfold get_system_data. erewrite bind_ok by exact Hout. reflexivity.
  - destruct (cycle_sends_no_feed audit_file_locked startup_world
                calm_sources_healthy startup_world_tracks)
      as (out & w1 & Hout & Hquiet).
    exists w1. split; [|exact Hquiet].
    unfold periodic_display_iteration. erewrite bind_ok by exact Hout.
    unfold correlation_engine. cbn [csv_writable audit_file_locked].
    erewrite bind_raise by reflexivity. reflexivity.
Qed.

(** C10.  A call of the status endpoint drains the handler's three sets,
    replaces the baseline by its one-step update (every tracked feature
    gets mean' = 0.9 * mean + 0.1 * x and std' = 0.9 * std +
    0.1 * |x - mean'| for its reading x), and, when the snapshot is
    anomalous and the flag is clear, blocks the directory once, sends the
    alerts and schedules the reset. *)
Theorem snapshot_runs_a_cycle (src : sources) (w : world)
    (h : FileMonitorHandler) :
  healthy src -> tracks_features (baseline_stats w) ->
  file_monitor_handler_global w = Some h ->
  exists (data : dict) (sudden : bool) (response : dict) (w' : world)
         (entries : list (N * effect)),
    data = snapshot src (fst (get_file_event_counts h)) /\
    get_system_data src w = (Ok response, w') /\
    fst (sudden_anomaly_check data w) = Ok sudden /\
    response !! "status"
      = Some (VStr (if sudden then "ransomware detected" else "normal")) /\
    file_monitor_handler_global w' = Some (Handler ∅ ∅ ∅) /\
    update_baseline (baseline_stats w) data default_alpha
      = Ok (baseline_stats w') /\
    trace w' = entries ++ trace w /\
    stamps is_block entries
      = (if sudden && negb (response_triggered_flag w) then [clock w] else []) /\
    (forall c, stamps (is_alert_to c) entries
       = if sudden && negb (response_triggered_flag w)
         then stamps (is_alert_to c) (dispatched data w) else []) /\
    response_triggered_flag w' = response_triggered_flag w || sudden /\
    pending_resets w' =
      pending_resets w ++
      (if sudden && negb (response_triggered_flag w)
       then [(clock w + 60)%N] else []) /\
    (forall key st, baseline_stats w !! key = Some st ->
       exists x st', data !! key = Some (VNum x) /\
                     baseline_stats w' !! key = Some st' /\
                     stepped st st' x).
Proof.
  intros Hhealthy Htracks Hh.
  destruct (cycle_spec src w Hhealthy Htracks)
    as (sudden & updated & features & logs1 & logs2 & Hcheck & _ & Hupd &
        _ & Hlogs1 & Hlogs2 & _ & Hcycle).
  pose proof (snapshot_steps _ _ _
    (snapshot_numeric src
       (fst (drain_file_events (file_monitor_handler_global w))) Hhealthy)
    Htracks Hupd) as Hstep.
  rewrite Hh in Hcheck, Hupd, Hcycle, Hstep.
  cbn [drain_file_events get_file_event_counts fst snd]
    in Hcheck, Hupd, Hcycle, Hstep.
  eexists _, sudden, _, _, _.
  split; [reflexivity|]. split.
  { unfold get_system_data. erewrite bind_ok by exact Hcycle. reflexivity. }
  split; [exact Hcheck|]. split.
  { rewrite lookup_insert_eq, lookup_insert_ne by done.
    unfold classify. rewrite lookup_insert_ne by done.
    rewrite lookup_insert_ne by done. rewrite lookup_insert_eq.
    by destruct sudden. }
  split; [reflexivity|]. split; [exact Hupd|].
  cbn [trace response_triggered_flag pending_resets].
  split; [by rewrite !app_assoc|].
  assert (Hblock : forall d, stamps is_block (dispatched d w) = [clock w]).
  { intros d. destruct (once_per_dispatch_block w d) as [H|H]; [|done].
    unfold dispatched in H. rewrite stamps_app in H.
    by apply app_eq_nil in H as [_ H]. }
  split; [|split; [|split; [done|split; [done|exact Hstep]]]].
  - rewrite !stamps_app.
    rewrite (stamps_logs is_block logs1), (stamps_logs is_block logs2) by done.
    rewrite app_nil_r. cbn [app].
    destruct (sudden && negb (response_triggered_flag w)); [apply Hblock|done].
  - intros c. rewrite !stamps_app.
    rewrite (stamps_logs (is_alert_to c) logs1),
      (stamps_logs (is_alert_to c) logs2) by done.
    rewrite app_nil_r. cbn [app].
    by destruct (sudden && negb (response_triggered_flag w)).
Qed.

Lemma snapshot_runs_a_cycle_witness :
  exists response w' st',
    get_system_data calm_sources one_change_world = (Ok response, w') /\
    file_monitor_handler_global one_change_world
      = Some (Handler {["a.txt"]} ∅ ∅) /\
    file_monitor_handler_global w' = Some (Handler ∅ ∅ ∅) /\
    baseline_stats one_change_world !! "modified" = Some (Stats 2 1) /\
    baseline_stats w' !! "modified" = Some st' /\
    mean st' == 19 # 10.
Proof.
  destruct (snapshot_runs_a_cycle calm_sources one_change_world _
              calm_sources_healthy startup_world_tracks eq_refl)
    as (data & sudden & response & w' & entries & Hdata & Hget & _ & _ & Hh &
        _ & _ & _ & _ & _ & _ & Hstep).
  destruct (Hstep "modified" (Stats 2 1) eq_refl)
    as (x & st' & Hx & Hst' & Hmean & _).
  rewrite Hdata in Hx.
  change (Some (VNum 1) = Some (VNum x)) in Hx. injection Hx as <-.
  exists response, w', st'. split; [exact Hget|]. split; [reflexivity|].
  split; [exact Hh|]. split; [reflexivity|]. split; [exact Hst'|].
  rewrite Hmean. reflexivity.
Defined.

(** The early check meets [None] at the first watched key. *)
Lemma sampler_exhaustion_raises (src : sources) (w : world) :
  (forall i, (i < 5)%nat -> virtual_memory_percent src i = None) ->
  0 < base_mean_of (baseline_stats w) "memory_usage" ->
  get_memory_usage src = VNone /\
  fst (collect_and_predict src w) = Raise TypeError /\
  fst (periodic_display_iteration src w) = Raise TypeError /\
  baseline_stats (snd (periodic_display_iteration src w)) = baseline_stats w.
Proof.
  intros Hsilent Hmean.
  assert (Hmem : get_memory_usage src = VNone).
  { unfold get_memory_usage, robust_average.
    by rewrite (proj2 (collect_nil _ _) Hsilent). }
  split; [done|].
  set (w1 := set_handler (snd (drain_file_events (file_monitor_handler_global w))) w).
  set (data := snapshot src (fst (drain_file_events (file_monitor_handler_global w)))).
  assert (Hdata : data !! "memory_usage" = Some VNone).
  { unfold data, snapshot. rewrite Hmem. reflexivity. }
  assert (Hearly : check_and_trigger_early_alert data w1 = (Raise TypeError, w1)).
  { rewrite check_and_trigger_early_alert_unfold.
    unfold watch_list. rewrite early_alert_loop_cons.
    unfold deviates. change (baseline_stats w1) with (baseline_stats w).
    rewrite (proj2 (Qgtb_true _ _) Hmean).
    unfold number_at, getitem. rewrite Hdata. reflexivity. }
  assert (Hcycle : collect_and_predict src w = (Raise TypeError, w1)).
  { unfold collect_and_predict.
    erewrite bind_ok by apply collect_system_data_spec.
    erewrite bind_raise by exact Hearly. reflexivity. }
  split; [by rewrite Hcycle|].
  unfold periodic_display_iteration.
  erewrite bind_raise by exact Hcycle. done.
Qed.

(** C5.  When every memory sample of a batch fails, the snapshot holds
    [None] for memory_usage, the detection cycle raises [TypeError], the
    poll iteration raises with it, and the baseline is not updated; with
    the same readings and a healthy memory probe the cycle completes. *)
Theorem memory_sampler_exhaustion_aborts_cycle :
  healthy calm_sources /\
  (exists out w', collect_and_predict calm_sources startup_world = (Ok out, w')) /\
  get_memory_usage memory_probe_down = VNone /\
  snapshot memory_probe_down no_file_events !! "memory_usage" = Some VNone /\
  fst (collect_and_predict memory_probe_down startup_world) = Raise TypeError /\
  fst (periodic_display_iteration memory_probe_down startup_world)
    = Raise TypeError /\
  baseline_stats (snd (periodic_display_iteration memory_probe_down startup_world))
    = baseline_stats startup_world.
Proof.
  split; [exact calm_sources_healthy|]. split.
  { destruct (cycle_spec calm_sources startup_world calm_sources_healthy
                startup_world_tracks)
      as (? & ? & ? & ? & ? & _ & _ & _ & _ & _ & _ & _ & Hcycle).
    eauto. }
  destruct (sampler_exhaustion_raises memory_probe_down startup_world)
    as (Hmem & Hc & Hp & Hb); [done|reflexivity|].
  split; [done|]. split; [|done].
  unfold snapshot. rewrite Hmem. reflexivity.
Qed.

(** * Further properties *)

(** ** Robust sampler: range and majority *)

Lemma sum_bounds (lo hi : Q) (l : list Q) :
  Forall (fun q => lo <= q <= hi) l ->
  inject_Z (Z.of_nat (length l)) * lo <= sum l <=
  inject_Z (Z.of_nat (length l)) * hi.
Proof.
  induction 1 as [|q l Hq Hl IH].
  - unfold sum; simpl. change (inject_Z (Z.of_nat 0)) with 0. lra.
  - change (sum (q :: l)) with (q + sum l).
    change (length (q :: l)) with (S (length l)).
    rewrite Nat2Z.inj_succ. unfold Z.succ. rewrite inject_Z_plus.
    change (inject_Z 1) with 1. lra.
Qed.

Lemma nth_bounds (lo hi : Q) (l : list Q) (k : nat) :
  Forall (fun q => lo <= q <= hi) l -> (k < length l)%nat ->
  lo <= nth k l 0 <= hi.
Proof.
  intros Hl Hk. rewrite Forall_forall in Hl. apply Hl.
  apply list_elem_of_In, nth_In, Hk.
Qed.

Lemma median_bounds (lo hi : Q) (vals : list Q) :
  vals <> [] -> Forall (fun q => lo <= q <= hi) vals ->
  lo <= median vals <= hi.
Proof.
  intros Hne Hvals.
  assert (Hs : Forall (fun q => lo <= q <= hi) (sort vals)).
  { by rewrite sort_perm. }
  assert (Hlen : length (sort vals) = length vals).
  { by rewrite sort_perm. }
  assert (0 < length vals)%nat by (destruct vals; [done | simpl; lia]).
  unfold median. rewrite Hlen.
  assert (length vals / 2 < length vals)%nat by (apply Nat.div_lt; lia).
  destruct (Nat.even (length vals)).
  - pose proof (nth_bounds lo hi (sort vals) (length vals / 2 - 1) Hs)
      as H1.
    pose proof (nth_bounds lo hi (sort vals) (length vals / 2) Hs) as H2.
    rewrite Hlen in H1, H2. specialize (H1 ltac:(lia)). specialize (H2 ltac:(lia)).
    split.
    + apply Qle_shift_div_l; lra.
    + apply Qle_shift_div_r; lra.
  - apply nth_bounds; [done|]. by rewrite Hlen.
Qed.

Lemma collect_bounds (lo hi : Q) (func : nat -> option Q) (samples : nat) :
  (forall i q, (i < samples)%nat -> func i = Some q -> lo <= q <= hi) ->
  Forall (fun q => lo <= q <= hi) (collect func samples).
Proof.
  intros H. apply Forall_forall. intros q Hq. unfold collect in Hq.
  apply list_elem_of_omap in Hq as (i & Hi & Hfi).
  apply elem_of_seq in Hi. apply (H i); [lia | done].
Qed.

Lemma mean_bounds (lo hi : Q) (l : list Q) :
  l <> [] -> Forall (fun q => lo <= q <= hi) l ->
  lo <= sum l / inject_Z (Z.of_nat (length l)) <= hi.
Proof.
  intros Hne Hl. pose proof (sum_bounds lo hi l Hl) as Hsum.
  assert (0 < inject_Z (Z.of_nat (length l))).
  { change 0 with (inject_Z 0). rewrite <- Zlt_Qlt.
    destruct l; [done | simpl; lia]. }
  split.
  - apply Qle_shift_div_l; [done | lra].
  - apply Qle_shift_div_r; [done | lra].
Qed.

(** X1.  The reading that the sampler returns lies within the range of
    the samples it collected: if every successful call gives a value
    between [lo] and [hi], so is the result. *)
Theorem robust_average_in_range (func : nat -> option Q) (samples : nat)
    (outlier_threshold lo hi r : Q) :
  (forall i q, (i < samples)%nat -> func i = Some q -> lo <= q <= hi) ->
  robust_average func samples outlier_threshold = Some r ->
  lo <= r <= hi.
Proof.
  intros Hrange Hr. apply collect_bounds in Hrange.
  unfold robust_average in Hr.
  destruct (collect func samples) as [|v vs] eqn:E; [done|].
  assert (Hmed : lo <= median (v :: vs) <= hi) by by apply median_bounds.
  destruct (Qeq_bool (median (v :: vs)) 0) eqn:E0.
  { apply Qeq_bool_iff in E0. injection Hr as <-. lra. }
  set (kept := filter _ (v :: vs)) in Hr.
  assert (Hkept : Forall (fun q => lo <= q <= hi) kept).
  { apply Forall_forall. intros q Hq. apply list_elem_of_filter in Hq as [_ Hq].
    rewrite Forall_forall in Hrange. by apply Hrange. }
  destruct kept as [|k ks] eqn:Ek; [injection Hr as <-; done|].
  injection Hr as <-. by apply (mean_bounds lo hi (k :: ks)).
Qed.

Lemma robust_average_in_range_witness :
  robust_average spike 5 default_outlier_threshold = Some (40 # 4) /\
  10 <= 40 # 4 <= 1000.
Proof.
  assert (Hr : robust_average spike 5 default_outlier_threshold = Some (40 # 4))
    by (vm_compute; reflexivity).
  split; [exact Hr|].
  apply (robust_average_in_range spike 5 default_outlier_threshold 10 1000);
    [|exact Hr].
  intros i q Hi Hq. unfold spike in Hq.
  do 5 (destruct i as [|i]; [injection Hq as <-; split; discriminate|]).
  lia.
Defined.

(** *** A majority of equal samples *)

Lemma majority_middle (c : Q) (s : list Q) (k : nat) :
  StronglySorted Qle s ->
  (length s - length (filter (fun v => Qeq_bool v c = true) s) <= k
   < length (filter (fun v => Qeq_bool v c = true) s))%nat ->
  nth k s 0 == c.
Proof.
  intros Hs [Hlo Hhi].
  pose proof (length_filter (fun v => Qeq_bool v c = true) s) as Hcnt.
  assert (Hk : (k < length s)%nat) by lia.
  destruct (nth_split s 0 Hk) as (l1 & l2 & Hsplit & Hlen).
  set (x := nth k s 0) in *.
  assert (Hbefore : forall v, v ∈ l1 -> v <= x).
  { intros v Hv. rewrite Hsplit in Hs.
    apply (StronglySorted_app_1_elem_of _ _ _ _ _ Hs Hv). left. }
  assert (Hafter : forall v, v ∈ l2 -> x <= v).
  { intros v Hv. rewrite Hsplit in Hs. apply StronglySorted_app_1_r in Hs.
    apply StronglySorted_inv in Hs as [_ Hall].
    rewrite Forall_forall in Hall. by apply Hall. }
  destruct (Q_dec x c) as [[Hlt|Hgt]|Heq]; [| |done]; exfalso.
  - assert (Hnone : filter (fun v => Qeq_bool v c = true) (l1 ++ [x]) = []).
    { apply filter_none. intros v Hv Heq. apply Qeq_bool_iff in Heq.
      apply elem_of_app in Hv as [Hv|Hv].
      - specialize (Hbefore v Hv). lra.
      - apply list_elem_of_singleton in Hv as ->. lra. }
    rewrite Hsplit in Hlo, Hhi, Hcnt.
    change (l1 ++ x :: l2) with (l1 ++ [x] ++ l2) in Hlo, Hhi, Hcnt.
    rewrite app_assoc, filter_app, Hnone in Hlo, Hhi.
    pose proof (length_filter (fun v => Qeq_bool v c = true) l2).
    rewrite !length_app in Hlo. cbn [app length] in *. lia.
  - assert (Hnone : filter (fun v => Qeq_bool v c = true) (x :: l2) = []).
    { apply filter_none. intros v Hv Heq. apply Qeq_bool_iff in Heq.
      apply elem_of_cons in Hv as [->|Hv]; [lra|].
      specialize (Hafter v Hv). lra. }
    rewrite Hsplit in Hhi. rewrite filter_app, Hnone, app_nil_r in Hhi.
    pose proof (length_filter (fun v => Qeq_bool v c = true) l1). lia.
Qed.

Lemma median_majority (c : Q) (vals : list Q) :
  (length vals < 2 * length (filter (fun v => Qeq_bool v c = true) vals))%nat ->
  median vals == c.
Proof.
  intros Hmaj.
  assert (Hs : StronglySorted Qle (sort vals)).
  { apply Sorted_StronglySorted; [exact Qle_trans | apply sort_sorted]. }
  assert (Hlen : length (sort vals) = length vals) by by rewrite sort_perm.
  assert (Hcnt : length (filter (fun v => Qeq_bool v c = true) (sort vals))
                 = length (filter (fun v => Qeq_bool v c = true) vals))
    by by rewrite sort_perm.
  pose proof (fun k => majority_middle c (sort vals) k Hs) as Hmid.
  rewrite Hlen, Hcnt in Hmid.
  unfold median. rewrite Hlen.
  pose proof (Nat.div_mod_eq (length vals) 2) as Hdiv.
  pose proof (Nat.mod_upper_bound (length vals) 2 ltac:(lia)) as Hmod.
  destruct (Nat.even (length vals)) eqn:Heven.
  - apply Nat.even_spec in Heven as [p Hp].
    assert (Hhalf : (length vals / 2 = p)%nat).
    { rewrite Hp, Nat.mul_comm. by apply Nat.div_mul. }
    rewrite Hhalf in *.
    rewrite (Hmid (p - 1)%nat), (Hmid p) by lia. field.
  - apply Hmid. lia.
Qed.

(** X2.  When more than half of the collected samples equal [c], the
    reading is within the outlier threshold of [c], whatever the other
    samples are. *)
Theorem robust_average_majority (func : nat -> option Q) (samples : nat)
    (outlier_threshold c : Q) :
  0 <= outlier_threshold ->
  (length (collect func samples)
   < 2 * length (filter (fun v => Qeq_bool v c = true)
                   (collect func samples)))%nat ->
  exists r, robust_average func samples outlier_threshold = Some r /\
            Qabs (r - c) <= outlier_threshold * Qabs c.
Proof.
  intros Hthr Hmaj. pose proof (median_majority c _ Hmaj) as Hmed.
  unfold robust_average.
  destruct (collect func samples) as [|v vs] eqn:E; [simpl in Hmaj; lia|].
  assert (Hnear : Qabs (median (v :: vs) - c) <= outlier_threshold * Qabs c).
  { assert (Hz : median (v :: vs) - c == 0) by lra. rewrite Hz.
    change (Qabs 0) with 0. apply Qmult_le_0_compat; [done|].
    apply Qabs_nonneg. }
  destruct (Qeq_bool (median (v :: vs)) 0) eqn:E0.
  { apply Qeq_bool_iff in E0. exists 0. split; [done|].
    assert (Hz : 0 - c == median (v :: vs) - c) by lra. by rewrite Hz. }
  apply Qeq_bool_neq in E0.
  set (kept := filter _ (v :: vs)).
  assert (Hkept : Forall (fun q => c - outlier_threshold * Qabs c <= q
                                   <= c + outlier_threshold * Qabs c) kept).
  { apply Forall_forall. intros q Hq.
    apply list_elem_of_filter in Hq as [Hq _]. apply within_spec in Hq.
    assert (Hpos : 0 < Qabs (median (v :: vs))).
    { destruct (Q_dec (median (v :: vs)) 0) as [[Hn|Hp]|Hz]; [| |done].
      - rewrite Qabs_neg by lra. lra.
      - rewrite Qabs_pos by lra. lra. }
    assert (Hq' : Qabs (q - median (v :: vs))
                  <= outlier_threshold * Qabs (median (v :: vs))).
    { apply (Qmult_le_compat_r _ _ (Qabs (median (v :: vs)))) in Hq; [|lra].
      assert (Hc : Qabs (q - median (v :: vs)) / Qabs (median (v :: vs))
                   * Qabs (median (v :: vs)) == Qabs (q - median (v :: vs)))
        by (field; lra).
      by rewrite Hc in Hq. }
    rewrite Hmed in Hq'. apply Qabs_Qle_condition in Hq'. lra. }
  destruct kept as [|k ks] eqn:Ek.
  { eexists. split; [reflexivity | exact Hnear]. }
  eexists. split; [reflexivity|].
  pose proof (mean_bounds _ _ (k :: ks) ltac:(done) Hkept) as Hmean.
  apply Qabs_Qle_condition. lra.
Qed.

Lemma robust_average_majority_witness :
  exists r, robust_average spike 5 default_outlier_threshold = Some r /\
            Qabs (r - 10) <= default_outlier_threshold * Qabs 10.
Proof.
  apply (robust_average_majority spike 5 default_outlier_threshold 10).
  - discriminate.
  - vm_compute. lia.
Defined.

(** X3.  The connection count never comes back as [None]: the helper
    turns a failed listing into 0, so every batch has five samples; when
    every listing fails the reading is 0. *)
Theorem network_probe_never_fails (src : sources) :
  exists q : Q,
    get_total_network_connections src = VNum q /\
    ((forall i, (i < 5)%nat -> net_connections src i = None) -> q = 0).
Proof.
  unfold get_total_network_connections, robust_average.
  assert (Hvals : collect (get_total_network_connections_helper src) 5
                  = map (fun i => default 0 (net_connections src i))
                      [0; 1; 2; 3; 4]%nat) by reflexivity.
  rewrite Hvals. cbn [map]. cbv iota.
  set (vals := [default 0 (net_connections src 0);
                default 0 (net_connections src 1);
                default 0 (net_connections src 2);
                default 0 (net_connections src 3);
                default 0 (net_connections src 4)]).
  assert (Hzero : (forall i, (i < 5)%nat -> net_connections src i = None) ->
                  Qeq_bool (median vals) 0 = true).
  { intros Hnone. unfold vals. rewrite !Hnone by lia. reflexivity. }
  destruct (Qeq_bool (median vals) 0) eqn:Hmed.
  { exists 0. by split. }
  destruct (filter _ vals) as [|k ks].
  - eexists. split; [reflexivity|]. intros Hnone.
    apply Hzero in Hnone. congruence.
  - eexists. split; [reflexivity|]. intros Hnone.
    apply Hzero in Hnone. congruence.
Qed.

(** ** File events between cycles *)

Lemma run_file_events (cs : list callback) (w : world) (h : FileMonitorHandler) :
  file_monitor_handler_global w = Some h ->
  run w (map FileEvent cs) = set_handler (Some (deliver h cs)) w.
Proof.
  revert w h. induction cs as [|c cs IH]; intros w h Hh.
  - cbn. destruct w; cbn in *. by rewrite Hh.
  - change (run w (map FileEvent (c :: cs)))
      with (run (deliver_callback c w) (map FileEvent cs)).
    rewrite (IH _ (dispatch h c)).
    + unfold deliver_callback, set_handler. by rewrite Hh.
    + unfold deliver_callback. cbn. by rewrite Hh.
Qed.

(** X4.  File events that arrive between two cycles are merged with
    those still pending and counted once per distinct path by the next
    gathering pass, which leaves the three sets empty. *)
Theorem file_events_reach_snapshot (cs : list callback) (src : sources)
    (w : world) (h : FileMonitorHandler) :
  file_monitor_handler_global w = Some h ->
  exists (data : dict) (w' : world),
    collect_system_data src (run w (map FileEvent cs)) = (Ok data, w') /\
    data !! "modified"
      = Some (VInt (size (list_to_set (omap modified_path cs)
                          ∪ modified_files h))) /\
    data !! "renamed"
      = Some (VInt (size (list_to_set (omap renamed_path cs)
                          ∪ renamed_files h))) /\
    data !! "deleted"
      = Some (VInt (size (list_to_set (omap deleted_path cs)
                          ∪ deleted_files h))) /\
    file_monitor_handler_global w' = Some (Handler ∅ ∅ ∅).
Proof.
  intros Hh. rewrite (run_file_events cs w h Hh).
  destruct (deliver_sets cs h) as (Hm & Hr & Hd).
  eexists _, _. split; [apply collect_system_data_spec|].
  cbn [file_monitor_handler_global set_handler drain_file_events
       get_file_event_counts fst snd].
  rewrite <- Hm, <- Hr, <- Hd. by repeat split.
Qed.

Lemma file_events_reach_snapshot_witness :
  exists data w',
    collect_system_data calm_sources
      (run startup_world (map FileEvent [modify_file "c.txt"]))
    = (Ok data, w') /\
    file_monitor_handler_global w' = Some (Handler ∅ ∅ ∅).
Proof.
  destruct (file_events_reach_snapshot [modify_file "c.txt"] calm_sources
              startup_world (Handler {["a.txt"; "b.txt"]} ∅ ∅) eq_refl)
    as (data & w' & Hdata & _ & _ & _ & Hh).
  exists data, w'. split; [exact Hdata | exact Hh].
Defined.

(** ** Baseline update: errors, keys and convergence *)

(** What a successful pass over [items] leaves in the accumulator. *)
Lemma update_items_inv (items : list (string * stats)) (new_data : dict)
    (alpha : Q) (updated result : gmap string stats) :
  NoDup items.*1 ->
  update_items items new_data alpha updated = Ok result ->
  (forall key st, (key, st) ∈ items ->
     exists x, new_value_of new_data key st = Ok x /\
               result !! key = Some (update_stats alpha st x)) /\
  (forall key, key ∉ items.*1 -> result !! key = updated !! key).
Proof.
  revert updated. induction items as [|[k st] items IH]; intros updated Hnd Hres.
  - injection Hres as <-. split; [|done].
    intros key st Hin. by apply elem_of_nil in Hin.
  - apply NoDup_cons in Hnd as [Hk Hnd]. simpl in Hres.
    destruct (new_value_of new_data k st) as [x|e] eqn:Hx; [|done].
    simpl in Hres. destruct (IH _ Hnd Hres) as [Hin Hout]. split.
    + intros key st' Hel. apply elem_of_cons in Hel as [Heq|Hel].
      * injection Heq as -> ->. exists x. split; [done|].
        rewrite Hout by done. apply lookup_insert_eq.
      * by apply Hin.
    + intros key Hkey. simpl in Hkey.
      apply not_elem_of_cons in Hkey as [Hne Hkey].
      rewrite Hout by done. by rewrite lookup_insert_ne.
Qed.

Lemma update_baseline_inv (baseline updated : gmap string stats)
    (new_data : dict) (alpha : Q) :
  update_baseline baseline new_data alpha = Ok updated ->
  forall key,
    match baseline !! key with
    | Some st =>
        exists x, new_value_of new_data key st = Ok x /\
                  updated !! key = Some (update_stats alpha st x)
    | None => updated !! key = None
    end.
Proof.
  intros Hupd key.
  destruct (update_items_inv (map_to_list baseline) new_data alpha ∅ updated
              (NoDup_fst_map_to_list _) Hupd) as [Hin Hout].
  destruct (baseline !! key) as [st|] eqn:E.
  - apply Hin. by apply elem_of_map_to_list.
  - rewrite Hout; [done|]. intros Hel.
    apply list_elem_of_fmap in Hel as ([k' st] & -> & Hel).
    apply elem_of_map_to_list in Hel. simpl in E. congruence.
Qed.

Lemma update_items_raise (items : list (string * stats)) (new_data : dict)
    (alpha : Q) (updated : gmap string stats) (e : exn) :
  update_items items new_data alpha updated = Raise e ->
  e = TypeError /\
  exists key st v, (key, st) ∈ items /\ new_data !! key = Some v /\
                   not_a_number v.
Proof.
  revert updated. induction items as [|[k st] items IH]; intros updated Hres;
    [done|].
  simpl in Hres. unfold new_value_of in Hres at 1.
  destruct (new_data !! k) as [v|] eqn:Hv.
  - destruct (as_number v) as [x|e'] eqn:Hn; simpl in Hres.
    + destruct (IH _ Hres) as (He & key & st' & v' & Hin & Hrest).
      split; [done|]. exists key, st', v'. split; [by right | done].
    + injection Hres as <-.
      assert (e' = TypeError) as -> by (destruct v; simpl in Hn; congruence).
      split; [done|]. exists k, st, v. split; [left | done].
  - simpl in Hres. destruct (IH _ Hres) as (He & key & st' & v' & Hin & Hrest).
    split; [done|]. exists key, st', v'. split; [by right | done].
Qed.

Lemma update_items_poisoned (items : list (string * stats)) (new_data : dict)
    (alpha : Q) (updated : gmap string stats) (key : string) (st : stats)
    (v : value) :
  (key, st) ∈ items -> new_data !! key = Some v -> not_a_number v ->
  update_items items new_data alpha updated = Raise TypeError.
Proof.
  revert updated. induction items as [|[k st0] items IH]; intros updated Hin Hv Hn.
  { by apply elem_of_nil in Hin. }
  simpl. unfold new_value_of at 1.
  destruct (decide (k = key)) as [->|Hne].
  - rewrite Hv, Hn. done.
  - apply elem_of_cons in Hin as [Heq|Hin]; [congruence|].
    destruct (new_data !! k) as [v0|].
    + destruct (as_number v0) as [x|e] eqn:E0; simpl.
      * by apply IH.
      * destruct v0; simpl in E0; congruence.
    + simpl. by apply IH.
Qed.

(** X5.  For readings and stored statistics within the binary64
    range, the baseline update with the smoothing factor 0.1 raises
    exactly when some tracked feature has a reading that is not a
    number; the exception is [TypeError] and no partial result is
    returned.  (Beyond that range Python raises [OverflowError] when it
    converts an [int] reading to [float].) *)
Theorem update_baseline_raises_iff (baseline : gmap string stats)
    (new_data : dict) (e : exn) :
  (forall key st, baseline !! key = Some st ->
     Qabs (mean st) <= max_float /\ Qabs (std st) <= max_float) ->
  (forall key st v, baseline !! key = Some st -> new_data !! key = Some v ->
     representable v) ->
  update_baseline baseline new_data default_alpha = Raise e <->
  e = TypeError /\
  exists key st v, baseline !! key = Some st /\ new_data !! key = Some v /\
                   not_a_number v.
Proof.
  intros _ _. split.
  - intros He. apply update_items_raise in He
      as (-> & key & st & v & Hin & Hv & Hn).
    split; [done|]. exists key, st, v.
    split; [by apply elem_of_map_to_list | done].
  - intros (-> & key & st & v & Hk & Hv & Hn).
    eapply update_items_poisoned; [|done..]. by apply elem_of_map_to_list.
Qed.

Lemma seed_in_range (key : string) (st : stats) :
  initial_baseline_stats !! key = Some st ->
  Qabs (mean st) <= max_float /\ Qabs (std st) <= max_float.
Proof.
  intros Hk. unfold initial_baseline_stats in Hk.
  apply (elem_of_list_to_map_2 (M := gmap string)) in Hk.
  change (Qabs (mean (key, st).2) <= max_float /\
          Qabs (std (key, st).2) <= max_float).
  revert Hk. generalize (key, st). apply Forall_forall.
  repeat (apply Forall_cons; split; [split; vm_compute; discriminate|]).
  apply Forall_nil_2.
Qed.

Lemma update_baseline_raises_iff_witness :
  update_baseline initial_baseline_stats {["cpu_usage" := VNone]}
    default_alpha = Raise TypeError.
Proof.
  apply (update_baseline_raises_iff initial_baseline_stats
           {["cpu_usage" := VNone]} TypeError seed_in_range).
  - intros key st v _ Hv. apply lookup_singleton_Some in Hv as [_ <-].
    exact I.
  - split; [reflexivity|]. exists "cpu_usage", (Stats 20 5), VNone.
    split; [reflexivity|]. split; [reflexivity|]. reflexivity.
Defined.

(** X6.  A successful update has exactly the keys of the old baseline:
    readings of features that the baseline does not track are ignored
    and no tracked feature is dropped. *)
Theorem update_baseline_same_keys (baseline updated : gmap string stats)
    (new_data : dict) (alpha : Q) :
  update_baseline baseline new_data alpha = Ok updated ->
  dom updated = dom baseline.
Proof.
  intros Hupd. apply set_eq. intros key. rewrite !elem_of_dom.
  pose proof (update_baseline_inv _ _ _ _ Hupd key) as H.
  destruct (baseline !! key) as [st|].
  - destruct H as (x & _ & ->). split; by eexists.
  - rewrite H. done.
Qed.

Lemma hot_cpu_numeric :
  numeric_on initial_baseline_stats {["cpu_usage" := VNum 100]}.
Proof.
  intros key st v _ Hv. apply lookup_singleton_Some in Hv as [_ <-].
  by eexists.
Qed.

Lemma update_baseline_same_keys_witness :
  exists updated,
    update_baseline initial_baseline_stats {["cpu_usage" := VNum 100]}
      default_alpha = Ok updated /\
    dom updated = dom initial_baseline_stats.
Proof.
  destruct (update_baseline_ok initial_baseline_stats
              {["cpu_usage" := VNum 100]} default_alpha hot_cpu_numeric)
    as (updated & Hres & _).
  exists updated. split; [exact Hres|].
  exact (update_baseline_same_keys _ _ _ _ Hres).
Defined.

(** X7.  A tracked feature without a reading keeps its mean, and its
    spread decays by the factor [1 - alpha]. *)
Theorem update_baseline_missing_reading (baseline updated : gmap string stats)
    (new_data : dict) (alpha : Q) (key : string) (st : stats) :
  update_baseline baseline new_data alpha = Ok updated ->
  baseline !! key = Some st ->
  new_data !! key = None ->
  exists st', updated !! key = Some st' /\
              mean st' == mean st /\ std st' == (1 - alpha) * std st.
Proof.
  intros Hupd Hk Hv.
  pose proof (update_baseline_inv _ _ _ _ Hupd key) as H. rewrite Hk in H.
  destruct H as (x & Hx & Hl). unfold new_value_of in Hx. rewrite Hv in Hx.
  injection Hx as <-. eexists. split; [exact Hl|]. unfold update_stats; cbn [mean std].
  split; [ring|].
  assert (Hz : mean st - ((1 - alpha) * mean st + alpha * mean st) == 0) by ring.
  rewrite Hz. change (Qabs 0) with 0. ring.
Qed.

Lemma update_baseline_missing_reading_witness :
  exists updated st',
    update_baseline initial_baseline_stats {["cpu_usage" := VNum 100]}
      default_alpha = Ok updated /\
    updated !! "memory_usage" = Some st' /\
    mean st' == 30 /\ std st' == 9.
Proof.
  destruct (update_baseline_ok initial_baseline_stats
              {["cpu_usage" := VNum 100]} default_alpha hot_cpu_numeric)
    as (updated & Hres & _).
  destruct (update_baseline_missing_reading initial_baseline_stats updated
              {["cpu_usage" := VNum 100]} default_alpha "memory_usage"
              (Stats 30 10) Hres eq_refl eq_refl)
    as (st' & Hl & Hm & Hs).
  exists updated, st'. split; [exact Hres|]. split; [exact Hl|].
  split; [exact Hm|]. rewrite Hs. reflexivity.
Defined.

Lemma Qabs_scale (a x : Q) : 0 <= a -> Qabs (a * x) == a * Qabs x.
Proof.
  intros Ha. rewrite Qabs_Qmult. by rewrite (Qabs_pos a).
Qed.

(** X8.  With a smoothing factor in [0, 1] spreads stay non-negative,
    the new mean lies between the old mean and the reading, and its
    distance to the reading shrinks by the factor [1 - alpha]. *)
Theorem update_baseline_contracts (baseline updated : gmap string stats)
    (new_data : dict) (alpha : Q) :
  0 <= alpha <= 1 ->
  update_baseline baseline new_data alpha = Ok updated ->
  (forall key st, baseline !! key = Some st -> 0 <= std st) ->
  (forall key st', updated !! key = Some st' -> 0 <= std st') /\
  (forall key st st' v,
     baseline !! key = Some st -> new_data !! key = Some (VNum v) ->
     updated !! key = Some st' ->
     (mean st <= v -> mean st <= mean st' <= v) /\
     (v <= mean st -> v <= mean st' <= mean st) /\
     Qabs (v - mean st') == (1 - alpha) * Qabs (v - mean st)).
Proof.
  intros [Ha0 Ha1] Hupd Hstd. split.
  - intros key st' Hl.
    pose proof (update_baseline_inv _ _ _ _ Hupd key) as H.
    destruct (baseline !! key) as [st|] eqn:Hk; [|congruence].
    destruct H as (x & _ & Hl'). rewrite Hl' in Hl. injection Hl as <-.
    unfold update_stats; cbn [mean std]. specialize (Hstd key st Hk).
    pose proof (Qabs_nonneg
      (x - ((1 - alpha) * mean st + alpha * x))) as Habs.
    assert (0 <= (1 - alpha) * std st) by (apply Qmult_le_0_compat; lra).
    assert (0 <= alpha * Qabs (x - ((1 - alpha) * mean st + alpha * x)))
      by (apply Qmult_le_0_compat; lra).
    lra.
  - intros key st st' v Hk Hv Hl.
    pose proof (update_baseline_inv _ _ _ _ Hupd key) as H. rewrite Hk in H.
    destruct H as (x & Hx & Hl'). unfold new_value_of in Hx. rewrite Hv in Hx.
    injection Hx as <-. rewrite Hl' in Hl. injection Hl as <-.
    unfold update_stats; cbn [mean std]. split.
    + intros Hle. nra.
    + split; [intros Hle; nra|].
      assert (Hd : v - ((1 - alpha) * mean st + alpha * v)
                   == (1 - alpha) * (v - mean st)) by ring.
      rewrite Hd. apply Qabs_scale. lra.
Qed.

Lemma seed_spreads (key : string) (st : stats) :
  initial_baseline_stats !! key = Some st -> 0 <= std st.
Proof.
  intros Hk. unfold initial_baseline_stats in Hk.
  apply (elem_of_list_to_map_2 (M := gmap string)) in Hk.
  change (0 <= std (key, st).2). revert Hk. generalize (key, st).
  apply Forall_forall.
  repeat (apply Forall_cons; split; [discriminate|]). apply Forall_nil_2.
Qed.

Lemma update_baseline_contracts_witness :
  exists updated st',
    update_baseline initial_baseline_stats {["cpu_usage" := VNum 100]}
      default_alpha = Ok updated /\
    updated !! "cpu_usage" = Some st' /\
    20 <= mean st' <= 100 /\ 0 <= std st'.
Proof.
  destruct (update_baseline_ok initial_baseline_stats
              {["cpu_usage" := VNum 100]} default_alpha hot_cpu_numeric)
    as (updated & Hres & Hin & _).
  pose proof (Hin "cpu_usage" (Stats 20 5) 100 eq_refl eq_refl) as Hl.
  destruct (update_baseline_contracts initial_baseline_stats updated
              {["cpu_usage" := VNum 100]} default_alpha)
    as [Hstd Hmean]; [split; discriminate | exact Hres | exact seed_spreads |].
  exists updated, (update_stats default_alpha (Stats 20 5) 100).
  split; [exact Hres|]. split; [exact Hl|]. split.
  - destruct (Hmean "cpu_usage" (Stats 20 5) _ 100 eq_refl eq_refl Hl)
      as (Hup & _ & _).
    apply Hup. discriminate.
  - apply (Hstd "cpu_usage"). exact Hl.
Defined.

(** X9.  Observing the same reading [n] times brings the mean of a
    feature geometrically close to it: the remaining distance is the
    initial distance times [(1 - alpha)^n]. *)
Theorem observe_converges (n : nat) (baseline : gmap string stats)
    (new_data : dict) (alpha : Q) (k : string) (st : stats) (v : Q) :
  numeric_on baseline new_data ->
  baseline !! k = Some st ->
  new_data !! k = Some (VNum v) ->
  exists observed st',
    observe n baseline new_data alpha = Ok observed /\
    observed !! k = Some st' /\
    mean st' - v == power (1 - alpha) n * (mean st - v).
Proof.
  revert baseline st. induction n as [|n IH]; intros baseline st Hnum Hk Hv.
  - exists baseline, st. split; [done|]. split; [done|]. simpl. ring.
  - destruct (update_baseline_ok baseline new_data alpha Hnum)
      as (updated & Hres & Hin & Hout).
    assert (Hl : updated !! k = Some (update_stats alpha st v)).
    { apply Hin; [done|]. unfold new_value_of. by rewrite Hv. }
    destruct (IH updated _ (numeric_on_updated _ _ _ Hout Hnum) Hl Hv)
      as (observed & st' & Hobs & Hl' & Hm).
    exists observed, st'. split.
    { simpl. rewrite Hres. exact Hobs. }
    split; [done|]. rewrite Hm. unfold update_stats; cbn [mean power]. ring.
Qed.

Lemma observe_converges_witness :
  exists observed st',
    observe 2 initial_baseline_stats {["cpu_usage" := VNum 100]}
      default_alpha = Ok observed /\
    observed !! "cpu_usage" = Some st' /\ mean st' == 352 # 10.
Proof.
  destruct (observe_converges 2 initial_baseline_stats
              {["cpu_usage" := VNum 100]} default_alpha "cpu_usage"
              (Stats 20 5) 100 hot_cpu_numeric eq_refl eq_refl)
    as (observed & st' & Hobs & Hl & Hm).
  exists observed, st'. split; [exact Hobs|]. split; [exact Hl|].
  assert (Hp : power (1 - default_alpha) 2 * (mean (Stats 20 5) - 100)
               == - (648 # 10)) by reflexivity.
  rewrite Hp in Hm. lra.
Defined.

(** ** Detector: band form and consulted entries *)

Lemma lookup_all_ext (d1 d2 : dict) (keys : list string) :
  (forall key, key ∈ keys -> d1 !! key = d2 !! key) ->
  lookup_all d1 keys = lookup_all d2 keys.
Proof.
  induction keys as [|key rest IH]; intros H; [done|].
  simpl. unfold getitem. rewrite (H key) by left.
  rewrite IH; [done|]. intros k Hk. apply H. by right.
Qed.

Lemma number_at_ext (d1 d2 : dict) (key : string) :
  d1 !! key = d2 !! key -> number_at d1 key = number_at d2 key.
Proof. intros H. unfold number_at, getitem. by rewrite H. Qed.

Lemma sudden_anomaly_loop_ext (d1 d2 : dict) (keys : list string) (w : world) :
  (forall key, key ∈ keys -> d1 !! key = d2 !! key) ->
  sudden_anomaly_loop d1 keys w = sudden_anomaly_loop d2 keys w.
Proof.
  induction keys as [|key rest IH]; intros H; [done|].
  rewrite !sudden_anomaly_loop_cons.
  assert (Hk : d1 !! key = d2 !! key) by (apply H; left).
  unfold deviates, log_info.
  rewrite (number_at_ext d1 d2 key Hk).
  rewrite (lookup_all_ext d1 d2 [key]).
  2:{ intros k Hin. apply list_elem_of_singleton in Hin as ->. done. }
  rewrite IH; [done|]. intros k Hin. apply H. by right.
Qed.

(** X10.  Nothing but the six consulted entries of the snapshot reaches
    the detector: two snapshots that agree on them get the same verdict
    and the same log records, whatever their other entries are. *)
Theorem detector_reads_six_keys (d1 d2 : dict) (w : world) :
  (forall key, key ∈ watch_list ++ file_event_keys -> d1 !! key = d2 !! key) ->
  sudden_anomaly_check d1 w = sudden_anomaly_check d2 w.
Proof.
  intros H. rewrite !sudden_anomaly_check_unfold.
  rewrite (sudden_anomaly_loop_ext d1 d2 watch_list w).
  2:{ intros k Hk. apply H. apply elem_of_app. by left. }
  unfold file_event_rule, at_least_30, log_info.
  rewrite (number_at_ext d1 d2 "modified"), (number_at_ext d1 d2 "renamed"),
    (number_at_ext d1 d2 "deleted") by (apply H; set_solver).
  rewrite (lookup_all_ext d1 d2 file_event_keys).
  2:{ intros k Hk. apply H. apply elem_of_app. by right. }
  reflexivity.
Qed.

Lemma detector_reads_six_keys_witness :
  sudden_anomaly_check (<["cpu_usage" := VNum 99]> (reading 60 2)) startup_world
  = sudden_anomaly_check (reading 60 2) startup_world.
Proof.
  apply detector_reads_six_keys. intros key Hkey.
  assert (Hcpu : "cpu_usage" ∉ watch_list ++ file_event_keys)
    by (by apply (bool_decide_unpack _)).
  apply lookup_insert_ne. intros <-. exact (Hcpu Hkey).
Defined.

(** X11.  For a positive baseline mean the relative rule is a band: it
    fires exactly when the reading is below 15 % or above 185 % of the
    mean. *)
Theorem deviates_band (base_mean x : Q) (data : dict) (key : string) :
  data !! key = Some (VNum x) ->
  0 < base_mean ->
  deviates base_mean data key = Ok true <->
  x < (15 # 100) * base_mean \/ (185 # 100) * base_mean < x.
Proof.
  intros Hx Hm.
  destruct (deviates_numeric base_mean data key x Hx) as (hit & Hdev & Hhit).
  rewrite Hdev.
  assert (Hscale : 85 # 100 < Qabs (x - base_mean) / base_mean <->
                   (85 # 100) * base_mean < Qabs (x - base_mean)).
  { split; intros H.
    - apply (Qmult_lt_compat_r _ _ base_mean Hm) in H.
      assert (Hc : Qabs (x - base_mean) / base_mean * base_mean
                   == Qabs (x - base_mean)) by (field; lra).
      by rewrite Hc in H.
    - by apply Qlt_shift_div_l. }
  assert (Hband : (85 # 100) * base_mean < Qabs (x - base_mean) <->
                  x < (15 # 100) * base_mean \/ (185 # 100) * base_mean < x).
  { apply Qabs_case; intros Hs; split; intros H; lra. }
  rewrite <- Hband, <- Hscale. split.
  - intros H. injection H as ->. by apply Hhit.
  - intros H. f_equal. apply Hhit. by split.
Qed.

Lemma deviates_band_witness :
  deviates 2 (reading 30 0) "modified" = Ok true.
Proof.
  apply (deviates_band 2 0 (reading 30 0) "modified");
    [reflexivity | reflexivity | left; reflexivity].
Defined.

(** ** Invariants of the globals *)

Section Preserves.
Variable I : world -> Prop.
Hypothesis I_handler : forall h w, I w -> I (set_handler h w).
Hypothesis I_baseline : forall b w, I w -> I (set_baseline_stats b w).
Hypothesis I_effect : forall e w, I w -> I (record_effect e w).
Hypothesis I_fired :
  forall data w, response_triggered_flag w = false -> I w -> I (fired data w).
Hypothesis I_advance : forall d w, I w -> I (advance d w).

Lemma preserves_bind {A B} (m : M A) (f : A -> M B) :
  preserves I m -> (forall a, preserves I (f a)) -> preserves I (m ≫= f).
Proof.
  intros Hm Hf w Hw. unfold mbind, M_bind. specialize (Hm w Hw).
  destruct (m w) as [[a|e] w1]; simpl in *; [|done]. by apply Hf.
Qed.

Lemma preserves_ret {A} (a : A) : preserves I (mret a).
Proof. by intros w Hw. Qed.

Lemma preserves_lift {A} (o : outcome A) : preserves I (lift o).
Proof. by intros w Hw. Qed.

Lemma preserves_gets {A} (f : world -> A) : preserves I (gets f).
Proof. by intros w Hw. Qed.

Lemma preserves_emit (e : effect) : preserves I (emit e).
Proof. intros w Hw. by apply I_effect. Qed.

Lemma preserves_log_info (record : string) (data : dict) (keys : list string) :
  preserves I (log_info record data keys).
Proof.
  apply preserves_bind; [apply preserves_lift|]. intros args.
  apply preserves_emit.
Qed.

Lemma preserves_set_baseline_stats (b : gmap string stats) :
  preserves I (modify (set_baseline_stats b)).
Proof. intros w Hw. by apply I_baseline. Qed.

Lemma preserves_trigger_response (data : dict) :
  preserves I (trigger_response data).
Proof.
  intros w Hw. rewrite trigger_response_spec. cbn [snd].
  destruct (response_triggered_flag w) eqn:E; [done|]. by apply I_fired.
Qed.

Lemma preserves_send_each (clients : list client) (m : message)
    (on_error : string) :
  preserves I (send_each clients m on_error).
Proof.
  induction clients as [|c clients IH]; [apply preserves_ret|].
  cbn [send_each]. apply preserves_bind; [|intros _; exact IH].
  destruct (send_raises c); apply preserves_emit.
Qed.

Ltac preserves_step :=
  first
    [ apply preserves_ret | apply preserves_lift | apply preserves_gets
    | apply preserves_log_info | apply preserves_trigger_response
    | apply preserves_set_baseline_stats | apply preserves_emit
    | apply preserves_send_each
    | apply preserves_bind; [|intros ?]
    | match goal with
      | |- preserves _ (if ?b then _ else _) => destruct b
      | |- preserves _ (match ?o with _ => _ end) => destruct o
      end ].

Lemma preserves_early_alert_loop (data : dict) (keys : list string) :
  preserves I (early_alert_loop data keys).
Proof.
  induction keys as [|key rest IH]; [apply preserves_ret|].
  cbn [early_alert_loop].
  apply preserves_bind; [apply preserves_gets|]. intros base_mean.
  apply preserves_bind; [apply preserves_lift|]. intros fire.
  destruct fire; [|exact IH]. repeat preserves_step.
Qed.

Lemma preserves_check_and_trigger_early_alert (data : dict) :
  preserves I (check_and_trigger_early_alert data).
Proof.
  unfold check_and_trigger_early_alert.
  preserves_step; [apply preserves_early_alert_loop|]. repeat preserves_step.
Qed.

Lemma preserves_sudden_anomaly_loop (data : dict) (keys : list string) :
  preserves I (sudden_anomaly_loop data keys).
Proof.
  induction keys as [|key rest IH]; [apply preserves_ret|].
  cbn [sudden_anomaly_loop].
  apply preserves_bind; [apply preserves_gets|]. intros baseline.
  apply preserves_bind; [apply preserves_lift|]. intros hit.
  destruct hit; [|exact IH]. repeat preserves_step.
Qed.

Lemma preserves_sudden_anomaly_check (data : dict) :
  preserves I (sudden_anomaly_check data).
Proof.
  unfold sudden_anomaly_check.
  preserves_step; [apply preserves_sudden_anomaly_loop|]. repeat preserves_step.
Qed.

Lemma preserves_collect_system_data (src : sources) :
  preserves I (collect_system_data src).
Proof.
  intros w Hw. rewrite collect_system_data_spec. by apply I_handler.
Qed.

Lemma preserves_collect_and_predict (src : sources) :
  preserves I (collect_and_predict src).
Proof.
  unfold collect_and_predict.
  preserves_step; [apply preserves_collect_system_data|].
  preserves_step; [apply preserves_check_and_trigger_early_alert|].
  preserves_step; [apply preserves_lift|].
  preserves_step; [apply preserves_sudden_anomaly_check|].
  cbv zeta. repeat preserves_step.
Qed.

Lemma preserves_periodic_display_iteration (src : sources) :
  preserves I (periodic_display_iteration src).
Proof.
  unfold periodic_display_iteration.
  preserves_step; [apply preserves_collect_and_predict|].
  preserves_step.
  { unfold correlation_engine. destruct (csv_writable src);
      [apply preserves_emit | apply preserves_lift]. }
  unfold notify_live_tracking. repeat preserves_step.
Qed.

Lemma preserves_get_system_data (src : sources) :
  preserves I (get_system_data src).
Proof.
  unfold get_system_data.
  preserves_step; [apply preserves_collect_and_predict | apply preserves_ret].
Qed.

Lemma preserves_handle (s : signal) (w : world) : I w -> I (handle w s).
Proof.
  intros Hw. destruct s as [data|d|src|src|c]; cbn [handle].
  - by apply preserves_trigger_response.
  - by apply I_advance.
  - by apply preserves_periodic_display_iteration.
  - by apply preserves_get_system_data.
  - by apply I_handler.
Qed.

Lemma preserves_run (signals : list signal) (w : world) :
  I w -> I (run w signals).
Proof.
  revert w. induction signals as [|s signals IH]; intros w Hw; [done|].
  change (run w (s :: signals)) with (run (handle w s) signals).
  by apply IH, preserves_handle.
Qed.

End Preserves.

(** X12.  Once an alert has set [action_blocked], nothing that can
    happen to the monitor clears it again. *)
Theorem action_blocked_latches (signals : list signal) (w : world) :
  action_blocked w = true -> action_blocked (run w signals) = true.
Proof.
  apply (preserves_run (fun w => action_blocked w = true)); try done.
  intros d w' Hw'. unfold advance. by destruct (filter _ _).
Qed.

Lemma rearming_advance (d : N) (w : world) : rearming w -> rearming (advance d w).
Proof.
  unfold rearming, advance. intros Hw.
  destruct (response_triggered_flag w) eqn:Hflag.
  - destruct Hw as (r & -> & Hr). rewrite !filter_cons, !filter_nil.
    destruct (decide (r ≤ clock w + d)%N) as [Hdue|Hwait].
    + rewrite decide_False by (intros H; by apply H). reflexivity.
    + rewrite decide_True by done. cbn. rewrite Hflag.
      exists r. split; [done|]. lia.
  - rewrite Hw, !filter_nil. cbn. by rewrite Hflag.
Qed.

Lemma rearming_run (signals : list signal) (w : world) :
  rearming w -> rearming (run w signals).
Proof.
  apply (preserves_run rearming); try done.
  - intros data w' Hflag Hw'. unfold rearming in *. rewrite Hflag in Hw'.
    cbn. rewrite Hw'. exists (clock w' + 60)%N. split; [done | lia].
  - apply rearming_advance.
Qed.

(** X13.  Whatever has happened to the monitor, once the event loop has
    run for 60 time units without a new signal the dispatcher is ready
    again: the flag is clear and no reset is pending. *)
Theorem alert_rearms (signals : list signal) (w : world) (d : N) :
  rearming w -> (60 <= d)%N ->
  response_triggered_flag (advance d (run w signals)) = false /\
  pending_resets (advance d (run w signals)) = [].
Proof.
  intros Hw Hd. apply (rearming_run signals) in Hw.
  revert Hw. generalize (run w signals). intros w' Hw'.
  unfold rearming in Hw'. unfold advance.
  destruct (response_triggered_flag w') eqn:Hflag.
  - destruct Hw' as (r & -> & Hr). rewrite !filter_cons, !filter_nil.
    rewrite decide_True by lia. rewrite decide_False by (intros H; apply H; lia).
    done.
  - rewrite Hw', !filter_nil. cbn. by rewrite Hflag.
Qed.

Lemma action_blocked_latches_witness :
  action_blocked
    (run (fired (reading 60 2) startup_world)
       [Elapse 100; PollIteration calm_sources]) = true.
Proof.
  exact (action_blocked_latches [Elapse 100; PollIteration calm_sources]
           (fired (reading 60 2) startup_world) eq_refl).
Defined.

Lemma alert_rearms_witness :
  response_triggered_flag
    (advance 60 (run startup_world [Anomaly (reading 60 2)])) = false /\
  pending_resets
    (advance 60 (run startup_world [Anomaly (reading 60 2)])) = [].
Proof.
  exact (alert_rearms [Anomaly (reading 60 2)] startup_world 60 eq_refl
           (N.le_refl 60)).
Defined.

(** ** Cycles that abort *)

Lemma lookup_all_present (data : dict) (keys : list string) (vs : list value) :
  lookup_all data keys = Ok vs ->
  forall key, key ∈ keys -> is_Some (data !! key).
Proof.
  revert vs. induction keys as [|k rest IH]; intros vs Hall key Hkey.
  { by apply elem_of_nil in Hkey. }
  simpl in Hall. unfold getitem in Hall.
  destruct (data !! k) as [v|] eqn:Hv; [|done]. simpl in Hall.
  destruct (lookup_all data rest) as [vs'|e] eqn:Hrest; [|done].
  apply elem_of_cons in Hkey as [->|Hkey]; [by rewrite Hv|].
  by eapply IH.
Qed.

Lemma frozen_effect b h (e : effect) (w : world) :
  frozen b h w -> frozen b h (record_effect e w).
Proof. done. Qed.

Lemma frozen_fired b h (data : dict) (w : world) :
  response_triggered_flag w = false -> frozen b h w -> frozen b h (fired data w).
Proof. done. Qed.

(** X14.  A cycle that raises leaves the baseline as it was, and the
    handler as the gathering pass left it: the counts read by the
    aborted cycle are not kept. *)
Theorem aborted_cycle_keeps_baseline (src : sources) (w w' : world) (e : exn) :
  collect_and_predict src w = (Raise e, w') ->
  baseline_stats w' = baseline_stats w /\
  file_monitor_handler_global w'
    = snd (drain_file_events (file_monitor_handler_global w)).
Proof.
  set (h := snd (drain_file_events (file_monitor_handler_global w))).
  set (data := snapshot src (fst (drain_file_events (file_monitor_handler_global w)))).
  set (w1 := set_handler h w).
  assert (H1 : frozen (baseline_stats w) h w1) by done.
  unfold collect_and_predict. unfold mbind at 1, M_bind at 1.
  rewrite collect_system_data_spec. fold h data w1.
  unfold mbind at 1, M_bind at 1.
  pose proof (preserves_check_and_trigger_early_alert _
    (frozen_effect _ _) (frozen_fired _ _) data w1 H1) as H2.
  destruct (check_and_trigger_early_alert data w1) as [[[]|e2] w2];
    cbn [snd] in H2; [|by intros [= _ <-]].
  unfold mbind at 1, M_bind at 1. unfold lift at 1.
  destruct (lookup_all data feature_keys) as [vs|e3] eqn:Hall;
    [|by intros [= _ <-]].
  unfold mbind at 1, M_bind at 1.
  pose proof (preserves_sudden_anomaly_check _
    (frozen_effect _ _) data w2 H2) as H3.
  destruct (sudden_anomaly_check data w2) as [[sudden|e4] w3];
    cbn [snd] in H3; [|by intros [= _ <-]].
  cbv zeta. set (labelled := classify (detection_of sudden) data).
  assert (Hsel : forall b, exists features,
            select (<["response_triggered" := VBool b]> labelled) feature_keys
            = Ok features).
  { intros b. destruct (select_ok (<["response_triggered" := VBool b]> labelled)
                          feature_keys) as (features & Hsel & _); [|by eexists].
    intros key Hkey. unfold labelled.
    rewrite labelled_lookup
      by by apply baseline_keys_not_derived, feature_keys_tracked.
    by eapply lookup_all_present. }
  unfold mbind at 1, M_bind at 1.
  destruct sudden; cbn [detection_of Nat.eqb].
  - unfold mbind at 1, M_bind at 1.
    pose proof (preserves_trigger_response _ (frozen_fired _ _) labelled w3 H3)
      as H4.
    destruct (trigger_response labelled w3) as [[[]|e5] w4];
      cbn [snd] in H4; [|by intros [= _ <-]].
    unfold mret at 1, M_ret at 1.
    unfold mbind at 1, M_bind at 1, gets at 1.
    unfold mbind at 1, M_bind at 1, lift at 1.
    destruct (update_baseline _ _ _) as [updated|e6]; [|by intros [= _ <-]].
    unfold mbind at 1, M_bind at 1, modify at 1.
    unfold mbind at 1, M_bind at 1, lift at 1.
    destruct (Hsel true) as [features ->]. done.
  - unfold mret at 1, M_ret at 1.
    unfold mbind at 1, M_bind at 1, gets at 1.
    unfold mbind at 1, M_bind at 1, lift at 1.
    destruct (update_baseline _ _ _) as [updated|e6]; [|by intros [= _ <-]].
    unfold mbind at 1, M_bind at 1, modify at 1.
    unfold mbind at 1, M_bind at 1, lift at 1.
    destruct (Hsel false) as [features ->]. done.
Qed.

Lemma aborted_cycle_keeps_baseline_witness :
  exists w',
    collect_and_predict memory_probe_down startup_world = (Raise TypeError, w') /\
    baseline_stats w' = baseline_stats startup_world.
Proof.
  destruct (sampler_exhaustion_raises memory_probe_down startup_world)
    as (_ & Hc & _); [done | reflexivity |].
  destruct (collect_and_predict memory_probe_down startup_world)
    as [o w'] eqn:E.
  cbn [fst] in Hc. subst o. exists w'. split; [reflexivity|].
  exact (proj1 (aborted_cycle_keeps_baseline _ _ _ _ E)).
Defined.

Lemma snapshot_consulted (src : sources) (file_events : gmap string nat) :
  responds (virtual_memory_percent src) 5 ->
  responds (disk_usage_percent src) 5 ->
  numbers_at (snapshot src file_events) (watch_list ++ file_event_keys).
Proof.
  intros Hmem Hdisk.
  destruct (responds_robust_average _ 5 default_outlier_threshold Hmem) as [q2 H2].
  destruct (responds_robust_average _ 5 default_outlier_threshold Hdisk) as [q3 H3].
  intros key Hkey. unfold snapshot, get_memory_usage, get_disk_usage.
  rewrite H2, H3. unfold watch_list, file_event_keys in Hkey. simpl in Hkey.
  each_key Hkey ltac:(by eexists).
Qed.

Lemma snapshot_present (src : sources) (file_events : gmap string nat)
    (key : string) :
  key ∈ baseline_keys -> is_Some (snapshot src file_events !! key).
Proof.
  intros Hkey. unfold snapshot, baseline_keys in *.
  each_key Hkey ltac:(by eexists).
Qed.

(** The world that a cycle leaves when the CPU reading is [None]. *)
Lemma cpu_exhaustion_spec (src : sources) (w : world) :
  (forall i, (i < 5)%nat -> cpu_percent src i = None) ->
  responds (virtual_memory_percent src) 5 ->
  responds (disk_usage_percent src) 5 ->
  is_Some (baseline_stats w !! "cpu_usage") ->
  let drained := drain_file_events (file_monitor_handler_global w) in
  let data := snapshot src (fst drained) in
  exists (sudden : bool) (logs1 logs2 : list (N * effect)),
    fst (sudden_anomaly_check data w) = Ok sudden /\
    (sudden = true <->
       relative_rule (baseline_stats w) data \/ absolute_rule data) /\
    Forall (fun te => is_log (snd te) = true) logs1 /\
    Forall (fun te => is_log (snd te) = true) logs2 /\
    collect_and_predict src w =
      (Raise TypeError,
       World (snd drained) (baseline_stats w)
         (response_triggered_flag w || sudden)
         (action_blocked w || (sudden && negb (response_triggered_flag w)))
         (connected_clients w) (clock w)
         (pending_resets w ++
            (if sudden && negb (response_triggered_flag w)
             then [(clock w + 60)%N] else []))
         (logs2 ++
            (if sudden && negb (response_triggered_flag w)
             then dispatched data w else []) ++ logs1 ++ trace w)).
Proof.
  intros Hcpu Hmem Hdisk [st Hst] drained data.
  set (w1 := set_handler (snd drained) w).
  assert (Hnum6 : numbers_at data (watch_list ++ file_event_keys))
    by by apply snapshot_consulted.
  assert (Hnone : data !! "cpu_usage" = Some VNone).
  { unfold data, snapshot, get_cpu_usage, robust_average.
    by rewrite (proj2 (collect_nil _ _) Hcpu). }
  destruct (check_and_trigger_early_alert_numeric data w1 Hnum6)
    as (fires & logs1 & Hearly & Hlogs1 & Hnil1 & Hfires).
  set (w2 := if fires then snd (trigger_response data (add_trace logs1 w1)) else w1)
    in Hearly.
  assert (Hbase2 : baseline_stats w2 = baseline_stats w).
  { unfold w2. destruct fires; [|done].
    by destruct (trigger_response_frame data (add_trace logs1 w1)) as (_ & -> & _). }
  destruct (sudden_anomaly_check_numeric data w2 Hnum6)
    as (sudden & logs2 & Hcheck & Hlogs2 & Hnil2 & Hsudden).
  rewrite Hbase2 in Hsudden. change (baseline_stats w1) with (baseline_stats w) in Hfires.
  assert (fires = sudden) as Heq.
  { destruct fires, sudden; try done.
    - assert (false = true) by (apply Hsudden, Hfires; done). done.
    - assert (false = true) by (apply Hfires, Hsudden; done). done. }
  destruct (lookup_all_ok data feature_keys) as (vs & Hall).
  { intros key Hkey. by apply snapshot_present, feature_keys_tracked. }
  exists sudden, logs1, logs2.
  split.
  { rewrite (sudden_anomaly_check_fst data w w2) by done. by rewrite Hcheck. }
  split; [done|]. split; [done|]. split; [done|].
  unfold collect_and_predict.
  erewrite bind_ok by apply collect_system_data_spec.
  erewrite bind_ok by exact Hearly.
  erewrite bind_ok by (unfold lift; fold drained; fold data; rewrite Hall; reflexivity).
  erewrite bind_ok by exact Hcheck.
  cbv zeta.
  set (labelled := classify (detection_of sudden) data).
  assert (Hupd : forall b, update_baseline (baseline_stats w)
            (<["response_triggered" := VBool b]> labelled) default_alpha
            = Raise TypeError).
  { intros b.
    apply (update_items_poisoned _ _ _ _ "cpu_usage" st VNone);
      [by apply elem_of_map_to_list | | done].
    unfold labelled. rewrite labelled_lookup; [done|].
    by apply (bool_decide_unpack _). }
  subst fires. destruct sudden.
  - simpl Nat.eqb. cbv iota.
    erewrite bind_ok; cycle 1.
    { erewrite bind_ok by (rewrite trigger_response_spec; reflexivity).
      reflexivity. }
    erewrite bind_ok by reflexivity.
    assert (Hflag3 : response_triggered_flag (add_trace logs2 w2) = true).
    { unfold w2. simpl.
      by destruct (trigger_response_frame data (add_trace logs1 w1))
        as (_ & _ & _ & _ & ->). }
    rewrite Hflag3. simpl baseline_stats. rewrite Hbase2.
    erewrite bind_raise by (unfold lift; rewrite Hupd; reflexivity).
    f_equal.
    unfold w2. rewrite trigger_response_spec. simpl.
    destruct (response_triggered_flag w) eqn:Hflag; simpl.
    + unfold add_trace; simpl.
      f_equal; rewrite ?orb_false_r, ?orb_true_r, ?app_nil_r, <- ?app_assoc;
        done.
    + unfold add_trace, fired, dispatched; simpl.
      f_equal; rewrite ?orb_false_r, ?orb_true_r, ?app_nil_r, <- ?app_assoc;
        done.
  - simpl Nat.eqb. cbv iota.
    erewrite bind_ok by reflexivity.
    erewrite bind_ok by reflexivity.
    simpl baseline_stats. rewrite ?Hbase2.
    erewrite bind_raise by (unfold lift; rewrite Hupd; reflexivity).
    f_equal.
    unfold w2, add_trace; simpl.
    rewrite (Hnil1 eq_refl), (Hnil2 eq_refl).
    f_equal; rewrite ?orb_false_r, ?orb_true_r, ?app_nil_r, <- ?app_assoc;
      done.
Qed.

(** X15.  When every CPU sample of a batch fails, the detector still
    runs and the directory is still blocked if the rules fire, but the
    cycle then raises [TypeError] at the baseline update: the baseline
    stays as it was. *)
Theorem cpu_sampler_exhaustion (src : sources) (w : world) :
  (forall i, (i < 5)%nat -> cpu_percent src i = None) ->
  responds (virtual_memory_percent src) 5 ->
  responds (disk_usage_percent src) 5 ->
  is_Some (baseline_stats w !! "cpu_usage") ->
  let data :=
    snapshot src (fst (drain_file_events (file_monitor_handler_global w))) in
  exists (sudden : bool) (w' : world),
    fst (sudden_anomaly_check data w) = Ok sudden /\
    collect_and_predict src w = (Raise TypeError, w') /\
    baseline_stats w' = baseline_stats w /\
    response_triggered_flag w' = response_triggered_flag w || sudden /\
    stamps is_block (trace w') =
      (if sudden && negb (response_triggered_flag w) then [clock w] else [])
      ++ stamps is_block (trace w).
Proof.
  intros Hcpu Hmem Hdisk Hbase data.
  destruct (cpu_exhaustion_spec src w Hcpu Hmem Hdisk Hbase)
    as (sudden & logs1 & logs2 & Hcheck & _ & Hlogs1 & Hlogs2 & Hcycle).
  eexists sudden, _. split; [exact Hcheck|]. split; [exact Hcycle|].
  cbn [baseline_stats response_triggered_flag trace].
  split; [reflexivity|]. split; [reflexivity|].
  rewrite !stamps_app.
  rewrite (stamps_logs is_block logs1), (stamps_logs is_block logs2) by done.
  cbn [app]. f_equal.
  destruct (sudden && negb (response_triggered_flag w)); [|done].
  destruct (once_per_dispatch_block w data) as [H|H]; [|done].
  unfold dispatched in H. rewrite stamps_app in H.
  by apply app_eq_nil in H as [_ H].
Qed.

Lemma cpu_sampler_exhaustion_witness :
  fst (collect_and_predict cpu_probe_down startup_world) = Raise TypeError.
Proof.
  destruct (cpu_sampler_exhaustion cpu_probe_down startup_world)
    as (sudden & w' & _ & Hcycle & _).
  - reflexivity.
  - exists 0%nat. split; [lia | by eexists].
  - exists 0%nat. split; [lia | by eexists].
  - by eexists.
  - rewrite Hcycle. reflexivity.
Defined.

(** ** Suppressed alerts and the audit file *)

Lemma out_lookup (features : dict) (sudden : bool) (data : dict) (key : string) :
  key <> "features" -> key ∉ derived_keys ->
  (<["features" := VDict features]>
   (<["response_triggered" := VBool sudden]>
    (classify (detection_of sudden) data))) !! key = data !! key.
Proof.
  intros Hf Hd. rewrite lookup_insert_ne by done. by apply labelled_lookup.
Qed.

Lemma out_labels (features : dict) (sudden : bool) (data : dict) :
  let out := <["features" := VDict features]>
             (<["response_triggered" := VBool sudden]>
              (classify (detection_of sudden) data)) in
  out !! "ml_detection" = Some (VInt (detection_of sudden)) /\
  out !! "state" = Some (VStr (state_of (detection_of sudden))) /\
  out !! "response_triggered" = Some (VBool sudden).
Proof.
  intros out. unfold out, classify. by simplify_map_eq.
Qed.

(** X16.  A cycle whose snapshot is anomalous while the flag is still
    set reports the response as triggered, although nothing is
    dispatched: only log records are added, no reset is scheduled. *)
Theorem suppressed_alert_still_labelled (src : sources) (w : world) :
  healthy src -> tracks_features (baseline_stats w) ->
  response_triggered_flag w = true ->
  let data :=
    snapshot src (fst (drain_file_events (file_monitor_handler_global w))) in
  relative_rule (baseline_stats w) data \/ absolute_rule data ->
  exists (out : dict) (w' : world) (logs : list (N * effect)),
    collect_and_predict src w = (Ok out, w') /\
    out !! "state" = Some (VStr "ransomware detected") /\
    out !! "response_triggered" = Some (VBool true) /\
    trace w' = logs ++ trace w /\
    Forall (fun te => is_log (snd te) = true) logs /\
    pending_resets w' = pending_resets w /\
    action_blocked w' = action_blocked w.
Proof.
  intros Hhealthy Htracks Hflag data Hrule.
  destruct (cycle_spec src w Hhealthy Htracks)
    as (sudden & updated & features & logs1 & logs2 & _ & Hiff & _ & _ &
        Hlogs1 & Hlogs2 & _ & Hcycle).
  assert (sudden = true) as -> by by apply Hiff.
  rewrite Hflag in Hcycle. cbn [orb andb negb] in Hcycle.
  destruct (out_labels features true data) as (_ & Hstate & Hresp).
  eexists _, _, (logs2 ++ logs1). split; [exact Hcycle|].
  split; [exact Hstate|]. split; [exact Hresp|].
  cbn [trace pending_resets action_blocked].
  split; [by rewrite <- app_assoc|]. split; [by apply Forall_app|].
  split; [by rewrite app_nil_r | by rewrite orb_false_r].
Qed.

Lemma suppressed_alert_still_labelled_witness :
  exists out w',
    collect_and_predict calm_sources alerted_world = (Ok out, w') /\
    out !! "response_triggered" = Some (VBool true) /\
    pending_resets w' = [60%N].
Proof.
  destruct (suppressed_alert_still_labelled calm_sources alerted_world
              calm_sources_healthy startup_world_tracks eq_refl)
    as (out & w' & logs & Hcycle & _ & Hresp & _ & _ & Hpending & _).
  - left. exists "modified", 0.
    split; [by apply (bool_decide_unpack _)|].
    split; [reflexivity|]. split; reflexivity.
  - exists out, w'. split; [exact Hcycle|]. split; [exact Hresp|].
    exact Hpending.
Defined.

(** X17.  With an audit file that cannot be opened the poll iteration
    raises [IOError] right after the detection cycle: the baseline
    update and any alert have happened, but no row is written and no
    live-tracking message is sent. *)
Theorem audit_failure_stops_feed (src : sources) (w : world) :
  healthy src -> tracks_features (baseline_stats w) ->
  csv_writable src = false ->
  exists (out : dict) (w1 : world),
    collect_and_predict src w = (Ok out, w1) /\
    periodic_display_iteration src w = (Raise IOError, w1).
Proof.
  intros Hhealthy Htracks Hcsv.
  destruct (cycle_spec src w Hhealthy Htracks)
    as (sudden & updated & features & logs1 & logs2 & _ & _ & _ & _ & _ & _ &
        _ & Hcycle).
  eexists _, _. split; [exact Hcycle|].
  unfold periodic_display_iteration.
  erewrite bind_ok by exact Hcycle.
  unfold correlation_engine. rewrite Hcsv.
  erewrite bind_raise by reflexivity. reflexivity.
Qed.

Lemma audit_failure_stops_feed_witness :
  exists w1,
    periodic_display_iteration audit_file_locked startup_world
    = (Raise IOError, w1).
Proof.
  destruct (audit_failure_stops_feed audit_file_locked startup_world
              calm_sources_healthy startup_world_tracks eq_refl)
    as (out & w1 & _ & Hiter).
  exists w1. exact Hiter.
Defined.

(** X18.  With a writable audit file, an iteration of the poll loop
    appends one row of 19 cells between the cycle and the live feed: the
    time stamp, the fifteen tracked readings of the snapshot, and the
    three labels; no cell is empty. *)
Theorem audit_row_every_cycle (src : sources) (w : world) :
  healthy src -> tracks_features (baseline_stats w) ->
  csv_writable src = true ->
  let data :=
    snapshot src (fst (drain_file_events (file_monitor_handler_global w))) in
  exists (sudden : bool) (row : list value) (out : dict) (w1 w' : world)
         (feed : list (N * effect)),
    fst (sudden_anomaly_check data w) = Ok sudden /\
    collect_and_predict src w = (Ok out, w1) /\
    periodic_display_iteration src w = (Ok tt, w') /\
    trace w' = feed ++ (clock w, Audited row) :: trace w1 /\
    row = VStr (timestamp src)
          :: map (fun k => default VNone (data !! k)) baseline_keys
          ++ [VInt (detection_of sudden);
              VStr (state_of (detection_of sudden));
              VBool sudden] /\
    length row = 19%nat /\
    Forall (fun v => v <> VNone) row.
Proof.
  intros Hhealthy Htracks Hcsv data.
  destruct (cycle_spec src w Hhealthy Htracks)
    as (sudden & updated & features & logs1 & logs2 & Hcheck & _ & _ & _ & _ &
        _ & _ & Hcycle).
  fold data in Hcheck, Hcycle.
  set (out := <["features" := VDict features]>
              (<["response_triggered" := VBool sudden]>
               (classify (detection_of sudden) data))) in *.
  destruct (out_labels features sudden data) as (Hdet & Hstate & Hresp).
  fold out in Hdet, Hstate, Hresp.
  assert (Hcells : forall k, k ∈ "timestamp" :: baseline_keys ->
                     out !! k = data !! k).
  { intros k Hk. apply out_lookup.
    - intros ->. revert Hk. by apply (bool_decide_unpack _).
    - apply elem_of_cons in Hk as [->|Hk];
        [by apply (bool_decide_unpack _) | by apply baseline_keys_not_derived]. }
  assert (Hrow : map (fun k => default VNone (out !! k)) csv_columns
                 = VStr (timestamp src)
                   :: map (fun k => default VNone (data !! k)) baseline_keys
                   ++ [VInt (detection_of sudden);
                       VStr (state_of (detection_of sudden));
                       VBool sudden]).
  { change csv_columns
      with (("timestamp" :: baseline_keys)
            ++ ["ml_detection"; "state"; "response_triggered"]).
    rewrite map_app.
    rewrite (map_ext_in _ (fun k => default VNone (data !! k))
               ("timestamp" :: baseline_keys)).
    2:{ intros k Hk. rewrite Hcells; [done|]. by apply list_elem_of_In. }
    cbn [map]. rewrite Hdet, Hstate, Hresp. reflexivity. }
  eexists sudden,
    (VStr (timestamp src)
     :: map (fun k => default VNone (data !! k)) baseline_keys
     ++ [VInt (detection_of sudden); VStr (state_of (detection_of sudden));
         VBool sudden]), out, _, _, _.
  split; [exact Hcheck|]. split; [exact Hcycle|]. split.
  { unfold periodic_display_iteration.
    erewrite bind_ok by exact Hcycle.
    unfold correlation_engine. rewrite Hcsv.
    erewrite bind_ok by reflexivity.
    unfold notify_live_tracking.
    erewrite bind_ok
      by (unfold lift, getitem, out; rewrite lookup_insert_eq; reflexivity).
    erewrite bind_ok by reflexivity.
    rewrite send_each_spec. reflexivity. }
  split.
  { rewrite <- Hrow. unfold add_trace, record_effect.
    cbn [trace clock connected_clients]. reflexivity. }
  split; [reflexivity|]. split.
  { cbn [length]. rewrite length_app, length_map. reflexivity. }
  apply Forall_cons. split; [done|]. apply Forall_app. split.
  - apply Forall_forall. intros v Hv.
    apply list_elem_of_fmap in Hv as (k & -> & Hk).
    destruct (snapshot_numeric src
                (fst (drain_file_events (file_monitor_handler_global w)))
                Hhealthy k Hk) as [x Hx].
    fold data in Hx. by rewrite Hx.
  - by repeat constructor.
Qed.

Lemma audit_row_every_cycle_witness :
  exists row w',
    periodic_display_iteration calm_sources startup_world = (Ok tt, w') /\
    (0%N, Audited row) ∈ trace w' /\ length row = 19%nat.
Proof.
  destruct (audit_row_every_cycle calm_sources startup_world
              calm_sources_healthy startup_world_tracks eq_refl)
    as (sudden & row & out & w1 & w' & feed & _ & _ & Hiter & Htrace & _ &
        Hlen & _).
  exists row, w'. split; [exact Hiter|]. split; [|exact Hlen].
  rewrite Htrace. apply elem_of_app. right. left.
Defined.

(** ** Cycles without file events *)

Lemma idle_drain (w : world) :
  idle w ->
  default 0%nat
    (fst (drain_file_events (file_monitor_handler_global w)) !! "modified")
  = 0%nat /\
  idle (set_handler (snd (drain_file_events (file_monitor_handler_global w))) w).
Proof.
  intros Hidle. unfold idle in *.
  destruct (file_monitor_handler_global w) as [h|] eqn:Hh.
  - specialize (Hidle h eq_refl). cbn. rewrite Hidle. split; [done|].
    by intros h' [= <-].
  - cbn. split; [done|]. by intros h' [=].
Qed.

(** One cycle without file events: the verdict is "ransomware
    detected", and what the verdict rests on still holds afterwards. *)
Lemma idle_cycle (src : sources) (w : world) :
  healthy src -> tracks_features (baseline_stats w) -> idle w ->
  0 < base_mean_of (baseline_stats w) "modified" ->
  exists (out : dict) (w' : world),
    collect_and_predict src w = (Ok out, w') /\
    out !! "state" = Some (VStr "ransomware detected") /\
    tracks_features (baseline_stats w') /\ idle w' /\
    0 < base_mean_of (baseline_stats w') "modified".
Proof.
  intros Hhealthy Htracks Hidle Hmean.
  destruct (idle_drain w Hidle) as [Hzero Hidle'].
  destruct (cycle_spec src w Hhealthy Htracks)
    as (sudden & updated & features & logs1 & logs2 & _ & Hiff & Hupd & _ & _ &
        _ & _ & Hcycle).
  set (data := snapshot src
                 (fst (drain_file_events (file_monitor_handler_global w)))) in *.
  assert (Hmod : data !! "modified" = Some (VNum 0)).
  { unfold data, snapshot. rewrite Hzero. reflexivity. }
  assert (sudden = true) as ->.
  { apply Hiff. left. exists "modified", 0.
    split; [by apply (bool_decide_unpack _)|]. split; [exact Hmod|].
    split; [exact Hmean|].
    assert (Hone : Qabs (0 - base_mean_of (baseline_stats w) "modified")
                   / base_mean_of (baseline_stats w) "modified" == 1).
    { rewrite Qabs_neg by lra. field. lra. }
    rewrite Hone. reflexivity. }
  destruct (out_labels features true data) as (_ & Hstate & _).
  eexists _, _. split; [exact Hcycle|]. split; [exact Hstate|].
  cbn [baseline_stats]. split; [|split].
  - intros key [st' Hst']. apply Htracks.
    pose proof (update_baseline_inv _ _ _ _ Hupd key) as Hinv.
    destruct (baseline_stats w !! key) as [st|]; [by eexists | congruence].
  - exact Hidle'.
  - pose proof (update_baseline_inv _ _ _ _ Hupd "modified") as Hinv.
    unfold base_mean_of in *.
    destruct (baseline_stats w !! "modified") as [st|] eqn:Hst.
    + destruct Hinv as (x & Hx & ->). unfold new_value_of in Hx.
      rewrite Hmod in Hx. injection Hx as <-.
      unfold update_stats, default_alpha; cbn [mean]. lra.
    + by rewrite Hinv.
Qed.

(** X19.  From a world with no modified file pending and a positive
    baseline mean of "modified", each of [n] successive cycles without
    file events returns the state "ransomware detected": a count of 0
    deviates by 100 % from any positive mean, and the update keeps the
    mean positive. *)
Theorem idle_system_alarms (n : nat) (src : sources) (w : world) :
  healthy src -> tracks_features (baseline_stats w) -> idle w ->
  0 < base_mean_of (baseline_stats w) "modified" ->
  exists (outs : list dict) (w' : world),
    cycles n src w = (Ok outs, w') /\
    length outs = n /\
    Forall (fun out => out !! "state" = Some (VStr "ransomware detected")) outs.
Proof.
  intros Hhealthy. revert w.
  induction n as [|n IH]; intros w Htracks Hidle Hmean.
  - exists [], w. by repeat split.
  - destruct (idle_cycle src w Hhealthy Htracks Hidle Hmean)
      as (out & w1 & Hcycle & Hstate & Htracks1 & Hidle1 & Hmean1).
    destruct (IH w1 Htracks1 Hidle1 Hmean1) as (outs & w' & Hrest & Hlen & Hall).
    exists (out :: outs), w'. split.
    { cbn [cycles]. erewrite bind_ok by exact Hcycle.
      erewrite bind_ok by exact Hrest. reflexivity. }
    split; [by rewrite <- Hlen | by constructor].
Qed.

Lemma idle_system_alarms_witness :
  exists outs w',
    cycles 3 calm_sources alerted_world = (Ok outs, w') /\
    length outs = 3%nat /\
    Forall (fun out => out !! "state" = Some (VStr "ransomware detected")) outs.
Proof.
  apply (idle_system_alarms 3 calm_sources alerted_world
           calm_sources_healthy startup_world_tracks).
  - intros h Hh. injection Hh as <-. reflexivity.
  - reflexivity.
Defined.
